(** * Fitness tracker (homework.py): a shallow embedding and its properties

    The module computes distance, mean speed and spent calories of three
    kinds of workout and renders a one-line report.  The embedding follows
    the Python source:

    - a Python number is an [int] (unbounded, [Z]) or a [float] (IEEE 754
      binary64, Rocq's primitive [float]); the arithmetic operators coerce
      and fail as CPython's do;
    - an instance is its class together with its attribute dictionary;
      [__init__] writes attributes, the methods read them;
    - a method is a computation in a state-and-exception monad over the
      instance it is called on;
    - [float ** 2] ends in the C library's [pow], whose last bit the C
      standard leaves open: the library is a parameter of the embedding,
      and what a property needs of it is a hypothesis of that property. *)

From Stdlib Require Import ZArith List Bool Lia Ascii DecimalString Floats.
From stdpp Require Import base strings gmap.

Set Warnings "-inexact-float".

Open Scope Z_scope.

(** ** Exceptions and results *)

Inductive exn :=
| AttributeError (name : string)
| TypeError
| ValueError (msg : string)
| ZeroDivisionError
| OverflowError
| NotImplementedError.

Inductive result (A : Type) :=
| Ok (a : A)
| Raise (e : exn).

Arguments Ok {A} a.
Arguments Raise {A} e.

#[global] Instance result_ret : MRet result := fun A a => Ok a.

#[global] Instance result_bind : MBind result := fun A B f r =>
  match r with
  | Ok a => f a
  | Raise e => Raise e
  end.

(** ** Python numbers *)

Inductive num :=
| PyInt (z : Z)
| PyFloat (f : float).

(** *** binary64 helpers

    The C library calls CPython makes on doubles, written on the exact
    value [(-1)^s * m * 2^e] of a finite double. *)

(** The double nearest to an integer (ties to even); an infinity when the
    integer is out of range. *)
Definition SF_of_Z (z : Z) : spec_float := binary_normalize prec emax z 0 false.

(** C [fmod]: the exact remainder [x - n*y], [n] the quotient truncated
    towards zero; it has the sign of [x]. *)
Definition SFfmod (x y : spec_float) : spec_float :=
  match x, y with
  | S754_nan, _ | _, S754_nan => S754_nan
  | S754_infinity _, _ => S754_nan
  | _, S754_zero _ => S754_nan
  | S754_zero _, _ => x
  | S754_finite _ _ _, S754_infinity _ => x
  | S754_finite sx mx ex, S754_finite sy my ey =>
      if SFltb (SFabs x) (SFabs y) then x
      else
        let e := Z.min ex ey in
        let r := Z.rem (Zpos mx * 2 ^ (ex - e)) (Zpos my * 2 ^ (ey - e)) in
        match r with
        | Z0 => S754_zero sx
        | _ => binary_normalize prec emax (cond_Zopp sx r) e false
        end
  end.

(** C [floor]: the largest integral double below or equal to [x]. *)
Definition SFfloor (x : spec_float) : spec_float :=
  match x with
  | S754_finite s m e =>
      if 0 <=? e then x
      else binary_normalize prec emax (cond_Zopp s (Zpos m) / 2 ^ (- e)) 0 false
  | _ => x
  end.

Definition fmod (x y : float) : float := SF2Prim (SFfmod (Prim2SF x) (Prim2SF y)).

Definition floor (x : float) : float := SF2Prim (SFfloor (Prim2SF x)).

(** C [copysign(0.0, x)]. *)
Definition copysign_zero (x : float) : float :=
  if get_sign x then neg_zero else zero.

(** C truth value of a double: [x != 0.0]. *)
Definition nonzero (x : float) : bool := negb (x =? 0)%float.

(** *** Coercion of [int] to [float]

    [PyLong_AsDouble]: correctly rounded, [OverflowError] when the rounded
    value is not finite. *)
Definition PyLong_AsDouble (z : Z) : result float :=
  match SF_of_Z z with
  | S754_infinity _ => Raise OverflowError
  | r => Ok (SF2Prim r)
  end.

Definition to_double (x : num) : result float :=
  match x with
  | PyInt z => PyLong_AsDouble z
  | PyFloat f => Ok f
  end.

(** *** The operators used by the module *)

(** [a * b] *)
Definition py_mul (a b : num) : result num :=
  match a, b with
  | PyInt x, PyInt y => Ok (PyInt (x * y))
  | _, _ => x ← to_double a; y ← to_double b; Ok (PyFloat (x * y)%float)
  end.

(** [a + b] *)
Definition py_add (a b : num) : result num :=
  match a, b with
  | PyInt x, PyInt y => Ok (PyInt (x + y))
  | _, _ => x ← to_double a; y ← to_double b; Ok (PyFloat (x + y)%float)
  end.

(** [a - b] *)
Definition py_sub (a b : num) : result num :=
  match a, b with
  | PyInt x, PyInt y => Ok (PyInt (x - y))
  | _, _ => x ← to_double a; y ← to_double b; Ok (PyFloat (x - y)%float)
  end.

(** The operand of an [int / int] division as a (not normalised)
    mantissa with exponent 0: the division below rounds once. *)
Definition SF_raw (z : Z) : spec_float :=
  match z with
  | Z0 => S754_zero false
  | Zpos p => S754_finite false p 0
  | Zneg p => S754_finite true p 0
  end.

(** [int / int]: the correctly rounded quotient ([long_true_divide]). *)
Definition long_true_divide (x y : Z) : result num :=
  if y =? 0 then Raise ZeroDivisionError
  else
    match SF64div (SF_raw x) (SF_raw y) with
    | S754_infinity _ => Raise OverflowError
    | r => Ok (PyFloat (SF2Prim r))
    end.

(** [a / b] *)
Definition py_truediv (a b : num) : result num :=
  match a, b with
  | PyInt x, PyInt y => long_true_divide x y
  | _, _ =>
      x ← to_double a; y ← to_double b;
      if (y =? 0)%float then Raise ZeroDivisionError
      else Ok (PyFloat (x / y)%float)
  end.

(** [float // float] for a non-zero divisor ([_float_div_mod], quotient
    only). *)
Definition float_floor_div (vx wx : float) : float :=
  let mod_ := fmod vx wx in
  let div := ((vx - mod_) / wx)%float in
  let div :=
    if nonzero mod_ && xorb (wx <? 0)%float (mod_ <? 0)%float
    then (div - 1)%float else div in
  if nonzero div then
    let floordiv := floor div in
    if (0.5 <? div - floordiv)%float then (floordiv + 1)%float else floordiv
  else copysign_zero (vx / wx)%float.

(** [a // b] *)
Definition py_floordiv (a b : num) : result num :=
  match a, b with
  | PyInt x, PyInt y =>
      if y =? 0 then Raise ZeroDivisionError else Ok (PyInt (x / y))
  | _, _ =>
      x ← to_double a; y ← to_double b;
      if (y =? 0)%float then Raise ZeroDivisionError
      else Ok (PyFloat (float_floor_div x y))
  end.

(** *** The C library

    [float ** 2] is CPython's [float_pow]: it sorts out the special values
    itself and hands every other base to C [pow].  The C standard does not
    fix the last bit of [pow] (glibc documents an error below one unit in
    the last place, and its results differ from the rounded product
    [x * x] on some inputs), so the library is taken as given: [pow_2 x]
    is what its [pow(x, 2.0)] returns. *)
Class Libm := { pow_2 : float -> float }.

(** A library whose [pow] is correctly rounded: the square is [x * x]. *)
Definition correctly_rounded : Libm := {| pow_2 x := (x * x)%float |}.

(** A library that is one unit in the last place above the rounded square
    on the base [b], and correctly rounded on every other base. *)
Definition rounded_up_at (b : float) : Libm :=
  {| pow_2 x := if (x =? b)%float then next_up (x * x) else (x * x)%float |}.

(** [a ** 2].  On an [int] the square is exact.  On a [float] it is
    [float_pow] with the exponent 2.0: a NaN is handed back, an infinity
    gives [fabs] of it, a zero gives 0.0; a negative base is negated (the
    exponent is an even integer, so the result is not), the base 1.0 gives
    1.0, and any other base goes to [pow].  An infinite result is a range
    error and raises [OverflowError]; a finite result is handed back
    ([errno] is cleared on a zero, and the library is taken to report no
    error with a finite result that is not zero, as glibc does not). *)
Definition py_sq {L : Libm} (a : num) : result num :=
  match a with
  | PyInt x => Ok (PyInt (x * x))
  | PyFloat iv =>
      if is_nan iv then Ok (PyFloat iv)
      else if is_infinity iv then Ok (PyFloat (abs iv))
      else if (iv =? 0)%float then Ok (PyFloat 0)
      else
        let iv := if (iv <? 0)%float then (- iv)%float else iv in
        if (iv =? 1)%float then Ok (PyFloat 1)
        else
          let ix := pow_2 iv in
          if is_infinity ix then Raise OverflowError else Ok (PyFloat ix)
  end.

(** *** Formatting with [.3f]

    [format(x, '.3f')]: an [int] is first converted to a [float]; a finite
    double is rendered from its exact value, correctly rounded (ties to
    even) to three decimals; the sign is that of the double. *)

Definition round_half_even (p q : Z) : Z :=
  let d := p / q in
  let r := p mod q in
  match 2 * r ?= q with
  | Lt => d
  | Gt => d + 1
  | Eq => if Z.even d then d else d + 1
  end.

Definition digit (d : Z) : ascii := ascii_of_N (48 + Z.to_N d).

Definition decimal (n : Z) : string := NilZero.string_of_uint (N.to_uint (Z.to_N n)).

Definition digits3 (n : Z) : string :=
  String (digit (n / 100)) (String (digit (n / 10 mod 10)) (String (digit (n mod 10)) "")).

Definition sign_str (s : bool) : string := if s then "-" else "".

(** Thousandths of [m * 2^e], rounded to the nearest integer. *)
Definition thousandths (m : positive) (e : Z) : Z :=
  if 0 <=? e then Zpos m * 2 ^ e * 1000
  else round_half_even (Zpos m * 1000) (2 ^ (- e)).

Definition float_format_3f (x : float) : string :=
  match Prim2SF x with
  | S754_nan => "nan"
  | S754_infinity s => sign_str s +:+ "inf"
  | S754_zero s => sign_str s +:+ "0.000"
  | S754_finite s m e =>
      let n := thousandths m e in
      sign_str s +:+ decimal (n / 1000) +:+ "." +:+ digits3 (n mod 1000)
  end.

Definition format_3f (x : num) : result string :=
  f ← to_double x; Ok (float_format_3f f).

(** ** [InfoMessage] *)

Record InfoMessage := {
  training_type : string;
  duration : num;
  distance : num;
  speed : num;
  calories : num
}.

(** [InfoMessage.get_message]: the class attribute [message_output]
    filled with the fields of the message. *)
Definition get_message (self : InfoMessage) : result string :=
  duration ← format_3f (duration self);
  distance ← format_3f (distance self);
  speed ← format_3f (speed self);
  calories ← format_3f (calories self);
  Ok ("Тип тренировки: " +:+ training_type self +:+ "; "
      +:+ "Длительность: " +:+ duration +:+ " ч.; "
      +:+ "Дистанция: " +:+ distance +:+ " км; "
      +:+ "Ср. скорость: " +:+ speed +:+ " км/ч; "
      +:+ "Потрачено ккал: " +:+ calories +:+ ".").

(** ** Classes and instances *)

Inductive klass := Training | Running | SportsWalking | Swimming.

Definition class_name (c : klass) : string :=
  match c with
  | Training => "Training"
  | Running => "Running"
  | SportsWalking => "SportsWalking"
  | Swimming => "Swimming"
  end.

(** The constants of each class body. *)
Definition class_dict (c : klass) : gmap string num :=
  match c with
  | Training =>
      {[ "LEN_STEP" := PyFloat 0.65;
         "M_IN_KM" := PyInt 1000;
         "MINUTES_IN_HOURS" := PyInt 60 ]}
  | Running =>
      {[ "RUN_CALORIE_1" := PyInt 18;
         "RUN_CALORIE_2" := PyInt 20 ]}
  | SportsWalking =>
      {[ "WALK_CALORIE_1" := PyFloat 0.035;
         "WALK_CALORIE_2" := PyFloat 0.029 ]}
  | Swimming =>
      {[ "LEN_STEP" := PyFloat 1.38;
         "SWIM_CALORIE_1" := PyFloat 1.1;
         "SWIM_CALORIE_2" := PyInt 2 ]}
  end.

(** Method resolution order: the class, then its base [Training]. *)
Definition mro (c : klass) : list klass :=
  match c with
  | Training => [Training]
  | _ => [c; Training]
  end.

Fixpoint lookup_mro (l : list klass) (name : string) : option num :=
  match l with
  | [] => None
  | c :: l' =>
      match class_dict c !! name with
      | Some v => Some v
      | None => lookup_mro l' name
      end
  end.

(** An instance: its class and its [__dict__]. *)
Record object := {
  ob_class : klass;
  ob_dict : gmap string num
}.

(** ** The monad of methods: state (the instance [self]) and exceptions *)

Definition M (A : Type) : Type := object -> result A * object.

#[global] Instance M_ret : MRet M := fun A a self => (Ok a, self).

#[global] Instance M_bind : MBind M := fun A B f m self =>
  match m self with
  | (Ok a, self') => f a self'
  | (Raise e, self') => (Raise e, self')
  end.

Definition lift {A} (r : result A) : M A := fun self => (r, self).

Definition raise {A} (e : exn) : M A := lift (Raise e).

(** [self.name]: the instance dictionary first, then the classes. *)
Definition getattr (name : string) : M num := fun self =>
  match ob_dict self !! name with
  | Some v => (Ok v, self)
  | None =>
      match lookup_mro (mro (ob_class self)) name with
      | Some v => (Ok v, self)
      | None => (Raise (AttributeError name), self)
      end
  end.

(** [self.name = v] *)
Definition setattr (name : string) (v : num) : M unit := fun self =>
  (Ok tt, {| ob_class := ob_class self; ob_dict := <[name := v]> (ob_dict self) |}).

(** [self.__class__.__name__] *)
Definition self_class_name : M string := fun self => (Ok (class_name (ob_class self)), self).

(** A method call [self.m()]: the implementation is chosen by the class of
    [self]. *)
Definition dispatch {A} (impl : klass -> M A) : M A := fun self => impl (ob_class self) self.

Definition eval {A} (m : M A) (self : object) : result A := fst (m self).

Definition exec {A} (m : M A) (self : object) : object := snd (m self).

(** ** The classes of the module *)

(** *** [Training] *)

(** [Training.__init__(self, action, duration, weight)]; the duration is
    stored under the name [duration_km]. *)
Definition Training_init (args : list num) : M unit :=
  match args with
  | [action; duration; weight] =>
      setattr "action" action;;
      setattr "duration_km" duration;;
      setattr "weight" weight
  | _ => raise TypeError
  end.

(** [Training.get_distance]: [self.action * self.LEN_STEP / self.M_IN_KM]. *)
Definition Training_get_distance : M num :=
  action ← getattr "action";
  LEN_STEP ← getattr "LEN_STEP";
  steps_m ← lift (py_mul action LEN_STEP);
  M_IN_KM ← getattr "M_IN_KM";
  lift (py_truediv steps_m M_IN_KM).

(** No class overrides [get_distance]. *)
Definition get_distance : M num := dispatch (fun _ => Training_get_distance).

(** [Training.get_mean_speed]: [self.get_distance() / self.duration_km]. *)
Definition Training_get_mean_speed : M num :=
  distance ← get_distance;
  duration_km ← getattr "duration_km";
  lift (py_truediv distance duration_km).

(** [Swimming.get_mean_speed]:
    [self.length_pool * self.count_pool / self.M_IN_KM / self.duration_km]. *)
Definition Swimming_get_mean_speed : M num :=
  length_pool ← getattr "length_pool";
  count_pool ← getattr "count_pool";
  swum_m ← lift (py_mul length_pool count_pool);
  M_IN_KM ← getattr "M_IN_KM";
  swum_km ← lift (py_truediv swum_m M_IN_KM);
  duration_km ← getattr "duration_km";
  lift (py_truediv swum_km duration_km).

Definition get_mean_speed : M num :=
  dispatch (fun c =>
    match c with
    | Swimming => Swimming_get_mean_speed
    | _ => Training_get_mean_speed
    end).

(** [Training.get_spent_calories] *)
Definition Training_get_spent_calories : M num := raise NotImplementedError.

(** *** [Running] *)

(** [Running.__init__]: the base initialiser, then the same three
    assignments again. *)
Definition Running_init (args : list num) : M unit :=
  match args with
  | [action; duration; weight] =>
      Training_init [action; duration; weight];;
      setattr "action" action;;
      setattr "duration_km" duration;;
      setattr "weight" weight
  | _ => raise TypeError
  end.

(** [Running.get_spent_calories]:
    [(RUN_CALORIE_1 * mean_speed - RUN_CALORIE_2) * weight / M_IN_KM
     * (duration_km * MINUTES_IN_HOURS)]. *)
Definition Running_get_spent_calories : M num :=
  RUN_CALORIE_1 ← getattr "RUN_CALORIE_1";
  mean_speed ← get_mean_speed;
  a ← lift (py_mul RUN_CALORIE_1 mean_speed);
  RUN_CALORIE_2 ← getattr "RUN_CALORIE_2";
  b ← lift (py_sub a RUN_CALORIE_2);
  weight ← getattr "weight";
  c ← lift (py_mul b weight);
  M_IN_KM ← getattr "M_IN_KM";
  d ← lift (py_truediv c M_IN_KM);
  duration_km ← getattr "duration_km";
  MINUTES_IN_HOURS ← getattr "MINUTES_IN_HOURS";
  minutes ← lift (py_mul duration_km MINUTES_IN_HOURS);
  lift (py_mul d minutes).

(** *** [SportsWalking] *)

Definition SportsWalking_init (args : list num) : M unit :=
  match args with
  | [action; duration; weight; height] =>
      Training_init [action; duration; weight];;
      setattr "height" height
  | _ => raise TypeError
  end.

(** [SportsWalking.get_spent_calories]:
    [(WALK_CALORIE_1 * weight
      + (mean_speed**2 // height) * WALK_CALORIE_2 * weight)
     * (duration_km * MINUTES_IN_HOURS)]. *)
Definition SportsWalking_get_spent_calories {L : Libm} : M num :=
  WALK_CALORIE_1 ← getattr "WALK_CALORIE_1";
  weight ← getattr "weight";
  a ← lift (py_mul WALK_CALORIE_1 weight);
  mean_speed ← get_mean_speed;
  sq ← lift (py_sq mean_speed);
  height ← getattr "height";
  q ← lift (py_floordiv sq height);
  WALK_CALORIE_2 ← getattr "WALK_CALORIE_2";
  b ← lift (py_mul q WALK_CALORIE_2);
  weight' ← getattr "weight";
  c ← lift (py_mul b weight');
  s ← lift (py_add a c);
  duration_km ← getattr "duration_km";
  MINUTES_IN_HOURS ← getattr "MINUTES_IN_HOURS";
  minutes ← lift (py_mul duration_km MINUTES_IN_HOURS);
  lift (py_mul s minutes).

(** *** [Swimming] *)

Definition Swimming_init (args : list num) : M unit :=
  match args with
  | [action; duration; weight; length_pool; count_pool] =>
      Training_init [action; duration; weight];;
      setattr "length_pool" length_pool;;
      setattr "count_pool" count_pool
  | _ => raise TypeError
  end.

(** [Swimming.get_spent_calories]:
    [(mean_speed + SWIM_CALORIE_1) * SWIM_CALORIE_2 * weight]. *)
Definition Swimming_get_spent_calories : M num :=
  mean_speed ← get_mean_speed;
  SWIM_CALORIE_1 ← getattr "SWIM_CALORIE_1";
  a ← lift (py_add mean_speed SWIM_CALORIE_1);
  SWIM_CALORIE_2 ← getattr "SWIM_CALORIE_2";
  b ← lift (py_mul a SWIM_CALORIE_2);
  weight ← getattr "weight";
  lift (py_mul b weight).

Definition get_spent_calories {L : Libm} : M num :=
  dispatch (fun c =>
    match c with
    | Training => Training_get_spent_calories
    | Running => Running_get_spent_calories
    | SportsWalking => SportsWalking_get_spent_calories
    | Swimming => Swimming_get_spent_calories
    end).

(** [Training.show_training_info], inherited by every class. *)
Definition show_training_info {L : Libm} : M InfoMessage :=
  name ← self_class_name;
  duration_km ← getattr "duration_km";
  distance ← get_distance;
  speed ← get_mean_speed;
  calories ← get_spent_calories;
  mret {| training_type := name;
          duration := duration_km;
          distance := distance;
          speed := speed;
          calories := calories |}.

(** ** Construction and the dispatcher *)

Definition init (c : klass) : list num -> M unit :=
  match c with
  | Training => Training_init
  | Running => Running_init
  | SportsWalking => SportsWalking_init
  | Swimming => Swimming_init
  end.

(** Calling the class [c] on the spread list [args]: a fresh instance of
    [c], initialised. *)
Definition new (c : klass) (args : list num) : result object :=
  match init c args {| ob_class := c; ob_dict := ∅ |} with
  | (Ok _, self) => Ok self
  | (Raise e, _) => Raise e
  end.

Definition class_data : gmap string klass :=
  {[ "SWM" := Swimming; "RUN" := Running; "WLK" := SportsWalking ]}.

Definition unknown_type : exn := ValueError "Нет такого типа тренировки!".

Definition read_package (workout_type : string) (data : list num) : result object :=
  match class_data !! workout_type with
  | Some c => new c data
  | None => Raise unknown_type
  end.

(** [main]: the line printed for a workout. *)
Definition main {L : Libm} (training : object) : result string :=
  info ← eval show_training_info training;
  get_message info.

(** ** The statistics of a package

    What the loop of the script computes for one package before printing:
    the dispatcher builds the workout, then a method is called on it. *)

Definition on_package {A} (m : M A) (workout_type : string) (data : list num) : result A :=
  training ← read_package workout_type data;
  eval m training.

(** ** The formulas as the specification words them

    Python expressions over numbers that may already have failed; the left
    operand is evaluated first. *)

Definition binop (op : num -> num -> result num) (x y : result num) : result num :=
  a ← x; b ← y; op a b.

Declare Scope py_scope.
Delimit Scope py_scope with py.
Notation "x * y" := (binop py_mul x y) : py_scope.
Notation "x / y" := (binop py_truediv x y) : py_scope.
Notation "x + y" := (binop py_add x y) : py_scope.
Notation "x - y" := (binop py_sub x y) : py_scope.
Notation "x // y" := (binop py_floordiv x y) (at level 40, left associativity) : py_scope.

Definition int (z : Z) : result num := Ok (PyInt z).

Definition flt (f : float) : result num := Ok (PyFloat f).

(** [x ** 2] *)
Definition sq {L : Libm} (x : result num) : result num := x ≫= py_sq.

(** [steps * step_length / 1000] *)
Definition spec_distance (step_length : float) (action : num) : result num :=
  (Ok action * flt step_length / int 1000)%py.

(** [distance / duration_hours] *)
Definition spec_mean_speed (step_length : float) (action duration : num) : result num :=
  (spec_distance step_length action / Ok duration)%py.

(** [pool_length * lap_count / 1000 / duration_hours] *)
Definition spec_swimming_speed (length_pool count_pool duration : num) : result num :=
  (Ok length_pool * Ok count_pool / int 1000 / Ok duration)%py.

(** [(18 * mean_speed − 20) * weight / 1000 * (duration_hours * 60)] *)
Definition spec_running_calories (mean_speed : result num) (duration weight : num) : result num :=
  ((int 18 * mean_speed - int 20) * Ok weight / int 1000 * (Ok duration * int 60))%py.

(** [(0.035 * weight + (mean_speed² integer-divided by height) * 0.029 * weight)
     * (duration_hours * 60)] *)
Definition spec_walking_calories {L : Libm} (mean_speed : result num)
    (duration weight height : num) : result num :=
  ((flt 0.035 * Ok weight + (sq mean_speed // Ok height) * flt 0.029 * Ok weight)
   * (Ok duration * int 60))%py.

(** [(mean_speed + 1.1) * 2 * weight] *)
Definition spec_swimming_calories (mean_speed : result num) (weight : num) : result num :=
  ((mean_speed + flt 1.1) * int 2 * Ok weight)%py.

(** ** Vocabulary of the properties *)

(** Python's [x > 0]. *)
Definition py_gt0 (x : num) : bool :=
  match x with
  | PyInt z => 0 <? z
  | PyFloat f => (0 <? f)%float
  end.

(** Python's [x >= 0]. *)
Definition py_ge0 (x : num) : bool :=
  match x with
  | PyInt z => 0 <=? z
  | PyFloat f => (0 <=? f)%float
  end.

(** Python's [x < 0]. *)
Definition py_lt0 (x : num) : bool :=
  match x with
  | PyInt z => z <? 0
  | PyFloat f => (f <? 0)%float
  end.

(** An [int], or a [float] that is neither an infinity nor a NaN. *)
Definition py_finite (x : num) : bool :=
  match x with
  | PyInt _ => true
  | PyFloat f => is_finite f
  end.

(** [|x - y| <= tol] on floats. *)
Definition within (tol x y : float) : bool := (abs (x - y) <=? tol)%float.

(** A method is read-only when it hands back the instance it was given. *)
Definition readonly {A} (m : M A) : Prop := forall self, exec m self = self.

(** The value of [self.name] (or the [AttributeError]). *)
Definition attr (name : string) (self : object) : result num := eval (getattr name) self.

(** The instances the constructors build, attribute by attribute. *)
Definition instance (c : klass) (attrs : gmap string num) : object :=
  {| ob_class := c; ob_dict := attrs |}.

Definition running (action duration weight : num) : object :=
  instance Running
    {[ "action" := action; "duration_km" := duration; "weight" := weight ]}.

Definition walking (action duration weight height : num) : object :=
  instance SportsWalking
    {[ "action" := action; "duration_km" := duration; "weight" := weight;
       "height" := height ]}.

Definition swimming (action duration weight length_pool count_pool : num) : object :=
  instance Swimming
    {[ "action" := action; "duration_km" := duration; "weight" := weight;
       "length_pool" := length_pool; "count_pool" := count_pool ]}.

(** The four public methods of a workout, and what a call hands back. *)
Inductive call := GetDistance | GetMeanSpeed | GetSpentCalories | ShowTrainingInfo.

Inductive outcome :=
| Number (r : result num)
| Info (r : result InfoMessage).

Definition perform {L : Libm} (c : call) (self : object) : outcome * object :=
  match c with
  | GetDistance => (Number (eval get_distance self), exec get_distance self)
  | GetMeanSpeed => (Number (eval get_mean_speed self), exec get_mean_speed self)
  | GetSpentCalories => (Number (eval get_spent_calories self), exec get_spent_calories self)
  | ShowTrainingInfo => (Info (eval show_training_info self), exec show_training_info self)
  end.

(** A sequence of calls on one instance, each on the state the previous
    call left. *)
Fixpoint perform_all {L : Libm} (cs : list call) (self : object) : list outcome * object :=
  match cs with
  | [] => ([], self)
  | c :: cs' =>
      let (o, self') := perform c self in
      let (os, self'') := perform_all cs' self' in
      (o :: os, self'')
  end.

(** *** Shapes of doubles *)

(** [x] is not a NaN and its sign bit is [s]. *)
Definition has_sign (s : bool) (x : spec_float) : bool :=
  match x with
  | S754_zero s' | S754_infinity s' | S754_finite s' _ _ => Bool.eqb s s'
  | S754_nan => false
  end.

(** [x] is a zero or a finite non-zero double. *)
Definition sf_finite (x : spec_float) : bool :=
  match x with
  | S754_zero _ | S754_finite _ _ _ => true
  | _ => false
  end.

(** [x] is a finite non-zero double. *)
Definition sf_proper (x : spec_float) : bool :=
  match x with
  | S754_finite _ _ _ => true
  | _ => false
  end.

(** *** The accuracy of the C library

    [y] is the correctly rounded square of [x] or one of the two doubles
    next to it, and is neither negative nor a NaN. *)
Definition near_square (x y : float) : Prop :=
  (y = (x * x)%float \/ y = next_up (x * x) \/ y = next_down (x * x)) /\
  has_sign false (Prim2SF y) = true.

(** A library is accurate when its [pow(x, 2.0)] is within one unit in
    the last place of the square, on the bases [float_pow] passes on:
    finite, positive, other than 1.0. *)
Definition accurate (L : Libm) : Prop :=
  forall x, is_finite x = true -> (0 <? x)%float = true -> (x =? 1)%float = false ->
            near_square x (pow_2 x).

(** Python's [x < y] for a float [x]: a float [y] is compared as a
    double, an int [y] exactly, without converting it. *)
Definition float_lt (x : float) (y : num) : bool :=
  match y with
  | PyFloat f => (x <? f)%float
  | PyInt z =>
      match Prim2SF x with
      | S754_zero _ => 0 <? z
      | S754_infinity s => s
      | S754_nan => false
      | S754_finite s m e =>
          if 0 <=? e then cond_Zopp s (Zpos m) * 2 ^ e <? z
          else cond_Zopp s (Zpos m) <? z * 2 ^ (- e)
      end
  end.

(** A call either hands back a number satisfying [P] or raises
    [OverflowError]. *)
Definition or_overflow (P : num -> Prop) (r : result num) : Prop :=
  r = Raise OverflowError \/ exists v, r = Ok v /\ P v.

(** A positive reading: a positive [int], or a positive [float] that is
    not an infinity. *)
Definition positive_reading (x : num) : Prop :=
  py_gt0 x = true /\ py_finite x = true.

(** A number that is not negative and not a NaN: an [int] from 0 on, or a
    [float] with a clear sign bit. *)
Definition nonneg_value (x : num) : Prop :=
  match x with
  | PyInt z => 0 <= z
  | PyFloat f => has_sign false (Prim2SF f) = true
  end.

(** A double that is a NaN or has the sign bit [s]; a number that is not
    negative unless it is a NaN. *)
Definition nan_or_sign (s : bool) (x : spec_float) : Prop :=
  x = S754_nan \/ has_sign s x = true.

Definition nonneg_or_nan (x : num) : Prop :=
  match x with
  | PyInt z => 0 <= z
  | PyFloat f => nan_or_sign false (Prim2SF f)
  end.

(** The number of positional arguments each constructor takes. *)
Definition arity (c : klass) : nat :=
  match c with
  | Training | Running => 3
  | SportsWalking => 4
  | Swimming => 5
  end.

(** *** Rendered numbers *)

Definition is_digit (a : ascii) : bool :=
  (48 <=? Z.of_N (N_of_ascii a)) && (Z.of_N (N_of_ascii a) <=? 57).

Fixpoint all_digits (s : string) : bool :=
  match s with
  | EmptyString => true
  | String a s' => is_digit a && all_digits s'
  end.

(** [s] reads: an optional minus sign, at least one digit, a point, and
    exactly three digits. *)
Definition three_decimals (s : string) : Prop :=
  exists sign whole frac,
    s = sign +:+ whole +:+ "." +:+ frac /\
    (sign = "" \/ sign = "-") /\
    whole <> "" /\ all_digits whole = true /\
    String.length frac = 3%nat /\ all_digits frac = true.

(** *** The packages of the script and of the examples *)

Definition ints (l : list Z) : list num := map PyInt l.

Definition sample_swimming : list num := ints [720; 1; 80; 25; 40].

Definition sample_running : list num := ints [15000; 1; 75].

Definition sample_walking : list num := ints [9000; 1; 75; 180].

(** ** The script

    The loop at the end of the module: each package is read and reported
    in turn; an exception ends the run, the lines already printed stay
    printed. *)

Definition packages : list (string * list num) :=
  [("SWM", sample_swimming); ("RUN", sample_running); ("WLK", sample_walking)].

Fixpoint script {L : Libm} (packages : list (string * list num)) : list string * option exn :=
  match packages with
  | [] => ([], None)
  | (workout_type, data) :: packages' =>
      match training ← read_package workout_type data; main training with
      | Ok line =>
          let (printed, e) := script packages' in
          (line :: printed, e)
      | Raise e => ([], Some e)
      end
  end.

(** ** Vocabulary of the further properties *)

(** Python's [x == 0]. *)
Definition py_eq0 (x : num) : bool :=
  match x with
  | PyInt z => z =? 0
  | PyFloat f => (f =? 0)%float
  end.

Definition is_float (x : num) : Prop :=
  match x with
  | PyFloat _ => True
  | PyInt _ => False
  end.

(** What a call may do: hand back a number satisfying [P], raise
    [OverflowError], or raise [ZeroDivisionError] provided [Z] holds;
    nothing else. *)
Definition returns_or_fails (P : num -> Prop) (Z : Prop) (r : result num) : Prop :=
  match r with
  | Ok v => P v
  | Raise OverflowError => True
  | Raise ZeroDivisionError => Z
  | Raise _ => False
  end.

(** A call that hands nothing back: it raises. *)
Definition never_returns {A} (r : result A) : Prop := forall v, r <> Ok v.

(** A [float], or an [int] below 2**1000 in absolute value. *)
Definition ordinary (x : num) : Prop :=
  match x with
  | PyInt z => Z.abs z < 2 ^ 1000
  | PyFloat _ => True
  end.

(** The class the dispatcher's table gives for a code, by name. *)
Definition variant (workout_type : string) : option string :=
  class_name <$> class_data !! workout_type.

(** The attributes [__init__] leaves on an instance of each class, in the
    order of the constructor's parameters. *)
Definition fields (c : klass) : list string :=
  match c with
  | Training | Running => ["action"; "duration_km"; "weight"]
  | SportsWalking => ["action"; "duration_km"; "weight"; "height"]
  | Swimming => ["action"; "duration_km"; "weight"; "length_pool"; "count_pool"]
  end.

(** * Rounding to binary64 *)

Abbreviation fexp64 := (fexp prec emax).
Abbreviation emin64 := (SpecFloat.emin prec emax).

Lemma fexp64_eq e : fexp64 e = Z.max (e - 53) (-1074).
Proof. reflexivity. Qed.

Lemma digits2_pos_bounds p :
  2 ^ (Zpos (digits2_pos p) - 1) <= Zpos p < 2 ^ Zpos (digits2_pos p).
Proof.
  induction p as [p IH|p IH|]; cbn [digits2_pos].
  - rewrite Pos2Z.inj_succ, Z.pow_succ_r by lia.
    replace (Z.succ (Zpos (digits2_pos p)) - 1) with (Z.succ (Zpos (digits2_pos p) - 1)) by lia.
    rewrite Z.pow_succ_r by lia. lia.
  - rewrite Pos2Z.inj_succ, Z.pow_succ_r by lia.
    replace (Z.succ (Zpos (digits2_pos p)) - 1) with (Z.succ (Zpos (digits2_pos p) - 1)) by lia.
    rewrite Z.pow_succ_r by lia. lia.
  - cbn. lia.
Qed.

Lemma Zdigits2_bounds m :
  0 < m -> 2 ^ (Zdigits2 m - 1) <= m < 2 ^ Zdigits2 m.
Proof. destruct m as [|p|p]; try lia. intros _. apply digits2_pos_bounds. Qed.

Lemma Zdigits2_pos m : 0 < m -> 0 < Zdigits2 m.
Proof. destruct m; cbn; lia. Qed.

Lemma Zdigits2_unique m d :
  0 < d -> 2 ^ (d - 1) <= m < 2 ^ d -> Zdigits2 m = d.
Proof.
  intros Hd [Hlo Hhi].
  assert (Hm : 0 < m) by (pose proof (Z.pow_pos_nonneg 2 (d - 1)); lia).
  pose proof (Zdigits2_bounds m Hm) as [Hlo' Hhi'].
  pose proof (Zdigits2_pos m Hm) as Hp.
  destruct (Z.lt_trichotomy (Zdigits2 m) d) as [Hlt|[Heq|Hgt]]; [|exact Heq|].
  - assert (2 ^ Zdigits2 m <= 2 ^ (d - 1)) by (apply Z.pow_le_mono_r; lia). lia.
  - assert (2 ^ d <= 2 ^ (Zdigits2 m - 1)) by (apply Z.pow_le_mono_r; lia). lia.
Qed.

Lemma Zdigits2_div_pow m n :
  0 < m -> 0 <= n < Zdigits2 m -> Zdigits2 (m / 2 ^ n) = Zdigits2 m - n.
Proof.
  intros Hm Hn. pose proof (Zdigits2_bounds m Hm) as [Hlo Hhi].
  apply Zdigits2_unique; [lia|].
  assert (Hpn : 0 < 2 ^ n) by (apply Z.pow_pos_nonneg; lia).
  split.
  - apply Z.div_le_lower_bound; [lia|].
    rewrite <- Z.pow_add_r by lia. replace (n + (Zdigits2 m - n - 1)) with (Zdigits2 m - 1) by lia. lia.
  - apply Z.div_lt_upper_bound; [lia|].
    rewrite <- Z.pow_add_r by lia. replace (n + (Zdigits2 m - n)) with (Zdigits2 m) by lia. lia.
Qed.

Lemma div_pow_small m n : 0 <= m -> Zdigits2 m <= n -> m / 2 ^ n = 0.
Proof.
  intros Hm Hn. destruct (Z.eq_dec m 0) as [->|Hne].
  - apply Z.div_0_l. cbn in Hn. pose proof (Z.pow_pos_nonneg 2 n). lia.
  - assert (0 < m) by lia. pose proof (Zdigits2_bounds m H) as [_ Hhi].
    pose proof (Zdigits2_pos m H).
    apply Z.div_small. split; [lia|].
    assert (2 ^ Zdigits2 m <= 2 ^ n) by (apply Z.pow_le_mono_r; lia). lia.
Qed.

(* iteration *)
Lemma iter_pos_nat {A} (f : A -> A) (n : positive) (x : A) :
  SpecFloat.iter_pos f n x = Nat.iter (Pos.to_nat n) f x.
Proof.
  revert x. induction n as [n IH|n IH|]; intros x; cbn [SpecFloat.iter_pos].
  - rewrite !IH, Pos2Nat.inj_xI.
    replace (S (2 * Pos.to_nat n))%nat with (Pos.to_nat n + S (Pos.to_nat n))%nat by lia.
    rewrite Nat.iter_add, Nat.iter_succ_r. reflexivity.
  - rewrite !IH, Pos2Nat.inj_xO.
    replace (2 * Pos.to_nat n)%nat with (Pos.to_nat n + Pos.to_nat n)%nat by lia.
    rewrite Nat.iter_add. reflexivity.
  - reflexivity.
Qed.

Lemma shr_1_m mrs : 0 <= shr_m mrs -> shr_m (shr_1 mrs) = shr_m mrs / 2.
Proof.
  destruct mrs as [m r s]. cbn [shr_m]. intros Hm.
  destruct m as [|[p|p|]|p]; cbn [shr_1 shr_m]; [reflexivity| | |reflexivity|lia].
  - rewrite (Pos2Z.inj_xI p). apply Z.div_unique with (r := 1); lia.
  - rewrite (Pos2Z.inj_xO p). apply Z.div_unique with (r := 0); lia.
Qed.

Lemma shr_1_r mrs : 0 <= shr_m mrs -> shr_r (shr_1 mrs) = Z.odd (shr_m mrs).
Proof.
  destruct mrs as [m r s]. cbn [shr_m]. intros Hm.
  destruct m as [|[p|p|]|p]; cbn [shr_1 shr_r]; try lia; reflexivity.
Qed.

Lemma shr_iter_m k mrs :
  0 <= shr_m mrs -> shr_m (Nat.iter k shr_1 mrs) = shr_m mrs / 2 ^ Z.of_nat k.
Proof.
  intros Hm. induction k as [|k IH].
  - cbn. now rewrite Z.div_1_r.
  - rewrite Nat.iter_succ, shr_1_m.
    + rewrite IH, Nat2Z.inj_succ, Z.pow_succ_r by lia.
      rewrite Z.div_div by (try apply Z.pow_pos_nonneg; lia).
      f_equal. lia.
    + rewrite IH. apply Z.div_pos; [lia|apply Z.pow_pos_nonneg; lia].
Qed.

Lemma shr_iter_r k mrs :
  0 <= shr_m mrs ->
  shr_r (Nat.iter (S k) shr_1 mrs) = Z.odd (shr_m mrs / 2 ^ Z.of_nat k).
Proof.
  intros Hm. rewrite Nat.iter_succ, shr_1_r.
  - now rewrite shr_iter_m.
  - rewrite shr_iter_m by exact Hm. apply Z.div_pos; [lia|apply Z.pow_pos_nonneg; lia].
Qed.

Lemma shr_m_of_loc m l : shr_m (shr_record_of_loc m l) = m.
Proof. destruct l as [|[]]; reflexivity. Qed.

(** The shift performed by [shr_fexp]. *)
Lemma shr_fexp_shift m e l :
  0 <= m ->
  let n := fexp64 (Zdigits2 m + e) - e in
  (n <= 0 -> shr_fexp prec emax m e l = (shr_record_of_loc m l, e)) /\
  (0 < n -> shr_m (fst (shr_fexp prec emax m e l)) = m / 2 ^ n /\
            snd (shr_fexp prec emax m e l) = e + n).
Proof.
  intros Hm n. unfold shr_fexp. fold n. split; intros Hn.
  - unfold shr. destruct n; try lia; reflexivity.
  - unfold shr. destruct n as [|p|p]; try lia. cbn [fst snd].
    rewrite iter_pos_nat, shr_iter_m by (now rewrite shr_m_of_loc).
    rewrite shr_m_of_loc, positive_nat_Z. auto.
Qed.

Lemma round_nearest_even_bounds q l :
  q <= round_nearest_even q l <= q + 1.
Proof. destruct l as [|[]]; cbn; try lia. destruct (Z.even q); lia. Qed.

Lemma Zdigits2_succ q :
  0 < q -> Zdigits2 (q + 1) = Zdigits2 q \/
           (q + 1 = 2 ^ Zdigits2 q /\ Zdigits2 (q + 1) = Zdigits2 q + 1).
Proof.
  intros Hq. pose proof (Zdigits2_bounds q Hq) as [Hlo Hhi].
  pose proof (Zdigits2_pos q Hq) as Hd.
  destruct (Z.eq_dec (q + 1) (2 ^ Zdigits2 q)) as [Heq|Hne].
  - right. split; [exact Heq|]. apply Zdigits2_unique; [lia|].
    replace (Zdigits2 q + 1 - 1) with (Zdigits2 q) by lia.
    rewrite Z.pow_add_r by lia. lia.
  - left. apply Zdigits2_unique; [lia|]. lia.
Qed.

(** The second shift of [binary_round_aux]: after rounding a canonical
    mantissa, at most one more bit is dropped and the result is canonical. *)
Lemma canonical_after_round q e m1 :
  0 < m1 -> q <= m1 <= q + 1 -> 0 <= q ->
  (q = 0 -> e = -1074) ->
  (0 < q -> fexp64 (Zdigits2 q + e) = e) ->
  let m' := shr_m (fst (shr_fexp prec emax m1 e loc_Exact)) in
  let e' := snd (shr_fexp prec emax m1 e loc_Exact) in
  0 < m' /\ fexp64 (Zdigits2 m' + e') = e' /\
  ((m' = m1 /\ e' = e) \/ (m' = 2 ^ 52 /\ e' = e + 1 /\ m1 = 2 ^ 53)).
Proof.
  intros Hm1 Hb Hq H0 Hc m' e'. subst m' e'.
  destruct (shr_fexp_shift m1 e loc_Exact ltac:(lia)) as [Hns Hsh].
  assert (Hd1 : Zdigits2 m1 = 1 /\ e = -1074 \/
                (0 < q /\ (Zdigits2 m1 = Zdigits2 q \/
                           (m1 = 2 ^ Zdigits2 q /\ Zdigits2 m1 = Zdigits2 q + 1)))).
  { destruct (Z.eq_dec q 0) as [->|Hne].
    - left. assert (m1 = 1) as -> by lia. split; [reflexivity|auto].
    - right. split; [lia|].
      destruct (Z.eq_dec m1 q) as [->|Hne']; [now left|].
      assert (m1 = q + 1) as -> by lia.
      destruct (Zdigits2_succ q ltac:(lia)) as [?|[? ?]]; [now left|right; split; lia]. }
  destruct Hd1 as [[Hd He]|[Hq0 [Hd|[Hp Hd]]]].
  - rewrite Hns by (rewrite fexp64_eq, Hd, He; lia). cbn [fst snd shr_record_of_loc shr_m].
    split; [lia|]. split; [|now left]. rewrite fexp64_eq, Hd, He. lia.
  - specialize (Hc Hq0).
    rewrite Hns by (rewrite Hd, Hc; lia). cbn [fst snd shr_record_of_loc shr_m].
    split; [lia|]. split; [|now left]. now rewrite Hd.
  - specialize (Hc Hq0). pose proof (Zdigits2_pos q Hq0) as Hdq.
    rewrite fexp64_eq in Hc.
    destruct (Z_le_gt_dec (-1074) (Zdigits2 q + e - 53)) as [Hn|Hs].
    + (* normal: one more bit is dropped *)
      assert (Hn2 : fexp64 (Zdigits2 m1 + e) - e = 1) by (rewrite fexp64_eq, Hd; lia).
      assert (Hq53 : Zdigits2 q = 53) by lia.
      destruct Hsh as [Hm He']; [lia|]. rewrite Hn2 in Hm, He'.
      rewrite Hm, He', Hp, Hq53.
      change (2 ^ 53 / 2 ^ 1) with (2 ^ 52).
      split; [reflexivity|]. split; [|right; auto].
      change (Zdigits2 (2 ^ 52)) with 53. rewrite fexp64_eq. lia.
    + (* subnormal: the carry stays within the precision *)
      rewrite Hns by (rewrite fexp64_eq, Hd; lia). cbn [fst snd shr_record_of_loc shr_m].
      split; [lia|]. split; [|now left]. rewrite fexp64_eq, Hd. lia.
Qed.

(** The first shift of [binary_round_aux] leaves a canonical mantissa (or
    nothing at the least exponent). *)
Lemma canonical_after_shift mx ex lx :
  0 <= mx -> ex <= fexp64 (Zdigits2 mx + ex) ->
  let q := shr_m (fst (shr_fexp prec emax mx ex lx)) in
  let e := snd (shr_fexp prec emax mx ex lx) in
  0 <= q /\ (q = 0 -> e = -1074) /\ (0 < q -> fexp64 (Zdigits2 q + e) = e) /\
  q = mx / 2 ^ (fexp64 (Zdigits2 mx + ex) - ex) /\ e = fexp64 (Zdigits2 mx + ex).
Proof.
  intros Hmx Hpre q e. subst q e.
  destruct (shr_fexp_shift mx ex lx Hmx) as [Hns Hsh].
  assert (Hd : 0 <= Zdigits2 mx) by (destruct mx; cbn; lia).
  destruct (Z.eq_dec (fexp64 (Zdigits2 mx + ex) - ex) 0) as [Hz|Hnz].
  - rewrite Hns by lia. cbn [fst snd]. rewrite shr_m_of_loc, Hz, Z.div_1_r.
    repeat split; try lia.
    intros ->. cbn [Zdigits2] in Hz. rewrite fexp64_eq in Hz. lia.
  - destruct Hsh as [Hm He]; [lia|]. rewrite Hm, He.
    set (n := fexp64 (Zdigits2 mx + ex) - ex) in *.
    assert (Hpn : 0 < 2 ^ n) by (apply Z.pow_pos_nonneg; lia).
    split; [apply Z.div_pos; lia|].
    split; [|split; [|split; [reflexivity|lia]]].
    + intros Hq0.
      destruct (Z_lt_le_dec n (Zdigits2 mx)) as [Hlt|Hge].
      * assert (Hmx' : 0 < mx) by (destruct mx; cbn in *; lia).
        pose proof (Zdigits2_div_pow mx n Hmx' ltac:(lia)) as Hdiv.
        rewrite Hq0 in Hdiv. cbn [Zdigits2] in Hdiv. lia.
      * subst n. rewrite fexp64_eq in *. lia.
    + intros Hq.
      destruct (Z_lt_le_dec n (Zdigits2 mx)) as [Hlt|Hge].
      * assert (Hmx' : 0 < mx) by (destruct mx; cbn in *; lia).
        rewrite Zdigits2_div_pow by lia.
        replace (Zdigits2 mx - n + (ex + n)) with (Zdigits2 mx + ex) by lia.
        subst n. lia.
      * rewrite div_pow_small in Hq by lia. lia.
Qed.

Lemma binary_round_aux_shape sx mx ex lx :
  0 <= mx -> ex <= fexp64 (Zdigits2 mx + ex) ->
  valid_binary (binary_round_aux prec emax sx mx ex lx) = true /\
  has_sign sx (binary_round_aux prec emax sx mx ex lx) = true.
Proof.
  intros Hmx Hpre. unfold binary_round_aux.
  destruct (canonical_after_shift mx ex lx Hmx Hpre) as (Hq & H0 & Hc & _ & _).
  destruct (shr_fexp prec emax mx ex lx) as [mrs' e'] eqn:E1. cbn [fst snd] in *.
  pose proof (round_nearest_even_bounds (shr_m mrs') (loc_of_shr_record mrs')) as Hb.
  set (m1 := round_nearest_even (shr_m mrs') (loc_of_shr_record mrs')) in *.
  destruct (Z.eq_dec m1 0) as [Hz|Hnz].
  - rewrite Hz. destruct (shr_fexp_shift 0 e' loc_Exact ltac:(lia)) as [Hns Hsh].
    destruct (shr_fexp prec emax 0 e' loc_Exact) as [mrs'' e''] eqn:E2.
    assert (shr_m mrs'' = 0) as ->.
    { destruct (Z_le_gt_dec (fexp64 (Zdigits2 0 + e') - e') 0) as [Hle|Hgt].
      - specialize (Hns Hle). now inversion Hns.
      - destruct Hsh as [Hm _]; [lia|]. cbn [fst] in Hm. rewrite Hm. apply Z.div_0_l.
        pose proof (Z.pow_pos_nonneg 2 (fexp64 (Zdigits2 0 + e') - e')). lia. }
    cbn. now destruct sx.
  - destruct (canonical_after_round (shr_m mrs') e' m1 ltac:(lia) Hb Hq H0 Hc) as (Hpos & Hcan & _).
    destruct (shr_fexp prec emax m1 e' loc_Exact) as [mrs'' e''] eqn:E2. cbn [fst snd] in *.
    destruct (shr_m mrs'') as [|m|m] eqn:Em; try lia.
    destruct (e'' <=? emax - prec) eqn:Ee.
    + cbn [valid_binary has_sign]. unfold bounded, canonical_mantissa.
      cbn [Zdigits2] in Hcan. rewrite Hcan, Z.eqb_refl, Ee. now destruct sx.
    + cbn. now destruct sx.
Qed.

Lemma binary_round_aux_nonzero sx mx ex lx :
  0 < mx -> ex <= fexp64 (Zdigits2 mx + ex) -> -1074 < Zdigits2 mx + ex ->
  sf_finite (binary_round_aux prec emax sx mx ex lx) = true ->
  sf_proper (binary_round_aux prec emax sx mx ex lx) = true.
Proof.
  intros Hmx Hpre Hbig. unfold binary_round_aux.
  destruct (canonical_after_shift mx ex lx ltac:(lia) Hpre) as (Hq & H0 & Hc & Hqv & Hev).
  destruct (shr_fexp prec emax mx ex lx) as [mrs' e'] eqn:E1. cbn [fst snd] in *.
  pose proof (round_nearest_even_bounds (shr_m mrs') (loc_of_shr_record mrs')) as Hb.
  set (m1 := round_nearest_even (shr_m mrs') (loc_of_shr_record mrs')) in *.
  assert (Hqpos : 0 < shr_m mrs').
  { destruct (Z.eq_dec (shr_m mrs') 0) as [Hz|]; [|lia].
    exfalso. pose proof (Zdigits2_pos mx Hmx) as Hd.
    set (n := fexp64 (Zdigits2 mx + ex) - ex) in *.
    assert (Hn : n < Zdigits2 mx) by (subst n; rewrite fexp64_eq; lia).
    assert (Hdiv : Zdigits2 (mx / 2 ^ n) = Zdigits2 mx - n) by (apply Zdigits2_div_pow; lia).
    rewrite <- Hqv, Hz in Hdiv. cbn [Zdigits2] in Hdiv. lia. }
  destruct (canonical_after_round (shr_m mrs') e' m1 ltac:(lia) Hb Hq H0 Hc) as (Hpos & Hcan & _).
  destruct (shr_fexp prec emax m1 e' loc_Exact) as [mrs'' e''] eqn:E2. cbn [fst snd] in *.
  destruct (shr_m mrs'') as [|m|m] eqn:Em; try lia.
  destruct (e'' <=? emax - prec); cbn; auto.
Qed.

(** The sign of a rounded value, whatever the mantissa and exponent. *)
Lemma binary_round_aux_sign sx mx ex lx :
  0 <= mx -> has_sign sx (binary_round_aux prec emax sx mx ex lx) = true.
Proof.
  intros Hmx. unfold binary_round_aux.
  assert (Hq : 0 <= shr_m (fst (shr_fexp prec emax mx ex lx))).
  { destruct (shr_fexp_shift mx ex lx Hmx) as [Hns Hsh].
    destruct (Z_le_gt_dec (fexp64 (Zdigits2 mx + ex) - ex) 0) as [Hle|Hgt].
    - rewrite Hns by lia. cbn [fst]. now rewrite shr_m_of_loc.
    - destruct Hsh as [-> _]; [lia|]. apply Z.div_pos; [lia|apply Z.pow_pos_nonneg; lia]. }
  destruct (shr_fexp prec emax mx ex lx) as [mrs' e']. cbn [fst] in Hq.
  pose proof (round_nearest_even_bounds (shr_m mrs') (loc_of_shr_record mrs')) as Hb.
  set (m1 := round_nearest_even (shr_m mrs') (loc_of_shr_record mrs')) in *.
  assert (Hq' : 0 <= shr_m (fst (shr_fexp prec emax m1 e' loc_Exact))).
  { destruct (shr_fexp_shift m1 e' loc_Exact ltac:(lia)) as [Hns Hsh].
    destruct (Z_le_gt_dec (fexp64 (Zdigits2 m1 + e') - e') 0) as [Hle|Hgt].
    - rewrite Hns by lia. cbn [fst shr_record_of_loc shr_m]. lia.
    - destruct Hsh as [-> _]; [lia|]. apply Z.div_pos; [lia|apply Z.pow_pos_nonneg; lia]. }
  destruct (shr_fexp prec emax m1 e' loc_Exact) as [mrs'' e'']. cbn [fst] in Hq'.
  destruct (shr_m mrs'') as [|m|m]; try lia.
  - cbn. now destruct sx.
  - destruct (e'' <=? emax - prec); cbn; now destruct sx.
Qed.

(** *** Rounding an integer multiple of a power of two *)

Lemma Pos_iter_xO mx d : Zpos (Pos.iter xO mx d) = Zpos mx * 2 ^ Zpos d.
Proof.
  induction d as [|d IH] using Pos.peano_ind.
  - cbn. lia.
  - rewrite Pos.iter_succ, Pos2Z.inj_xO, IH, Pos2Z.inj_succ, Z.pow_succ_r by lia. lia.
Qed.

Lemma Zdigits2_mul_pow m n :
  0 < m -> 0 <= n -> Zdigits2 (m * 2 ^ n) = Zdigits2 m + n.
Proof.
  intros Hm Hn. pose proof (Zdigits2_bounds m Hm) as [Hlo Hhi].
  pose proof (Zdigits2_pos m Hm) as Hd.
  assert (Hpn : 0 < 2 ^ n) by (apply Z.pow_pos_nonneg; lia).
  apply Zdigits2_unique; [lia|].
  replace (Zdigits2 m + n - 1) with (Zdigits2 m - 1 + n) by lia.
  rewrite !Z.pow_add_r by lia. split; nia.
Qed.

Lemma binary_round_shape sx mx ex :
  valid_binary (binary_round prec emax sx mx ex) = true /\
  has_sign sx (binary_round prec emax sx mx ex) = true /\
  (-1074 < Zpos (digits2_pos mx) + ex ->
   sf_finite (binary_round prec emax sx mx ex) = true ->
   sf_proper (binary_round prec emax sx mx ex) = true).
Proof.
  unfold binary_round.
  change (Zpos (digits2_pos mx)) with (Zdigits2 (Zpos mx)).
  set (e' := fexp64 (Zdigits2 (Zpos mx) + ex)).
  assert (Hal : let '(mz, ez) := shl_align mx ex e' in
                ez <= fexp64 (Zdigits2 (Zpos mz) + ez) /\
                Zdigits2 (Zpos mz) + ez = Zdigits2 (Zpos mx) + ex).
  { unfold shl_align. destruct (e' - ex) as [|d|d] eqn:Ed.
    - split; [fold e'; lia|reflexivity].
    - split; [fold e'; lia|reflexivity].
    - rewrite Pos_iter_xO, Zdigits2_mul_pow by lia.
      replace (Zdigits2 (Zpos mx) + Zpos d + e') with (Zdigits2 (Zpos mx) + ex) by lia.
      fold e'. split; [lia|reflexivity]. }
  destruct (shl_align mx ex e') as [mz ez]. destruct Hal as [Hpre Hdig].
  destruct (binary_round_aux_shape sx (Zpos mz) ez loc_Exact ltac:(lia) Hpre) as [Hv Hs].
  repeat split; [exact Hv|exact Hs|].
  intros Hbig. apply binary_round_aux_nonzero; [lia|exact Hpre|lia].
Qed.

(** The double nearest to an integer: valid, with the sign of the integer,
    and zero only for zero. *)
Lemma SF_of_Z_shape z :
  valid_binary (SF_of_Z z) = true /\
  has_sign (z <? 0) (SF_of_Z z) = true /\
  (z <> 0 -> sf_finite (SF_of_Z z) = true -> sf_proper (SF_of_Z z) = true).
Proof.
  unfold SF_of_Z, binary_normalize. destruct z as [|p|p].
  - repeat split; try reflexivity. intros H; now destruct H.
  - destruct (binary_round_shape false p 0) as (Hv & Hs & Hnz).
    repeat split; [exact Hv|exact Hs|]. intros _. apply Hnz.
    pose proof (Zdigits2_pos (Zpos p) ltac:(lia)). cbn [Zdigits2] in H. lia.
  - destruct (binary_round_shape true p 0) as (Hv & Hs & Hnz).
    repeat split; [exact Hv|exact Hs|]. intros _. apply Hnz.
    pose proof (Zdigits2_pos (Zpos p) ltac:(lia)). cbn [Zdigits2] in H. lia.
Qed.

(** *** Products and quotients *)

Lemma SF64mul_sign x y sx sy :
  has_sign sx x = true -> has_sign sy y = true ->
  SF64mul x y = S754_nan \/ has_sign (xorb sx sy) (SF64mul x y) = true.
Proof.
  intros Hx Hy.
  destruct x as [s1|s1| |s1 m1 e1], y as [s2|s2| |s2 m2 e2]; cbn in Hx, Hy; try discriminate;
    apply eqb_prop in Hx, Hy; subst s1 s2; cbn [SF64mul SFmul]; auto;
    right; try (cbn; now destruct sx, sy).
  apply binary_round_aux_sign. lia.
Qed.

Lemma SF64mul_finite_sign x y sx sy :
  has_sign sx x = true -> has_sign sy y = true ->
  sf_finite x = true -> sf_finite y = true ->
  has_sign (xorb sx sy) (SF64mul x y) = true.
Proof.
  intros Hx Hy Fx Fy. destruct (SF64mul_sign x y sx sy Hx Hy) as [Hn|H]; [|exact H].
  exfalso. destruct x as [s1|s1| |s1 m1 e1], y as [s2|s2| |s2 m2 e2]; try discriminate.
  cbn [SF64mul SFmul] in Hn.
  pose proof (binary_round_aux_sign (xorb s1 s2) (Zpos (m1 * m2)) (e1 + e2) loc_Exact ltac:(lia)) as Hs.
  rewrite Hn in Hs. discriminate.
Qed.

Lemma Z_div_eucl_eq a b : Z.div_eucl a b = (a / b, a mod b).
Proof. unfold Z.div, Z.modulo. now destruct (Z.div_eucl a b). Qed.

Lemma shiftl_match m s :
  0 <= s ->
  match s with Z0 => m | Zpos _ => Z.shiftl m s | Zneg _ => 0 end = m * 2 ^ s.
Proof.
  intros Hs. destruct s as [|p|p]; [rewrite Z.pow_0_r; lia| |lia].
  now rewrite Z.shiftl_mul_pow2 by lia.
Qed.

Lemma SFdiv_core_binary_eq m1 e1 m2 e2 :
  0 < m1 ->
  let e' := Z.min (fexp64 (Zdigits2 m1 + e1 - (Zdigits2 m2 + e2))) (e1 - e2) in
  let s := e1 - e2 - e' in
  SFdiv_core_binary prec emax m1 e1 m2 e2 =
  (m1 * 2 ^ s / m2, e', new_location m2 ((m1 * 2 ^ s) mod m2)).
Proof.
  intros Hm1 e' s. unfold SFdiv_core_binary. fold e'. fold s.
  assert (Hs : 0 <= s) by (subst s e'; lia).
  rewrite (shiftl_match m1 s Hs). now rewrite Z_div_eucl_eq.
Qed.

Lemma SFdiv_core_binary_pre m1 e1 m2 e2 :
  0 < m1 -> 0 < m2 ->
  let '(q, e', _) := SFdiv_core_binary prec emax m1 e1 m2 e2 in
  0 <= q /\ e' <= fexp64 (Zdigits2 q + e').
Proof.
  intros Hm1 Hm2. rewrite SFdiv_core_binary_eq by exact Hm1.
  set (c := Zdigits2 m1 + e1 - (Zdigits2 m2 + e2)).
  set (e' := Z.min (fexp64 c) (e1 - e2)).
  set (s := e1 - e2 - e').
  assert (Hs : 0 <= s) by (subst s e'; lia).
  assert (Hps : 0 < 2 ^ s) by (apply Z.pow_pos_nonneg; lia).
  pose proof (Zdigits2_bounds m1 Hm1) as [Hlo1 Hhi1].
  pose proof (Zdigits2_bounds m2 Hm2) as [Hlo2 Hhi2].
  pose proof (Zdigits2_pos m1 Hm1) as Hd1. pose proof (Zdigits2_pos m2 Hm2) as Hd2.
  assert (Hq : 0 <= m1 * 2 ^ s / m2) by (apply Z.div_pos; nia).
  split; [exact Hq|].
  assert (Hm' : 2 ^ (Zdigits2 m1 - 1 + s) <= m1 * 2 ^ s).
  { rewrite Z.pow_add_r by lia. nia. }
  destruct (Z.eq_dec (m1 * 2 ^ s / m2) 0) as [Hz|Hnz].
  - (* the quotient vanishes: below the least exponent *)
    rewrite Hz. cbn [Zdigits2].
    assert (Hlt : m1 * 2 ^ s < m2).
    { apply Z.div_small_iff in Hz; lia. }
    assert (Zdigits2 m1 - 1 + s < Zdigits2 m2).
    { apply (Z.pow_lt_mono_r_iff 2); lia. }
    subst s e' c. rewrite !fexp64_eq in *. lia.
  - set (q := m1 * 2 ^ s / m2) in *. assert (Hqpos : 0 < q) by lia.
    pose proof (Zdigits2_bounds q Hqpos) as [Hloq Hhiq].
    pose proof (Zdigits2_pos q Hqpos) as Hdq.
    assert (Hk : Zdigits2 m1 + s - Zdigits2 m2 <= Zdigits2 q).
    { destruct (Z_le_gt_dec (Zdigits2 m1 + s - Zdigits2 m2) 0) as [Hle|Hgt]; [lia|].
      assert (Hqlo : 2 ^ (Zdigits2 m1 + s - Zdigits2 m2 - 1) <= q).
      { apply Z.div_le_lower_bound; [lia|].
        transitivity (2 ^ Zdigits2 m2 * 2 ^ (Zdigits2 m1 + s - Zdigits2 m2 - 1)).
        - apply Z.mul_le_mono_nonneg_r; [apply Z.pow_nonneg|]; lia.
        - rewrite <- Z.pow_add_r by lia.
          replace (Zdigits2 m2 + (Zdigits2 m1 + s - Zdigits2 m2 - 1)) with (Zdigits2 m1 - 1 + s) by lia.
          exact Hm'. }
      destruct (Z_lt_le_dec (Zdigits2 q) (Zdigits2 m1 + s - Zdigits2 m2)) as [Hlt|]; [|lia].
      assert (2 ^ Zdigits2 q <= 2 ^ (Zdigits2 m1 + s - Zdigits2 m2 - 1)) by (apply Z.pow_le_mono_r; lia).
      lia. }
    subst s e' c. rewrite !fexp64_eq in *. lia.
Qed.

(** A quotient: valid whatever the (positive) mantissas, with the sign
    given. *)
Lemma SFdiv_round_shape s m1 e1 m2 e2 :
  0 < m1 -> 0 < m2 ->
  let '(q, e', l) := SFdiv_core_binary prec emax m1 e1 m2 e2 in
  valid_binary (binary_round_aux prec emax s q e' l) = true /\
  has_sign s (binary_round_aux prec emax s q e' l) = true.
Proof.
  intros Hm1 Hm2. pose proof (SFdiv_core_binary_pre m1 e1 m2 e2 Hm1 Hm2) as H.
  destruct (SFdiv_core_binary prec emax m1 e1 m2 e2) as [[q e'] l].
  destruct H as [Hq Hpre]. now apply binary_round_aux_shape.
Qed.

Lemma SF64div_sign x y sx sy :
  has_sign sx x = true -> has_sign sy y = true ->
  sf_proper y = true \/ (sf_finite x = true /\ y = S754_infinity sy) ->
  has_sign (xorb sx sy) (SF64div x y) = true.
Proof.
  intros Hx Hy Hc.
  destruct x as [s1|s1| |s1 m1 e1], y as [s2|s2| |s2 m2 e2]; cbn in Hx, Hy; try discriminate;
    apply eqb_prop in Hx, Hy; subst s1 s2;
    destruct Hc as [Hc|[Hc1 Hc2]]; try discriminate;
    cbn [SF64div SFdiv]; try (cbn; now destruct sx, sy).
  pose proof (SFdiv_round_shape (xorb sx sy) (Zpos m1) e1 (Zpos m2) e2 ltac:(lia) ltac:(lia)) as H.
  destruct (SFdiv_core_binary prec emax (Zpos m1) e1 (Zpos m2) e2) as [[q e'] l]. apply H.
Qed.

(** [int / int]: the rounded quotient of two integers is a valid double
    with the sign of the quotient. *)
Lemma SF64div_raw_shape x y :
  y <> 0 ->
  valid_binary (SF64div (SF_raw x) (SF_raw y)) = true /\
  has_sign (xorb (x <? 0) (y <? 0)) (SF64div (SF_raw x) (SF_raw y)) = true.
Proof.
  intros Hy.
  assert (Hgen : forall s1 s2 p q,
             valid_binary (SF64div (S754_finite s1 p 0) (S754_finite s2 q 0)) = true /\
             has_sign (xorb s1 s2) (SF64div (S754_finite s1 p 0) (S754_finite s2 q 0)) = true).
  { intros s1 s2 p q. cbn [SF64div SFdiv].
    pose proof (SFdiv_round_shape (xorb s1 s2) (Zpos p) 0 (Zpos q) 0 ltac:(lia) ltac:(lia)) as H.
    destruct (SFdiv_core_binary prec emax (Zpos p) 0 (Zpos q) 0) as [[q' e'] l]. exact H. }
  destruct x as [|p|p], y as [|q|q]; try lia; cbn [SF_raw];
    try (split; reflexivity); apply Hgen.
Qed.

(** *** A rounded value, case by case *)

Lemma round_nearest_even_round_bit mrs :
  round_nearest_even (shr_m mrs) (loc_of_shr_record mrs)
  <= shr_m mrs + (if shr_r mrs then 1 else 0).
Proof.
  destruct mrs as [m [] []]; cbn; try lia. destruct (Z.even m); lia.
Qed.

Lemma shr_fexp_round_bit m e :
  0 <= m -> 0 < fexp64 (Zdigits2 m + e) - e ->
  shr_r (fst (shr_fexp prec emax m e loc_Exact))
  = Z.odd (m / 2 ^ (fexp64 (Zdigits2 m + e) - e - 1)).
Proof.
  intros Hm Hn. unfold shr_fexp, shr.
  destruct (fexp64 (Zdigits2 m + e) - e) as [|p|p] eqn:En; try lia.
  cbn [fst]. rewrite iter_pos_nat.
  destruct (Pos.to_nat p) as [|k] eqn:Ek; [lia|].
  rewrite shr_iter_r by (cbn; lia). cbn [shr_record_of_loc shr_m].
  do 3 f_equal. lia.
Qed.

(** [binary_round_aux] on an exact product or sum: the mantissa [m1] kept
    after the first shift and the rounding, and what the second shift
    makes of it. *)
Lemma binary_round_aux_cases sx mx ex :
  0 < mx -> ex <= fexp64 (Zdigits2 mx + ex) ->
  let e' := fexp64 (Zdigits2 mx + ex) in
  let n := e' - ex in
  exists m1,
    mx / 2 ^ n <= m1 <= mx / 2 ^ n + 1 /\
    (0 < n -> m1 <= (mx / 2 ^ (n - 1) + 1) / 2) /\
    ((m1 = 0 /\ binary_round_aux prec emax sx mx ex loc_Exact = S754_zero sx) \/
     exists m'' e'',
       binary_round_aux prec emax sx mx ex loc_Exact
       = (if e'' <=? emax - prec then S754_finite sx m'' e'' else S754_infinity sx) /\
       canonical_mantissa prec emax m'' e'' = true /\
       ((Zpos m'' = m1 /\ e'' = e') \/ (Zpos m'' = 2 ^ 52 /\ e'' = e' + 1 /\ m1 = 2 ^ 53))).
Proof.
  intros Hmx Hpre e' n.
  destruct (canonical_after_shift mx ex loc_Exact ltac:(lia) Hpre) as (Hq & H0 & Hc & Hqv & Hev).
  pose proof (shr_fexp_round_bit mx ex ltac:(lia)) as Hr.
  unfold binary_round_aux.
  destruct (shr_fexp prec emax mx ex loc_Exact) as [mrs' e1] eqn:E1. cbn [fst snd] in *.
  fold e' in Hev, Hqv, Hr. fold n in Hqv, Hr. subst e1.
  pose proof (round_nearest_even_bounds (shr_m mrs') (loc_of_shr_record mrs')) as Hb.
  pose proof (round_nearest_even_round_bit mrs') as Hrb.
  set (m1 := round_nearest_even (shr_m mrs') (loc_of_shr_record mrs')) in *.
  exists m1. rewrite <- Hqv. split; [exact Hb|]. split.
  - intros Hn. rewrite (Hr Hn) in Hrb. rewrite Hqv in Hrb.
    replace n with (n - 1 + 1) in Hrb at 1 by lia.
    rewrite Z.pow_add_r, <- Z.div_div in Hrb by (try apply Z.pow_pos_nonneg; lia).
    change (2 ^ 1) with 2 in Hrb.
    set (h := mx / 2 ^ (n - 1)) in *.
    pose proof (Zdiv2_odd_eqn h) as Hh. rewrite Z.div2_div in Hh.
    destruct (Z.odd h).
    + replace (h + 1) with (h / 2 * 2 + 1 * 2) by lia.
      rewrite <- Z.mul_add_distr_r, Z.div_mul by lia. lia.
    + replace (h + 1) with (1 + h / 2 * 2) by lia.
      rewrite Z.div_add by lia. change (1 / 2) with 0. lia.
  - destruct (Z.eq_dec m1 0) as [Hz|Hnz].
    + left. split; [exact Hz|]. rewrite Hz.
      destruct (shr_fexp_shift 0 e' loc_Exact ltac:(lia)) as [Hns Hsh].
      destruct (shr_fexp prec emax 0 e' loc_Exact) as [mrs'' e''] eqn:E2.
      assert (shr_m mrs'' = 0) as ->; [|reflexivity].
      destruct (Z_le_gt_dec (fexp64 (Zdigits2 0 + e') - e') 0) as [Hle|Hgt].
      * specialize (Hns Hle). now inversion Hns.
      * destruct Hsh as [Hm _]; [lia|]. cbn [fst] in Hm. rewrite Hm. apply Z.div_0_l.
        pose proof (Z.pow_pos_nonneg 2 (fexp64 (Zdigits2 0 + e') - e')). lia.
    + right.
      destruct (canonical_after_round (shr_m mrs') e' m1 ltac:(lia) Hb Hq H0 Hc) as (Hpos & Hcan & Hcase).
      destruct (shr_fexp prec emax m1 e' loc_Exact) as [mrs'' e''] eqn:E2. cbn [fst snd] in *.
      destruct (shr_m mrs'') as [|m|m] eqn:Em; try lia.
      exists m, e''. split; [reflexivity|]. split; [|exact Hcase].
      unfold canonical_mantissa. cbn [Zdigits2] in Hcan. rewrite Hcan. apply Z.eqb_refl.
Qed.

(** ** Primitive floats through their specification *)

Lemma Prim2SF_zero : Prim2SF 0 = S754_zero false.
Proof. reflexivity. Qed.

Lemma ltb_0_shape f :
  (0 <? f)%float = true ->
  has_sign false (Prim2SF f) = true /\ (sf_proper (Prim2SF f) = true \/ Prim2SF f = S754_infinity false).
Proof.
  rewrite FloatAxioms.ltb_spec, Prim2SF_zero. unfold SFltb.
  destruct (Prim2SF f) as [s|[]| |[] m e]; cbn; try discriminate; auto.
Qed.

Lemma leb_0_of_sign f : has_sign false (Prim2SF f) = true -> (0 <=? f)%float = true.
Proof.
  rewrite FloatAxioms.leb_spec, Prim2SF_zero. unfold SFleb.
  destruct (Prim2SF f) as [s|[]| |[] m e]; cbn; try discriminate; auto.
Qed.

Lemma eqb_0_proper f : sf_proper (Prim2SF f) = true -> (f =? 0)%float = false.
Proof.
  rewrite FloatAxioms.eqb_spec, Prim2SF_zero. unfold SFeqb.
  destruct (Prim2SF f) as [s|[]| |[] m e]; cbn; try discriminate; auto.
Qed.

Lemma eqb_0_infinity f s : Prim2SF f = S754_infinity s -> (f =? 0)%float = false.
Proof. rewrite FloatAxioms.eqb_spec, Prim2SF_zero. intros ->. now destruct s. Qed.

Lemma eqb_0_of_gt f : (0 <? f)%float = true -> (f =? 0)%float = false.
Proof.
  intros H. destruct (ltb_0_shape f H) as [_ [Hp|Hi]];
    [now apply eqb_0_proper|now apply (eqb_0_infinity f false)].
Qed.

Lemma SFcompare_finite_refl s m e :
  SFcompare (S754_finite s m e) (S754_finite s m e) = Some Eq.
Proof.
  cbn [SFcompare].
  change (IntDef.Z.compare e e) with (Z.compare e e).
  change (PosDef.Pos.compare_cont Eq m m) with (Pos.compare_cont Eq m m).
  rewrite Z.compare_refl, Pos.compare_cont_refl. now destruct s.
Qed.

Lemma is_finite_shape f : is_finite f = sf_finite (Prim2SF f).
Proof.
  unfold is_finite, is_nan, is_infinity.
  rewrite !FloatAxioms.eqb_spec, abs_spec. change (Prim2SF infinity) with (S754_infinity false).
  destruct (Prim2SF f) as [s|s| |s m e]; cbn [SFabs sf_finite]; try reflexivity.
  - destruct s; reflexivity.
  - unfold SFeqb at 1. rewrite SFcompare_finite_refl. reflexivity.
Qed.


Lemma float_of_nan f : Prim2SF f = S754_nan -> f = nan.
Proof. intros H. apply Prim2SF_inj. now rewrite H. Qed.

(** The sign bit as [get_sign] reads it. *)
Lemma get_sign_shape f s : has_sign s (Prim2SF f) = true -> get_sign f = s.
Proof.
  intros H. unfold get_sign, is_zero.
  rewrite FloatAxioms.eqb_spec. change (Prim2SF zero) with (S754_zero false).
  destruct (Prim2SF f) as [s'|s'| |s' m e] eqn:E; cbn in H; try discriminate;
    apply eqb_prop in H; subst s'.
  - change (SFeqb (S754_zero s) (S754_zero false)) with true. cbn match.
    rewrite FloatAxioms.ltb_spec, div_spec, E. now destruct s.
  - replace (SFeqb (S754_infinity s) (S754_zero false)) with false by now destruct s.
    rewrite FloatAxioms.ltb_spec, E. now destruct s.
  - replace (SFeqb (S754_finite s m e) (S754_zero false)) with false by now destruct s.
    rewrite FloatAxioms.ltb_spec, E. now destruct s.
Qed.

(** ** Coercions *)

Lemma PyLong_AsDouble_shape z :
  PyLong_AsDouble z = Raise OverflowError \/
  exists f, PyLong_AsDouble z = Ok f /\ Prim2SF f = SF_of_Z z /\
            has_sign (z <? 0) (Prim2SF f) = true /\
            sf_finite (Prim2SF f) = true /\
            (z <> 0 -> sf_proper (Prim2SF f) = true).
Proof.
  unfold PyLong_AsDouble.
  destruct (SF_of_Z_shape z) as (Hv & Hs & Hnz).
  assert (Hp : Prim2SF (SF2Prim (SF_of_Z z)) = SF_of_Z z) by now apply Prim2SF_SF2Prim.
  destruct (SF_of_Z z) as [s|s| |s m e] eqn:E; [right|now left|discriminate|right];
    eexists; (split; [reflexivity|]); rewrite Hp; repeat split; auto.
Qed.

(** ** The running formula below 10/9 km/h *)

Lemma bounded_canonical m e :
  bounded prec emax m e = true ->
  fexp64 (Zdigits2 (Zpos m) + e) = e /\ e <= 971 /\ Zpos m < 2 ^ 53 /\ -1074 <= e.
Proof.
  unfold bounded, canonical_mantissa. intros H. apply andb_prop in H as [Hc He].
  apply Z.eqb_eq in Hc. apply Z.leb_le in He. cbn [Zdigits2].
  change (emax - prec) with 971 in He.
  pose proof (Zdigits2_bounds (Zpos m) ltac:(lia)) as [_ Hhi]. cbn [Zdigits2] in Hhi.
  repeat split; [exact Hc|exact He| |rewrite fexp64_eq in Hc; lia].
  assert (Zpos (digits2_pos m) <= 53) by (rewrite fexp64_eq in Hc; lia).
  assert (2 ^ Zpos (digits2_pos m) <= 2 ^ 53) by (apply Z.pow_le_mono_r; lia). lia.
Qed.





(** ** Which integers convert *)

(** Rounding a mantissa that already fits changes nothing. *)
Lemma binary_round_aux_exact sx m e :
  fexp64 (Zdigits2 (Zpos m) + e) = e -> e <= 971 ->
  binary_round_aux prec emax sx (Zpos m) e loc_Exact = S754_finite sx m e.
Proof.
  intros Hc He. unfold binary_round_aux.
  destruct (shr_fexp_shift (Zpos m) e loc_Exact ltac:(lia)) as [Hns _].
  rewrite Hns by lia. cbn [shr_record_of_loc shr_m loc_of_shr_record round_nearest_even].
  rewrite Hns by lia. cbn [shr_record_of_loc shr_m].
  change (emax - prec) with 971.
  now replace (e <=? 971) with true by (symmetry; now apply Z.leb_le).
Qed.

(** An integer below 2^53 is a double: its mantissa is the integer
    shifted left. *)
Lemma binary_round_small sx p :
  Zpos p < 2 ^ 53 ->
  exists m e, binary_round prec emax sx p 0 = S754_finite sx m e /\
              e <= 0 /\ Zpos m = Zpos p * 2 ^ (- e).
Proof.
  intros Hp. unfold binary_round.
  change (Zpos (digits2_pos p)) with (Zdigits2 (Zpos p)).
  pose proof (Zdigits2_bounds (Zpos p) ltac:(lia)) as [Hlo Hhi].
  pose proof (Zdigits2_pos (Zpos p) ltac:(lia)) as Hd.
  assert (Hd53 : Zdigits2 (Zpos p) <= 53).
  { destruct (Z_lt_le_dec 53 (Zdigits2 (Zpos p))) as [Hc|]; [|lia].
    assert (2 ^ 53 <= 2 ^ (Zdigits2 (Zpos p) - 1)) by (apply Z.pow_le_mono_r; lia). lia. }
  rewrite Z.add_0_r, fexp64_eq.
  replace (Z.max (Zdigits2 (Zpos p) - 53) (-1074)) with (Zdigits2 (Zpos p) - 53) by lia.
  unfold shl_align.
  destruct (Zdigits2 (Zpos p) - 53 - 0) as [|d|d] eqn:Ed; try lia.
  - exists p, 0. split; [|split; [lia|cbn; lia]].
    apply binary_round_aux_exact; [|lia]. rewrite fexp64_eq. lia.
  - exists (shift_pos d p), (Zdigits2 (Zpos p) - 53).
    assert (Hm : Zpos (shift_pos d p) = Zpos p * 2 ^ Zpos d) by apply Pos_iter_xO.
    split; [|split; [lia|rewrite Hm; f_equal; f_equal; lia]].
    apply binary_round_aux_exact; [|lia].
    rewrite Hm, Zdigits2_mul_pow, fexp64_eq by lia. lia.
Qed.

Lemma binary_round_int_range sx p :
  (Zpos p < 2 ^ 1023 -> sf_finite (binary_round prec emax sx p 0) = true) /\
  (2 ^ 1024 <= Zpos p -> binary_round prec emax sx p 0 = S754_infinity sx).
Proof.
  destruct (Z_lt_le_dec (Zpos p) (2 ^ 53)) as [Hsmall|Hbig].
  { destruct (binary_round_small sx p Hsmall) as (m & e & -> & _). split; [reflexivity|].
    intros H. assert (2 ^ 53 < 2 ^ 1024) by (apply Z.pow_lt_mono_r; lia). lia. }
  unfold binary_round.
  change (Zpos (digits2_pos p)) with (Zdigits2 (Zpos p)).
  pose proof (Zdigits2_bounds (Zpos p) ltac:(lia)) as [Hlo Hhi].
  assert (Hd : 54 <= Zdigits2 (Zpos p)).
  { destruct (Z_lt_le_dec (Zdigits2 (Zpos p)) 54) as [Hc|]; [|lia].
    assert (2 ^ Zdigits2 (Zpos p) <= 2 ^ 53) by (apply Z.pow_le_mono_r; lia). lia. }
  rewrite Z.add_0_r.
  assert (He0 : fexp64 (Zdigits2 (Zpos p)) = Zdigits2 (Zpos p) - 53) by (rewrite fexp64_eq; lia).
  rewrite He0. unfold shl_align.
  destruct (Zdigits2 (Zpos p) - 53 - 0) as [|d|d] eqn:Ed; try lia.
  destruct (binary_round_aux_cases sx (Zpos p) 0 ltac:(lia)
              ltac:(rewrite Z.add_0_r, He0; lia)) as (m1 & Hm1 & _ & Hres).
  rewrite Z.add_0_r, He0, Z.sub_0_r in *.
  set (n := Zdigits2 (Zpos p) - 53) in *.
  assert (Hfloor : 2 ^ 52 <= Zpos p / 2 ^ n).
  { apply Z.div_le_lower_bound; [apply Z.pow_pos_nonneg; lia|].
    replace (Zdigits2 (Zpos p) - 1) with (n + 52) in Hlo by lia.
    rewrite Z.pow_add_r in Hlo by lia. lia. }
  assert (H52 : 0 < 2 ^ 52) by now compute.
  destruct Hres as [[Hz _]|(m'' & e'' & -> & _ & Hcase)]; [lia|].
  change (emax - prec) with 971. split; intros Hp.
  - assert (Zdigits2 (Zpos p) <= 1023).
    { destruct (Z_lt_le_dec 1023 (Zdigits2 (Zpos p))) as [Hc|]; [|lia].
      assert (2 ^ 1023 <= 2 ^ (Zdigits2 (Zpos p) - 1)) by (apply Z.pow_le_mono_r; lia). lia. }
    replace (e'' <=? 971) with true by (symmetry; apply Z.leb_le; lia). reflexivity.
  - assert (1025 <= Zdigits2 (Zpos p)).
    { destruct (Z_lt_le_dec (Zdigits2 (Zpos p)) 1025) as [Hc|]; [|lia].
      assert (2 ^ Zdigits2 (Zpos p) <= 2 ^ 1024) by (apply Z.pow_le_mono_r; lia). lia. }
    replace (e'' <=? 971) with false by (symmetry; apply Z.leb_gt; lia). reflexivity.
Qed.

Lemma PyLong_AsDouble_range z :
  (Z.abs z < 2 ^ 1023 -> exists f, PyLong_AsDouble z = Ok f) /\
  (2 ^ 1024 <= Z.abs z -> PyLong_AsDouble z = Raise OverflowError).
Proof.
  unfold PyLong_AsDouble, SF_of_Z, binary_normalize.
  destruct z as [|p|p].
  - split; [eauto|]. intros H. cbn in H. assert (0 < 2 ^ 1024) by now apply Z.pow_pos_nonneg. lia.
  - destruct (binary_round_int_range false p) as [Hs Hl]. split; intros H.
    + specialize (Hs ltac:(lia)). destruct (binary_round prec emax false p 0); try discriminate; eauto.
    + now rewrite Hl by lia.
  - destruct (binary_round_int_range true p) as [Hs Hl]. split; intros H.
    + specialize (Hs ltac:(lia)). destruct (binary_round prec emax true p 0); try discriminate; eauto.
    + now rewrite Hl by lia.
Qed.

(** * Evaluating the methods *)

(** ** The methods only read *)

Create HintDb readonly.

Lemma readonly_ret {A} (a : A) : readonly (mret a).
Proof. intros self. reflexivity. Qed.

Lemma readonly_lift {A} (r : result A) : readonly (lift r).
Proof. intros self. reflexivity. Qed.

Lemma readonly_raise {A} (e : exn) : readonly (raise (A := A) e).
Proof. intros self. reflexivity. Qed.

Lemma readonly_getattr name : readonly (getattr name).
Proof.
  intros self. unfold exec, getattr.
  destruct (ob_dict self !! name); [reflexivity|].
  destruct (lookup_mro _ _); reflexivity.
Qed.

Lemma readonly_self_class_name : readonly self_class_name.
Proof. intros self. reflexivity. Qed.

Lemma readonly_bind {A B} (m : M A) (k : A -> M B) :
  readonly m -> (forall a, readonly (k a)) -> readonly (m ≫= k).
Proof.
  intros Hm Hk self. specialize (Hm self).
  unfold exec, mbind, M_bind in *.
  destruct (m self) as [[a|e] self']; simpl in Hm; subst self'.
  - apply Hk.
  - reflexivity.
Qed.

Lemma readonly_dispatch {A} (impl : klass -> M A) :
  (forall c, readonly (impl c)) -> readonly (dispatch impl).
Proof. intros H self. apply H. Qed.

#[export] Hint Resolve readonly_ret readonly_lift readonly_raise readonly_getattr
  readonly_self_class_name readonly_bind readonly_dispatch : readonly.

Ltac readonly :=
  repeat (intros;
          first [ progress eauto with readonly
                | apply readonly_bind
                | apply readonly_dispatch
                | match goal with c : klass |- _ => destruct c end ]).

Lemma readonly_get_distance : readonly get_distance.
Proof. unfold get_distance, Training_get_distance. readonly. Qed.

#[export] Hint Resolve readonly_get_distance : readonly.

Lemma readonly_get_mean_speed : readonly get_mean_speed.
Proof. unfold get_mean_speed, Training_get_mean_speed, Swimming_get_mean_speed. readonly. Qed.

#[export] Hint Resolve readonly_get_mean_speed : readonly.

Lemma readonly_get_spent_calories {L : Libm} : readonly get_spent_calories.
Proof.
  unfold get_spent_calories, Training_get_spent_calories, Running_get_spent_calories,
    SportsWalking_get_spent_calories, Swimming_get_spent_calories. readonly.
Qed.

#[export] Hint Resolve readonly_get_spent_calories : readonly.

Lemma readonly_show_training_info {L : Libm} : readonly show_training_info.
Proof. unfold show_training_info. readonly. Qed.

#[export] Hint Resolve readonly_show_training_info : readonly.

(** ** Running a method step by step *)

Lemma run_readonly {A} (m : M A) self : readonly m -> m self = (eval m self, self).
Proof.
  intros H. specialize (H self). unfold exec, eval in *.
  destruct (m self); simpl in *; congruence.
Qed.

Lemma eval_bind {A B} (m : M A) (k : A -> M B) self :
  readonly m -> eval (m ≫= k) self = eval m self ≫= (fun a => eval (k a) self).
Proof.
  intros H. unfold eval at 1. unfold mbind at 1, M_bind. rewrite (run_readonly m self H).
  destruct (eval m self); reflexivity.
Qed.

Lemma eval_lift {A} (r : result A) self : eval (lift r) self = r.
Proof. reflexivity. Qed.

Lemma eval_dispatch {A} (impl : klass -> M A) self :
  eval (dispatch impl) self = eval (impl (ob_class self)) self.
Proof. reflexivity. Qed.

Arguments py_mul : simpl never.
Arguments py_add : simpl never.
Arguments py_sub : simpl never.
Arguments py_truediv : simpl never.
Arguments py_floordiv : simpl never.
Arguments py_sq : simpl never.

Ltac py_case :=
  match goal with
  | H : ?r = _ |- context [@mbind result _ _ _ _ ?r] => rewrite H
  | |- context [@mbind result _ _ _ _ ?r] =>
      lazymatch r with
      | Ok _ => fail
      | Raise _ => fail
      | _ => destruct r eqn:?
      end
  end.

Ltac exec_step :=
  first [ rewrite eval_lift
        | rewrite eval_dispatch
        | rewrite eval_bind by eauto with readonly
        | progress cbn [mbind result_bind mret result_ret]
        | py_case ].

Ltac exec_method := unfold binop, sq, int, flt; repeat exec_step; try reflexivity.

Lemma get_distance_eval self :
  eval get_distance self = (attr "action" self * attr "LEN_STEP" self / attr "M_IN_KM" self)%py.
Proof.
  unfold get_distance. rewrite eval_dispatch. unfold Training_get_distance, attr.
  exec_method.
Qed.

Lemma Training_get_mean_speed_eval self :
  eval Training_get_mean_speed self = (eval get_distance self / attr "duration_km" self)%py.
Proof. unfold Training_get_mean_speed, attr. exec_method. Qed.

Lemma Swimming_get_mean_speed_eval self :
  eval Swimming_get_mean_speed self =
  (attr "length_pool" self * attr "count_pool" self / attr "M_IN_KM" self
   / attr "duration_km" self)%py.
Proof. unfold Swimming_get_mean_speed, attr. exec_method. Qed.

Lemma Running_get_spent_calories_eval self :
  eval Running_get_spent_calories self =
  ((attr "RUN_CALORIE_1" self * eval get_mean_speed self - attr "RUN_CALORIE_2" self)
   * attr "weight" self / attr "M_IN_KM" self
   * (attr "duration_km" self * attr "MINUTES_IN_HOURS" self))%py.
Proof. unfold Running_get_spent_calories, attr. exec_method. Qed.

Lemma SportsWalking_get_spent_calories_eval {L : Libm} self :
  eval SportsWalking_get_spent_calories self =
  ((attr "WALK_CALORIE_1" self * attr "weight" self
    + (sq (eval get_mean_speed self) // attr "height" self)
      * attr "WALK_CALORIE_2" self * attr "weight" self)
   * (attr "duration_km" self * attr "MINUTES_IN_HOURS" self))%py.
Proof. unfold SportsWalking_get_spent_calories, attr. exec_method. Qed.

Lemma Swimming_get_spent_calories_eval self :
  eval Swimming_get_spent_calories self =
  ((eval get_mean_speed self + attr "SWIM_CALORIE_1" self)
   * attr "SWIM_CALORIE_2" self * attr "weight" self)%py.
Proof. unfold Swimming_get_spent_calories, attr. exec_method. Qed.

(** ** The instances the dispatcher builds *)

Lemma new_Running a d w : new Running [a; d; w] = Ok (running a d w).
Proof. vm_compute. reflexivity. Qed.

Lemma new_SportsWalking a d w h : new SportsWalking [a; d; w; h] = Ok (walking a d w h).
Proof. vm_compute. reflexivity. Qed.

Lemma new_Swimming a d w l c : new Swimming [a; d; w; l; c] = Ok (swimming a d w l c).
Proof. vm_compute. reflexivity. Qed.

Lemma read_package_RUN data : read_package "RUN" data = new Running data.
Proof. reflexivity. Qed.

Lemma read_package_WLK data : read_package "WLK" data = new SportsWalking data.
Proof. reflexivity. Qed.

Lemma read_package_SWM data : read_package "SWM" data = new Swimming data.
Proof. reflexivity. Qed.

Lemma on_package_RUN {A} (m : M A) a d w :
  on_package m "RUN" [a; d; w] = eval m (running a d w).
Proof. unfold on_package. now rewrite read_package_RUN, new_Running. Qed.

Lemma on_package_WLK {A} (m : M A) a d w h :
  on_package m "WLK" [a; d; w; h] = eval m (walking a d w h).
Proof. unfold on_package. now rewrite read_package_WLK, new_SportsWalking. Qed.

Lemma on_package_SWM {A} (m : M A) a d w l c :
  on_package m "SWM" [a; d; w; l; c] = eval m (swimming a d w l c).
Proof. unfold on_package. now rewrite read_package_SWM, new_Swimming. Qed.

(** The attributes of the three kinds of instance. *)
Ltac attr_compute := repeat split; vm_compute; reflexivity.

Lemma attr_running a d w :
  let self := running a d w in
  attr "action" self = Ok a /\ attr "duration_km" self = Ok d /\
  attr "weight" self = Ok w /\ attr "LEN_STEP" self = flt 0.65 /\
  attr "M_IN_KM" self = int 1000 /\ attr "MINUTES_IN_HOURS" self = int 60 /\
  attr "RUN_CALORIE_1" self = int 18 /\ attr "RUN_CALORIE_2" self = int 20.
Proof. attr_compute. Qed.

Lemma attr_walking a d w h :
  let self := walking a d w h in
  attr "action" self = Ok a /\ attr "duration_km" self = Ok d /\
  attr "weight" self = Ok w /\ attr "height" self = Ok h /\
  attr "LEN_STEP" self = flt 0.65 /\
  attr "M_IN_KM" self = int 1000 /\ attr "MINUTES_IN_HOURS" self = int 60 /\
  attr "WALK_CALORIE_1" self = flt 0.035 /\ attr "WALK_CALORIE_2" self = flt 0.029.
Proof. attr_compute. Qed.

Lemma attr_swimming a d w l c :
  let self := swimming a d w l c in
  attr "action" self = Ok a /\ attr "duration_km" self = Ok d /\
  attr "weight" self = Ok w /\ attr "length_pool" self = Ok l /\
  attr "count_pool" self = Ok c /\ attr "LEN_STEP" self = flt 1.38 /\
  attr "M_IN_KM" self = int 1000 /\
  attr "SWIM_CALORIE_1" self = flt 1.1 /\ attr "SWIM_CALORIE_2" self = int 2.
Proof. attr_compute. Qed.

(** The statistics of each kind of workout, as formulas of its inputs. *)
Lemma running_distance a d w :
  eval get_distance (running a d w) = spec_distance 0.65 a.
Proof.
  rewrite get_distance_eval.
  destruct (attr_running a d w) as (-> & _ & _ & -> & -> & _). reflexivity.
Qed.

Lemma walking_distance a d w h :
  eval get_distance (walking a d w h) = spec_distance 0.65 a.
Proof.
  rewrite get_distance_eval.
  destruct (attr_walking a d w h) as (-> & _ & _ & _ & -> & -> & _). reflexivity.
Qed.

Lemma swimming_distance a d w l c :
  eval get_distance (swimming a d w l c) = spec_distance 1.38 a.
Proof.
  rewrite get_distance_eval.
  destruct (attr_swimming a d w l c) as (-> & _ & _ & _ & _ & -> & -> & _). reflexivity.
Qed.

Lemma running_mean_speed a d w :
  eval get_mean_speed (running a d w) = spec_mean_speed 0.65 a d.
Proof.
  unfold get_mean_speed. rewrite eval_dispatch. cbn [running instance ob_class].
  rewrite Training_get_mean_speed_eval. fold (running a d w). rewrite running_distance.
  destruct (attr_running a d w) as (_ & -> & _). reflexivity.
Qed.

Lemma walking_mean_speed a d w h :
  eval get_mean_speed (walking a d w h) = spec_mean_speed 0.65 a d.
Proof.
  unfold get_mean_speed. rewrite eval_dispatch. cbn [walking instance ob_class].
  rewrite Training_get_mean_speed_eval. fold (walking a d w h). rewrite walking_distance.
  destruct (attr_walking a d w h) as (_ & -> & _). reflexivity.
Qed.

Lemma swimming_mean_speed a d w l c :
  eval get_mean_speed (swimming a d w l c) = spec_swimming_speed l c d.
Proof.
  unfold get_mean_speed. rewrite eval_dispatch. cbn [swimming instance ob_class].
  rewrite Swimming_get_mean_speed_eval. fold (swimming a d w l c).
  destruct (attr_swimming a d w l c) as (_ & -> & _ & -> & -> & _ & -> & _). reflexivity.
Qed.

Lemma running_calories {L : Libm} a d w :
  eval get_spent_calories (running a d w)
  = spec_running_calories (spec_mean_speed 0.65 a d) d w.
Proof.
  unfold get_spent_calories. rewrite eval_dispatch. cbn [running instance ob_class].
  rewrite Running_get_spent_calories_eval. fold (running a d w). rewrite running_mean_speed.
  destruct (attr_running a d w) as (_ & -> & -> & _ & -> & -> & -> & ->). reflexivity.
Qed.

Lemma walking_calories {L : Libm} a d w h :
  eval get_spent_calories (walking a d w h)
  = spec_walking_calories (spec_mean_speed 0.65 a d) d w h.
Proof.
  unfold get_spent_calories. rewrite eval_dispatch. cbn [walking instance ob_class].
  rewrite SportsWalking_get_spent_calories_eval. fold (walking a d w h).
  rewrite walking_mean_speed.
  destruct (attr_walking a d w h) as (_ & -> & -> & -> & _ & _ & -> & -> & ->). reflexivity.
Qed.

Lemma swimming_calories {L : Libm} a d w l c :
  eval get_spent_calories (swimming a d w l c)
  = spec_swimming_calories (spec_swimming_speed l c d) w.
Proof.
  unfold get_spent_calories. rewrite eval_dispatch. cbn [swimming instance ob_class].
  rewrite Swimming_get_spent_calories_eval. fold (swimming a d w l c).
  rewrite swimming_mean_speed.
  destruct (attr_swimming a d w l c) as (_ & _ & -> & _ & _ & _ & _ & -> & ->). reflexivity.
Qed.

(** * The arithmetic operators *)

(** ** What the operators raise *)

Lemma to_double_gt0 x :
  py_gt0 x = true ->
  to_double x = Raise OverflowError \/
  exists f, to_double x = Ok f /\ (f =? 0)%float = false /\
            has_sign false (Prim2SF f) = true /\
            (py_finite x = true -> sf_proper (Prim2SF f) = true).
Proof.
  destruct x as [z|f]; cbn [py_gt0 to_double py_finite]; intros H.
  - apply Z.ltb_lt in H.
    destruct (PyLong_AsDouble_shape z) as [->|(f & -> & _ & Hs & _ & Hp)]; [now left|right].
    exists f. replace (z <? 0) with false in Hs by (symmetry; apply Z.ltb_ge; lia).
    specialize (Hp ltac:(lia)). repeat split; auto. now apply eqb_0_proper.
  - right. exists f. destruct (ltb_0_shape f H) as [Hs Hc].
    repeat split; auto; [now apply eqb_0_of_gt|].
    rewrite is_finite_shape. destruct Hc as [Hc| ->]; [auto|discriminate].
Qed.

Lemma to_double_total x :
  to_double x = Raise OverflowError \/ exists f, to_double x = Ok f.
Proof.
  destruct x as [z|f]; cbn [to_double]; [|eauto].
  destruct (PyLong_AsDouble_shape z) as [->|(f & -> & _)]; eauto.
Qed.

Lemma or_overflow_weaken (P Q : num -> Prop) r :
  (forall v, P v -> Q v) -> or_overflow P r -> or_overflow Q r.
Proof. intros H [->|(v & -> & Hv)]; [now left|right; eauto]. Qed.

Lemma or_overflow_Ok (P : num -> Prop) v : P v -> or_overflow P (Ok v).
Proof. right; eauto. Qed.

Lemma binop_or_overflow (P Q R : num -> Prop) op x y :
  or_overflow P x -> or_overflow Q y ->
  (forall a b, P a -> Q b -> or_overflow R (op a b)) ->
  or_overflow R (binop op x y).
Proof.
  intros [->|(a & -> & Ha)]; [now left|].
  intros [->|(b & -> & Hb)]; [now left|].
  intros H. apply H; assumption.
Qed.

Lemma float_path_total (g : float -> float -> result num) a b :
  (forall x y, to_double b = Ok y -> or_overflow (fun _ => True) (g x y)) ->
  or_overflow (fun _ => True) (x ← to_double a; y ← to_double b; g x y).
Proof.
  intros Hg.
  destruct (to_double_total a) as [->|[fa ->]]; [now left|]. cbn [mbind result_bind].
  destruct (to_double_total b) as [Eb|[fb Eb]]; rewrite Eb; [now left|].
  cbn [mbind result_bind]. now apply Hg.
Qed.

Ltac float_path := apply float_path_total; intros; right; eauto.

Lemma py_mul_total a b : or_overflow (fun _ => True) (py_mul a b).
Proof. unfold py_mul. destruct a, b; [right; eauto|float_path..]. Qed.

Lemma py_add_total a b : or_overflow (fun _ => True) (py_add a b).
Proof. unfold py_add. destruct a, b; [right; eauto|float_path..]. Qed.

Lemma py_sub_total a b : or_overflow (fun _ => True) (py_sub a b).
Proof. unfold py_sub. destruct a, b; [right; eauto|float_path..]. Qed.

Lemma py_sq_total {L : Libm} a : or_overflow (fun _ => True) (py_sq a).
Proof.
  unfold py_sq. destruct a as [z|x]; [right; eauto|].
  destruct (is_nan x); [right; eauto|].
  destruct (is_infinity x); [right; eauto|].
  destruct (x =? 0)%float; [right; eauto|]. cbv zeta.
  destruct (_ =? 1)%float; [right; eauto|].
  destruct (is_infinity _); [now left|right; eauto].
Qed.

Lemma long_true_divide_total x y :
  y <> 0 -> or_overflow (fun _ => True) (long_true_divide x y).
Proof.
  intros Hy. unfold long_true_divide.
  replace (y =? 0) with false by (symmetry; now apply Z.eqb_neq).
  destruct (SF64div (SF_raw x) (SF_raw y)); [right|now left|right|right]; eauto.
Qed.

Lemma to_double_gt0_nonzero b y :
  py_gt0 b = true -> to_double b = Ok y -> (y =? 0)%float = false.
Proof.
  intros Hb E. destruct (to_double_gt0 b Hb) as [E'|(f & E' & Hz & _)]; congruence.
Qed.

Lemma py_truediv_total a b :
  py_gt0 b = true -> or_overflow (fun _ => True) (py_truediv a b).
Proof.
  intros Hb. unfold py_truediv.
  destruct a as [x|x], b as [y|y];
    [apply long_true_divide_total; apply Z.ltb_lt in Hb; lia|..];
    apply float_path_total; intros fx fy E;
    rewrite (to_double_gt0_nonzero _ fy Hb E); right; eauto.
Qed.

Lemma py_floordiv_total a b :
  py_gt0 b = true -> or_overflow (fun _ => True) (py_floordiv a b).
Proof.
  intros Hb. unfold py_floordiv.
  destruct a as [x|x], b as [y|y];
    [apply Z.ltb_lt in Hb;
     replace (y =? 0) with false by (symmetry; apply Z.eqb_neq; lia); right; eauto|..];
    apply float_path_total; intros fx fy E;
    rewrite (to_double_gt0_nonzero _ fy Hb E); right; eauto.
Qed.

(** ** Signs through the operators *)

Lemma to_double_positive x :
  positive_reading x ->
  to_double x = Raise OverflowError \/
  exists f, to_double x = Ok f /\ (f =? 0)%float = false /\
            has_sign false (Prim2SF f) = true /\ sf_proper (Prim2SF f) = true.
Proof.
  intros [Hp Hf]. destruct (to_double_gt0 x Hp) as [E|(f & E & Hz & Hs & Hpr)]; [now left|].
  right. exists f. auto.
Qed.

Lemma to_double_nonneg x :
  nonneg_value x ->
  to_double x = Raise OverflowError \/
  exists f, to_double x = Ok f /\ has_sign false (Prim2SF f) = true.
Proof.
  destruct x as [z|f]; cbn [nonneg_value to_double]; intros H; [|eauto].
  destruct (PyLong_AsDouble_shape z) as [->|(f & -> & _ & Hs & _)]; [now left|right].
  exists f. replace (z <? 0) with false in Hs by (symmetry; apply Z.ltb_ge; lia). auto.
Qed.

Lemma nonneg_value_ge0 v : nonneg_value v -> py_ge0 v = true.
Proof.
  destruct v as [z|f]; cbn; intros H; [now apply Z.leb_le|now apply leb_0_of_sign].
Qed.

Lemma SF64mul_proper_sign x y sx sy :
  has_sign sx x = true -> has_sign sy y = true -> sf_proper y = true ->
  has_sign (xorb sx sy) (SF64mul x y) = true.
Proof.
  intros Hx Hy Hp. destruct (SF64mul_sign x y sx sy Hx Hy) as [Hn|H]; [|exact H].
  exfalso. destruct y as [| | |s2 m2 e2]; try discriminate.
  destruct x as [s1|s1| |s1 m1 e1]; try discriminate.
  cbn [SF64mul SFmul] in Hn.
  pose proof (binary_round_aux_sign (xorb s1 s2) (Zpos (m1 * m2)) (e1 + e2) loc_Exact ltac:(lia)) as Hs.
  rewrite Hn in Hs. discriminate.
Qed.

(** The product of two positive readings. *)
Lemma py_mul_positive x y :
  positive_reading x -> positive_reading y -> or_overflow nonneg_value (py_mul x y).
Proof.
  intros Hx Hy. unfold py_mul.
  destruct (to_double_positive x Hx) as [Ex|(fx & Ex & _ & Hsx & Hpx)];
    destruct (to_double_positive y Hy) as [Ey|(fy & Ey & _ & Hsy & Hpy)];
    destruct x as [a|a], y as [b|b];
    try (right; eexists; split; [reflexivity|];
         destruct Hx as [Hx _], Hy as [Hy _]; cbn in Hx, Hy |- *;
         apply Z.ltb_lt in Hx, Hy; nia);
    rewrite ?Ex, ?Ey; cbn [to_double mbind result_bind] in *;
    try rewrite Ex; try rewrite Ey; cbn [mbind result_bind]; try (now left).
  all: right; eexists; split; [reflexivity|]; cbn [nonneg_value]; rewrite mul_spec.
  all: try injection Ex as <-; try injection Ey as <-.
  all: apply (SF64mul_proper_sign _ _ false false); auto.
Qed.

(** The float path of a binary operator, with what is known of the two
    coerced operands. *)
Lemma float_path (P Q : float -> Prop) (R : num -> Prop) (g : float -> float -> result num) a b :
  (to_double a = Raise OverflowError \/ exists f, to_double a = Ok f /\ P f) ->
  (to_double b = Raise OverflowError \/ exists f, to_double b = Ok f /\ Q f) ->
  (forall x y, P x -> Q y -> or_overflow R (g x y)) ->
  or_overflow R (x ← to_double a; y ← to_double b; g x y).
Proof.
  intros [->|(fa & -> & Ha)]; [now left|]. cbn [mbind result_bind].
  intros [->|(fb & -> & Hb)]; [now left|]. cbn [mbind result_bind].
  intros H. now apply H.
Qed.

(** A non-negative number over a positive reading. *)
Lemma py_truediv_nonneg x y :
  nonneg_value x -> positive_reading y -> or_overflow nonneg_value (py_truediv x y).
Proof.
  intros Hx Hy. unfold py_truediv.
  assert (Hfloat : or_overflow nonneg_value
            (fx ← to_double x; fy ← to_double y;
             if (fy =? 0)%float then Raise ZeroDivisionError else Ok (PyFloat (fx / fy)%float))).
  { eapply float_path; [exact (to_double_nonneg x Hx)|exact (to_double_positive y Hy)|].
    intros fx fy Hsx (Hz & Hsy & Hpy). rewrite Hz. apply or_overflow_Ok.
    cbn [nonneg_value]. rewrite div_spec.
    apply (SF64div_sign _ _ false false); auto. }
  destruct x as [a|a], y as [b|b]; try exact Hfloat.
  unfold long_true_divide. destruct Hy as [Hy _]. cbn in Hx, Hy. apply Z.ltb_lt in Hy.
  replace (b =? 0) with false by (symmetry; apply Z.eqb_neq; lia).
  destruct (SF64div_raw_shape a b ltac:(lia)) as [Hv Hs].
  replace (a <? 0) with false in Hs by (symmetry; apply Z.ltb_ge; lia).
  replace (b <? 0) with false in Hs by (symmetry; apply Z.ltb_ge; lia).
  assert (Hp : Prim2SF (SF2Prim (SF64div (SF_raw a) (SF_raw b))) = SF64div (SF_raw a) (SF_raw b))
    by now apply Prim2SF_SF2Prim.
  destruct (SF64div (SF_raw a) (SF_raw b)) eqn:E; [|now left|discriminate|];
    apply or_overflow_Ok; cbn [nonneg_value]; now rewrite Hp.
Qed.

(** *** The factors of the running formula *)


(** *** Signs up to NaN: positive readings that may be infinite *)

Lemma SF64mul_nan_or_sign x y sx sy :
  nan_or_sign sx x -> nan_or_sign sy y -> nan_or_sign (xorb sx sy) (SF64mul x y).
Proof.
  intros [->|Hx]; [now left|]. intros [->|Hy]; [left; now destruct x|].
  apply SF64mul_sign; assumption.
Qed.

Lemma SF64div_nan_or_sign x y sx sy :
  nan_or_sign sx x -> nan_or_sign sy y -> nan_or_sign (xorb sx sy) (SF64div x y).
Proof.
  intros [->|Hx]; [now left|]. intros [->|Hy]; [left; now destruct x|].
  destruct x as [s1|s1| |s1 m1 e1], y as [s2|s2| |s2 m2 e2]; cbn in Hx, Hy; try discriminate;
    apply eqb_prop in Hx, Hy; subst s1 s2; cbn [SF64div SFdiv];
    try (now left); try (right; cbn; now destruct sx, sy).
  right.
  pose proof (SFdiv_round_shape (xorb sx sy) (Zpos m1) e1 (Zpos m2) e2 ltac:(lia) ltac:(lia)) as H.
  destruct (SFdiv_core_binary prec emax (Zpos m1) e1 (Zpos m2) e2) as [[q e'] l]. apply H.
Qed.

Lemma py_gt0_nonneg_or_nan x : py_gt0 x = true -> nonneg_or_nan x.
Proof.
  destruct x as [z|f]; cbn; intros H.
  - apply Z.ltb_lt in H. lia.
  - right. now apply ltb_0_shape.
Qed.

Lemma to_double_nonneg_or_nan x :
  nonneg_or_nan x ->
  to_double x = Raise OverflowError \/
  exists f, to_double x = Ok f /\ nan_or_sign false (Prim2SF f).
Proof.
  destruct x as [z|f]; cbn [nonneg_or_nan to_double]; intros H; [|eauto].
  destruct (PyLong_AsDouble_shape z) as [->|(f & -> & _ & Hs & _)]; [now left|right].
  exists f. replace (z <? 0) with false in Hs by (symmetry; apply Z.ltb_ge; lia).
  split; [reflexivity|now right].
Qed.

(** A signed double times a number that is not negative. *)
Lemma py_mul_signed f y s :
  nan_or_sign s (Prim2SF f) -> nonneg_or_nan y ->
  or_overflow (fun v => exists g, v = PyFloat g /\ nan_or_sign s (Prim2SF g))
              (py_mul (PyFloat f) y).
Proof.
  intros Hf Hy. unfold py_mul.
  assert (Hfloat : or_overflow (fun v => exists g, v = PyFloat g /\ nan_or_sign s (Prim2SF g))
            (a ← to_double (PyFloat f); b ← to_double y; Ok (PyFloat (a * b)%float))).
  { eapply (float_path (fun a => a = f)); [right; eauto|exact (to_double_nonneg_or_nan y Hy)|].
    intros a b -> Hb. apply or_overflow_Ok. eexists; split; [reflexivity|].
    rewrite mul_spec. replace s with (xorb s false) by now destruct s.
    now apply SF64mul_nan_or_sign. }
  destruct y; exact Hfloat.
Qed.

(** A signed double over a positive number. *)
Lemma py_truediv_signed f y s :
  nan_or_sign s (Prim2SF f) -> py_gt0 y = true ->
  or_overflow (fun v => exists g, v = PyFloat g /\ nan_or_sign s (Prim2SF g))
              (py_truediv (PyFloat f) y).
Proof.
  intros Hf Hy. unfold py_truediv.
  assert (Hfloat : or_overflow (fun v => exists g, v = PyFloat g /\ nan_or_sign s (Prim2SF g))
            (a ← to_double (PyFloat f); b ← to_double y;
             if (b =? 0)%float then Raise ZeroDivisionError else Ok (PyFloat (a / b)%float))).
  { eapply (float_path (fun a => a = f)); [right; eauto|exact (to_double_gt0 y Hy)|].
    intros a b -> (Hz & Hb & _). rewrite Hz. apply or_overflow_Ok.
    eexists; split; [reflexivity|].
    rewrite div_spec. replace s with (xorb s false) by now destruct s.
    apply SF64div_nan_or_sign; [assumption|now right]. }
  destruct y; exact Hfloat.
Qed.

(** The product of two positive numbers. *)
Lemma py_mul_gt0 x y :
  py_gt0 x = true -> py_gt0 y = true -> or_overflow nonneg_or_nan (py_mul x y).
Proof.
  intros Hx Hy. unfold py_mul.
  assert (Hfloat : or_overflow nonneg_or_nan
            (a ← to_double x; b ← to_double y; Ok (PyFloat (a * b)%float))).
  { eapply float_path; [exact (to_double_gt0 x Hx)|exact (to_double_gt0 y Hy)|].
    intros a b (_ & Ha & _) (_ & Hb & _). apply or_overflow_Ok. cbn [nonneg_or_nan].
    rewrite mul_spec. apply (SF64mul_nan_or_sign _ _ false false); now right. }
  destruct x as [a|a], y as [b|b]; try exact Hfloat.
  apply or_overflow_Ok. cbn in *. apply Z.ltb_lt in Hx, Hy. nia.
Qed.

(** A number that is not negative over a positive number. *)
Lemma py_truediv_gt0 x y :
  nonneg_or_nan x -> py_gt0 y = true -> or_overflow nonneg_or_nan (py_truediv x y).
Proof.
  intros Hx Hy. unfold py_truediv.
  assert (Hfloat : or_overflow nonneg_or_nan
            (fx ← to_double x; fy ← to_double y;
             if (fy =? 0)%float then Raise ZeroDivisionError else Ok (PyFloat (fx / fy)%float))).
  { eapply float_path; [exact (to_double_nonneg_or_nan x Hx)|exact (to_double_gt0 y Hy)|].
    intros fx fy Hsx (Hz & Hsy & _). rewrite Hz. apply or_overflow_Ok.
    cbn [nonneg_or_nan]. rewrite div_spec.
    apply (SF64div_nan_or_sign _ _ false false); [assumption|now right]. }
  destruct x as [a|a], y as [b|b]; try exact Hfloat.
  unfold long_true_divide. cbn in Hx, Hy. apply Z.ltb_lt in Hy.
  replace (b =? 0) with false by (symmetry; apply Z.eqb_neq; lia).
  destruct (SF64div_raw_shape a b ltac:(lia)) as [Hv Hs].
  replace (a <? 0) with false in Hs by (symmetry; apply Z.ltb_ge; lia).
  replace (b <? 0) with false in Hs by (symmetry; apply Z.ltb_ge; lia).
  assert (Hp : Prim2SF (SF2Prim (SF64div (SF_raw a) (SF_raw b))) = SF64div (SF_raw a) (SF_raw b))
    by now apply Prim2SF_SF2Prim.
  destruct (SF64div (SF_raw a) (SF_raw b)) eqn:E; [|now left|discriminate|];
    apply or_overflow_Ok; cbn [nonneg_or_nan]; rewrite Hp; now right.
Qed.


(** * Lemmas behind the properties *)

(** ** The dispatcher *)

Lemma class_data_Some code c :
  class_data !! code = Some c <->
  (code = "SWM" /\ c = Swimming) \/ (code = "RUN" /\ c = Running) \/
  (code = "WLK" /\ c = SportsWalking).
Proof.
  unfold class_data. rewrite !lookup_insert_Some, lookup_singleton_Some.
  split.
  - intros [[<- <-]|[? [[<- <-]|[? [<- <-]]]]]; auto.
  - intros [[-> ->]|[[-> ->]|[-> ->]]]; [left|right; split; [done|left]|
      right; split; [done|right; split; [done|]]]; auto.
Qed.

Lemma class_data_None code :
  class_data !! code = None <-> code <> "SWM" /\ code <> "RUN" /\ code <> "WLK".
Proof.
  unfold class_data. rewrite !lookup_insert_None, lookup_singleton_None.
  intuition congruence.
Qed.

Lemma new_arity c data : length data <> arity c -> new c data = Raise TypeError.
Proof.
  intros H.
  destruct c, data as [|a [|d [|w [|h [|l [|x data]]]]]]; cbn in H; try lia; reflexivity.
Qed.

Lemma new_Ok c data training :
  new c data = Ok training ->
  length data = arity c /\ ob_class training = c.
Proof.
  intros H.
  destruct c, data as [|a [|d [|w [|h [|l [|x data]]]]]]; try discriminate H;
    vm_compute in H; injection H as <-; split; reflexivity.
Qed.

Lemma new_not_ValueError c data msg : new c data <> Raise (ValueError msg).
Proof.
  destruct c, data as [|a [|d [|w [|h [|l [|x data]]]]]]; vm_compute; discriminate.
Qed.

Lemma read_package_Ok code data training :
  read_package code data = Ok training ->
  (exists a d w, code = "RUN" /\ data = [a; d; w] /\ training = running a d w) \/
  (exists a d w h, code = "WLK" /\ data = [a; d; w; h] /\ training = walking a d w h) \/
  (exists a d w l c, code = "SWM" /\ data = [a; d; w; l; c] /\ training = swimming a d w l c).
Proof.
  unfold read_package. destruct (class_data !! code) as [c|] eqn:Ec; [|discriminate].
  apply class_data_Some in Ec. intros H.
  pose proof (new_Ok c data training H) as [Hlen _].
  destruct Ec as [[-> ->]|[[-> ->]|[-> ->]]];
    destruct data as [|a [|d [|w [|h [|l [|x data]]]]]]; try discriminate Hlen.
  - right; right. exists a, d, w, h, l. rewrite new_Swimming in H. injection H as <-. auto.
  - left. exists a, d, w. rewrite new_Running in H. injection H as <-. auto.
  - right; left. exists a, d, w, h. rewrite new_SportsWalking in H. injection H as <-. auto.
Qed.

Lemma new_total c data :
  length data = arity c -> exists training, new c data = Ok training /\ ob_class training = c.
Proof.
  intros H.
  destruct c, data as [|a [|d [|w [|h [|l [|x data]]]]]]; try discriminate H;
    eexists; (split; [vm_compute; reflexivity|reflexivity]).
Qed.

(** ** Every method hands back the instance it was given *)

Lemma perform_readonly {L : Libm} c self : snd (perform c self) = self.
Proof.
  destruct c; cbn [perform snd];
    [apply readonly_get_distance|apply readonly_get_mean_speed|
     apply readonly_get_spent_calories|apply readonly_show_training_info].
Qed.

(** ** Formulas that can only overflow *)

Lemma sq_total {L : Libm} r :
  or_overflow (fun _ => True) r -> or_overflow (fun _ => True) (sq r).
Proof. intros [->|(v & -> & _)]; [now left|apply py_sq_total]. Qed.

(** Walks down a formula: every operator either hands back a number or
    raises [OverflowError], provided each divisor is positive. *)
Ltac total :=
  lazymatch goal with
  | |- or_overflow _ (Ok _) => now apply or_overflow_Ok
  | |- or_overflow _ (int _) => now apply or_overflow_Ok
  | |- or_overflow _ (flt _) => now apply or_overflow_Ok
  | |- or_overflow _ (sq _) => apply sq_total; total
  | |- or_overflow _ (binop py_truediv _ _) =>
      apply (binop_or_overflow (fun _ => True) (fun v => py_gt0 v = true));
      [total|now apply or_overflow_Ok|intros; now apply py_truediv_total]
  | |- or_overflow _ (binop py_floordiv _ _) =>
      apply (binop_or_overflow (fun _ => True) (fun v => py_gt0 v = true));
      [total|now apply or_overflow_Ok|intros; now apply py_floordiv_total]
  | |- or_overflow _ (binop py_mul _ _) =>
      apply (binop_or_overflow (fun _ => True) (fun _ => True));
      [total|total|intros; apply py_mul_total]
  | |- or_overflow _ (binop py_add _ _) =>
      apply (binop_or_overflow (fun _ => True) (fun _ => True));
      [total|total|intros; apply py_add_total]
  | |- or_overflow _ (binop py_sub _ _) =>
      apply (binop_or_overflow (fun _ => True) (fun _ => True));
      [total|total|intros; apply py_sub_total]
  | _ => assumption
  end.

(** ** Distance and speed of positive readings *)

Lemma positive_reading_const_int z : 0 < z -> positive_reading (PyInt z).
Proof. intros H. split; [now apply Z.ltb_lt|reflexivity]. Qed.



Lemma spec_swimming_speed_nonneg l c d :
  positive_reading l -> positive_reading c -> positive_reading d ->
  or_overflow nonneg_value (spec_swimming_speed l c d).
Proof.
  intros Hl Hc Hd. unfold spec_swimming_speed.
  apply (binop_or_overflow nonneg_value positive_reading).
  - apply (binop_or_overflow nonneg_value positive_reading).
    + apply (binop_or_overflow positive_reading positive_reading);
        [now apply or_overflow_Ok|now apply or_overflow_Ok|].
      intros x y. apply py_mul_positive.
    + apply or_overflow_Ok. now apply positive_reading_const_int.
    + intros x y. apply py_truediv_nonneg.
  - now apply or_overflow_Ok.
  - intros x y. apply py_truediv_nonneg.
Qed.



(** ** The speed of positive readings that may be infinite *)

Lemma spec_mean_speed_sign a d :
  py_gt0 a = true -> py_gt0 d = true ->
  or_overflow nonneg_or_nan (spec_mean_speed 0.65 a d).
Proof.
  intros Ha Hd. unfold spec_mean_speed, spec_distance.
  apply (binop_or_overflow nonneg_or_nan (fun y => py_gt0 y = true)).
  - apply (binop_or_overflow nonneg_or_nan (fun y => py_gt0 y = true)).
    + apply (binop_or_overflow (fun y => py_gt0 y = true) (fun y => py_gt0 y = true));
        [now apply or_overflow_Ok|now apply or_overflow_Ok|].
      intros x y. apply py_mul_gt0.
    + now apply or_overflow_Ok.
    + intros x y. apply py_truediv_gt0.
  - now apply or_overflow_Ok.
  - intros x y. apply py_truediv_gt0.
Qed.

(** ** Floor division of a small square *)

Lemma SFltb_nonneg_shape X Y :
  has_sign false X = true -> SFltb X Y = true ->
  sf_finite X = true /\ has_sign false Y = true /\
  (sf_proper Y = true \/ Y = S754_infinity false).
Proof.
  unfold SFltb.
  destruct X as [[]|[]| |[] mx ex], Y as [[]|[]| |[] my ey]; cbn; try discriminate; auto.
Qed.

Lemma SFfmod_small X Y :
  has_sign false X = true -> SFltb X Y = true -> SFfmod X Y = X.
Proof.
  intros Hs Hlt. destruct (SFltb_nonneg_shape X Y Hs Hlt) as (Hf & HsY & HY).
  destruct X as [[]|[]| |[] mx ex]; try discriminate;
    destruct Y as [[]|[]| |[] my ey]; try discriminate; try reflexivity;
    try (destruct HY; discriminate).
  cbn [SFfmod SFabs]. now rewrite Hlt.
Qed.

Lemma SF64sub_diag X :
  has_sign false X = true -> sf_finite X = true -> SF64sub X X = S754_zero false.
Proof.
  destruct X as [[]|[]| |[] m e]; try discriminate; intros _ _; [reflexivity|].
  cbn [SF64sub SFsub cond_Zopp]. now rewrite Z.sub_diag.
Qed.

Lemma float_floor_div_small x y :
  has_sign false (Prim2SF x) = true -> (x <? y)%float = true ->
  float_floor_div x y = 0%float.
Proof.
  intros Hs Hlt. pose proof Hlt as Hlt'. rewrite FloatAxioms.ltb_spec in Hlt'.
  destruct (SFltb_nonneg_shape _ _ Hs Hlt') as (Hf & HsY & HY).
  unfold float_floor_div.
  assert (Hmod : fmod x y = x).
  { unfold fmod. rewrite SFfmod_small by assumption. apply SF2Prim_Prim2SF. }
  rewrite Hmod.
  assert (Hdiv : ((x - x) / y)%float = 0%float).
  { apply Prim2SF_inj. rewrite div_spec, sub_spec, SF64sub_diag by assumption.
    change (Prim2SF 0) with (S754_zero false).
    destruct (Prim2SF y) as [[]|[]| |[] my ey]; try discriminate; try reflexivity;
      destruct HY; discriminate. }
  rewrite Hdiv.
  assert (Hy0 : (y <? 0)%float = false).
  { rewrite FloatAxioms.ltb_spec. change (Prim2SF 0) with (S754_zero false).
    destruct (Prim2SF y) as [[]|[]| |[] my ey]; try discriminate; reflexivity. }
  assert (Hx0 : (x <? 0)%float = false).
  { rewrite FloatAxioms.ltb_spec. change (Prim2SF 0) with (S754_zero false).
    destruct (Prim2SF x) as [[]|[]| |[] mx ex]; try discriminate; reflexivity. }
  rewrite Hy0, Hx0, andb_false_r.
  change (nonzero 0) with false. cbn match.
  unfold copysign_zero. rewrite (get_sign_shape (x / y) false); [reflexivity|].
  rewrite div_spec. apply (SF64div_sign _ _ false false); auto.
  destruct HY as [HY|HY]; auto.
Qed.

(** ** The square *)

Lemma is_nan_shape x : is_nan x = true -> Prim2SF x = S754_nan.
Proof.
  unfold is_nan. rewrite FloatAxioms.eqb_spec. unfold SFeqb.
  destruct (Prim2SF x) as [s|s| |s m e]; try reflexivity.
  - now destruct s.
  - now destruct s.
  - now rewrite SFcompare_finite_refl.
Qed.

Lemma not_nan_shape x : is_nan x = false -> Prim2SF x <> S754_nan.
Proof.
  unfold is_nan. rewrite FloatAxioms.eqb_spec. intros H E. rewrite E in H. discriminate.
Qed.

(** [fabs] of a double that is not a NaN has a clear sign bit. *)
Lemma abs_sign x : is_nan x = false -> has_sign false (Prim2SF (abs x)) = true.
Proof.
  intros H. apply not_nan_shape in H. rewrite abs_spec.
  now destruct (Prim2SF x) as [s|s| |s m e].
Qed.

(** The base that [float_pow] hands to [pow] is finite and positive. *)
Lemma float_pow_base x :
  is_nan x = false -> is_infinity x = false -> (x =? 0)%float = false ->
  let iv := if (x <? 0)%float then (- x)%float else x in
  is_finite iv = true /\ (0 <? iv)%float = true.
Proof.
  intros Hn Hi Hz. apply not_nan_shape in Hn. unfold is_infinity in Hi.
  rewrite FloatAxioms.eqb_spec in Hi, Hz. rewrite abs_spec in Hi.
  cbv zeta. rewrite (FloatAxioms.ltb_spec x).
  change (Prim2SF 0) with (S754_zero false) in *.
  change (Prim2SF infinity) with (S754_infinity false) in Hi.
  destruct (Prim2SF x) as [s|s| |[] m e] eqn:E; try discriminate; try congruence;
    try (now destruct s).
  - change (SFltb (S754_finite true m e) (S754_zero false)) with true. cbv iota.
    rewrite is_finite_shape, FloatAxioms.ltb_spec, opp_spec, E. split; reflexivity.
  - change (SFltb (S754_finite false m e) (S754_zero false)) with false. cbv iota.
    rewrite is_finite_shape, FloatAxioms.ltb_spec, E. split; reflexivity.
Qed.

(** What [float ** 2] hands back: the base itself when it is a NaN, [fabs]
    of an infinity, 0.0, 1.0, or the finite result of [pow] on a finite
    positive base other than 1.0. *)
Lemma py_sq_cases {L : Libm} x s2 :
  py_sq (PyFloat x) = Ok (PyFloat s2) ->
  (is_nan x = true /\ s2 = x) \/
  (is_nan x = false /\ s2 = abs x) \/
  s2 = 0%float \/ s2 = 1%float \/
  exists iv, is_finite iv = true /\ (0 <? iv)%float = true /\ (iv =? 1)%float = false /\
             s2 = pow_2 iv.
Proof.
  unfold py_sq. intros H.
  destruct (is_nan x) eqn:En; [injection H as <-; auto|].
  destruct (is_infinity x) eqn:Ei; [injection H as <-; auto|].
  destruct (x =? 0)%float eqn:Ez; [injection H as <-; auto|].
  destruct (float_pow_base x En Ei Ez) as [Hf Hp]. cbv zeta in H, Hf, Hp.
  set (iv := if (x <? 0)%float then (- x)%float else x) in *.
  destruct (iv =? 1)%float eqn:E1; [injection H as <-; auto|].
  destruct (is_infinity (pow_2 iv)); [discriminate|]. injection H as <-.
  right; right; right; right. eauto.
Qed.

(** With an accurate library the square of a float is a NaN (of a NaN) or
    has a clear sign bit. *)
Lemma py_sq_sign {L : Libm} x s2 :
  accurate L -> py_sq (PyFloat x) = Ok (PyFloat s2) ->
  nan_or_sign false (Prim2SF s2).
Proof.
  intros HL H.
  destruct (py_sq_cases x s2 H) as [[En ->]|[[En ->]|[->|[->|(iv & Hf & Hp & H1 & ->)]]]].
  - left. now apply is_nan_shape.
  - right. now apply abs_sign.
  - now right.
  - now right.
  - right. apply (HL iv Hf Hp H1).
Qed.

(** A square that compares below something is not negative. *)
Lemma py_sq_nonneg {L : Libm} x s2 y :
  accurate L ->
  py_sq (PyFloat x) = Ok (PyFloat s2) -> (s2 <? y)%float = true ->
  has_sign false (Prim2SF s2) = true.
Proof.
  intros HL H Hlt. destruct (py_sq_sign x s2 HL H) as [Hn|Hs]; [|exact Hs].
  rewrite FloatAxioms.ltb_spec, Hn in Hlt. discriminate.
Qed.

(** The correctly rounded library is accurate. *)
Lemma correctly_rounded_accurate : accurate correctly_rounded.
Proof.
  intros x Hf Hp _. split; [now left|]. cbn [pow_2 correctly_rounded].
  rewrite mul_spec. apply ltb_0_shape in Hp as [Hs _].
  rewrite is_finite_shape in Hf.
  exact (SF64mul_finite_sign _ _ false false Hs Hs Hf Hf).
Qed.

(** A double that compares equal to a finite non-zero double is that
    double. *)
Lemma eqb_proper_eq x b :
  sf_proper (Prim2SF b) = true -> (x =? b)%float = true -> x = b.
Proof.
  intros Hb H. apply Prim2SF_inj. rewrite FloatAxioms.eqb_spec in H. unfold SFeqb in H.
  destruct (Prim2SF b) as [| | |sb mb eb]; try discriminate.
  destruct (Prim2SF x) as [s|s| |s m e]; [now destruct s, sb..|discriminate|].
  cbn [SFcompare] in H.
  change (IntDef.Z.compare e eb) with (Z.compare e eb) in H.
  change (PosDef.Pos.compare_cont Eq m mb) with (Pos.compare m mb) in H.
  destruct s, sb; try discriminate;
    destruct (Z.compare_spec e eb) as [He|He|He]; try discriminate;
    destruct (Pos.compare_spec m mb) as [Hm|Hm|Hm]; try discriminate;
    congruence.
Qed.

(** A library that rounds up on one base is accurate, provided the double
    above the square of that base is not negative. *)
Lemma rounded_up_at_accurate b :
  sf_proper (Prim2SF b) = true ->
  has_sign false (Prim2SF (next_up (b * b))) = true ->
  accurate (rounded_up_at b).
Proof.
  intros Hb Hs x Hf Hp H1. cbn [pow_2 rounded_up_at].
  destruct (x =? b)%float eqn:E.
  - apply (eqb_proper_eq x b Hb) in E. subst x. split; [auto|exact Hs].
  - now apply correctly_rounded_accurate.
Qed.

(** With an accurate library the square of a finite positive base other
    than 1.0 is one of three doubles, checked for overflow. *)
Lemma sq_near {L : Libm} x :
  accurate L -> is_finite x = true -> (0 <? x)%float = true -> (x =? 1)%float = false ->
  exists r, (r = (x * x)%float \/ r = next_up (x * x) \/ r = next_down (x * x)) /\
            sq (flt x) = if is_infinity r then Raise OverflowError else Ok (PyFloat r).
Proof.
  intros HL Hf Hp H1. exists (pow_2 x). split; [apply (HL x Hf Hp H1)|].
  unfold sq, flt. cbn [mbind result_bind]. unfold py_sq.
  unfold is_finite in Hf. apply negb_true_iff, orb_false_iff in Hf as [-> ->].
  rewrite (eqb_0_of_gt x Hp).
  assert (Hn : (x <? 0)%float = false).
  { apply ltb_0_shape in Hp as [Hs _]. rewrite FloatAxioms.ltb_spec.
    change (Prim2SF 0) with (S754_zero false).
    now destruct (Prim2SF x) as [[]|[]| |[] m e]. }
  cbv zeta. now rewrite Hn, H1.
Qed.

(** *** The walking sample *)

Lemma sample_walking_speed : spec_mean_speed 0.65 (PyInt 9000) (PyInt 1) = flt 5.85.
Proof. vm_compute. reflexivity. Qed.

Lemma sample_walking_calories {L : Libm} :
  accurate L ->
  spec_walking_calories (spec_mean_speed 0.65 (PyInt 9000) (PyInt 1))
    (PyInt 1) (PyInt 75) (PyInt 180)
  = flt 157.50000000000003.
Proof.
  intros HL. rewrite sample_walking_speed. unfold spec_walking_calories.
  destruct (sq_near 5.85 HL eq_refl eq_refl eq_refl) as (r & [->|[->| ->]] & ->);
    vm_compute; reflexivity.
Qed.

(** ** Adding a zero term *)

Lemma add_zero_product f :
  sf_finite (Prim2SF f) = true ->
  (0.035 * f + 0 * f)%float = (0.035 * f)%float.
Proof.
  intros Hf. apply Prim2SF_inj. rewrite add_spec, !mul_spec.
  change (Prim2SF 0) with (S754_zero false).
  change (Prim2SF 0.035) with (S754_finite false 5044031582654956 (-57)).
  destruct (Prim2SF f) as [s|s| |s m e]; try discriminate.
  - now destruct s.
  - pose proof (SF64mul_finite_sign (S754_finite false 5044031582654956 (-57)) (S754_finite s m e)
                  false s eq_refl ltac:(cbn; now destruct s) eq_refl eq_refl) as Hs.
    cbn [xorb] in Hs.
    change (SF64mul (S754_zero false) (S754_finite s m e)) with (S754_zero s).
    destruct (SF64mul (S754_finite false 5044031582654956 (-57)) (S754_finite s m e))
      as [s'|s'| |s' m' e']; try discriminate; cbn in Hs; apply eqb_prop in Hs; subst s';
      try reflexivity.
    now destruct s.
Qed.

Lemma to_double_finite w :
  py_finite w = true ->
  to_double w = Raise OverflowError \/
  exists f, to_double w = Ok f /\ sf_finite (Prim2SF f) = true.
Proof.
  destruct w as [z|f]; cbn [py_finite to_double].
  - intros _. destruct (PyLong_AsDouble_shape z) as [->|(f & -> & _ & _ & Hf & _)]; eauto.
  - rewrite is_finite_shape. eauto.
Qed.

(** ** Numbers that do not convert *)

Lemma to_double_cases x :
  (exists f, to_double x = Ok f) \/
  (to_double x = Raise OverflowError /\ exists z, x = PyInt z /\ 2 ^ 1023 <= Z.abs z).
Proof.
  destruct x as [z|f]; cbn [to_double]; [|eauto].
  destruct (Z_lt_le_dec (Z.abs z) (2 ^ 1023)) as [Hz|Hz].
  - left. now apply PyLong_AsDouble_range.
  - destruct (PyLong_AsDouble_shape z) as [E|(f & E & _)]; [right|left]; eauto.
Qed.

Lemma get_message_overflow m :
  Exists (fun x => to_double x = Raise OverflowError)
    [duration m; distance m; speed m; calories m] ->
  get_message m = Raise OverflowError.
Proof.
  intros H. unfold get_message, format_3f.
  destruct (to_double_total (duration m)) as [E1|[d E1]]; rewrite E1; [reflexivity|].
  destruct (to_double_total (distance m)) as [E2|[di E2]]; rewrite E2; [reflexivity|].
  destruct (to_double_total (speed m)) as [E3|[s E3]]; rewrite E3; [reflexivity|].
  destruct (to_double_total (calories m)) as [E4|[c E4]]; rewrite E4; [reflexivity|].
  exfalso. rewrite !Exists_cons, Exists_nil in H. intuition congruence.
Qed.

(** ** Three decimals *)

Lemma round_half_even_nearest p q :
  0 < q -> Z.abs (2 * (round_half_even p q * q - p)) <= q.
Proof.
  intros Hq. unfold round_half_even.
  pose proof (Z.div_mod p q ltac:(lia)) as Hdm.
  pose proof (Z.mod_pos_bound p q Hq) as Hr.
  destruct (Z.compare_spec (2 * (p mod q)) q) as [He|Hl|Hg]; [destruct (Z.even (p / q))|..]; nia.
Qed.

Lemma thousandths_nearest m e :
  (0 <= e -> thousandths m e = Zpos m * 2 ^ e * 1000) /\
  (e < 0 -> Z.abs (2 * (thousandths m e * 2 ^ (- e) - Zpos m * 1000)) <= 2 ^ (- e)).
Proof.
  unfold thousandths. split; intros He.
  - now replace (0 <=? e) with true by (symmetry; now apply Z.leb_le).
  - replace (0 <=? e) with false by (symmetry; apply Z.leb_gt; lia).
    apply round_half_even_nearest. apply Z.pow_pos_nonneg; lia.
Qed.

Lemma digit_is_digit k : 0 <= k <= 9 -> is_digit (digit k) = true.
Proof.
  intros H.
  assert (Hk : k = 0 \/ k = 1 \/ k = 2 \/ k = 3 \/ k = 4 \/ k = 5 \/ k = 6 \/ k = 7 \/
               k = 8 \/ k = 9) by lia.
  repeat (destruct Hk as [->|Hk]; [reflexivity|]). subst k. reflexivity.
Qed.

Lemma digits3_shape n :
  0 <= n < 1000 -> String.length (digits3 n) = 3%nat /\ all_digits (digits3 n) = true.
Proof.
  intros Hn. split; [reflexivity|]. unfold digits3. cbn [all_digits].
  rewrite !digit_is_digit; [reflexivity|..].
  - pose proof (Z.mod_pos_bound n 10 ltac:(lia)). lia.
  - pose proof (Z.mod_pos_bound (n / 10) 10 ltac:(lia)). lia.
  - split; [apply Z.div_pos; lia|]. apply Z.lt_succ_r. apply Z.div_lt_upper_bound; lia.
Qed.

Lemma string_of_uint_digits d : all_digits (NilEmpty.string_of_uint d) = true.
Proof. induction d; cbn [NilEmpty.string_of_uint all_digits]; auto. Qed.

Lemma decimal_shape n : decimal n <> "" /\ all_digits (decimal n) = true.
Proof.
  unfold decimal, NilZero.string_of_uint.
  destruct (N.to_uint (Z.to_N n)) as [|d|d|d|d|d|d|d|d|d|d] eqn:E; split; try discriminate;
    try reflexivity; rewrite <- ?E; try apply string_of_uint_digits.
  all: cbn [NilEmpty.string_of_uint all_digits]; apply string_of_uint_digits.
Qed.

Lemma float_format_3f_finite x :
  is_finite x = true -> three_decimals (float_format_3f x).
Proof.
  rewrite is_finite_shape. unfold float_format_3f.
  destruct (Prim2SF x) as [s|s| |s m e]; try discriminate; intros _.
  - exists (sign_str s), "0", "000". repeat apply conj; try reflexivity; try discriminate.
    destruct s; auto.
  - set (n := thousandths m e).
    exists (sign_str s), (decimal (n / 1000)), (digits3 (n mod 1000)).
    destruct (decimal_shape (n / 1000)) as [Hne Hd].
    destruct (digits3_shape (n mod 1000)) as [Hl Hf].
    { apply Z.mod_pos_bound. lia. }
    repeat apply conj; auto. destruct s; auto.
Qed.

Lemma inf_not_three_decimals : ~ three_decimals "inf".
Proof.
  intros (sign & whole & frac & E & [->| ->] & Hne & Hd & _).
  - destruct whole as [|a whole]; [congruence|]. cbn in E. injection E as <- _.
    discriminate Hd.
  - discriminate E.
Qed.

(** * The properties of the specification *)

(** ** C1: the running sample *)

(** C1, as worded, fails on its last figure: the calories that
    [get_spent_calories()] returns for the package ("RUN", [15000, 1, 75])
    are not within 30 of 665.1, whatever the C library. *)
Lemma run_sample_calories_far_from_665 :
  ~ (exists (L : Libm) c,
       on_package get_spent_calories "RUN" sample_running = Ok (PyFloat c) /\
       within 30 c 665.1 = true).
Proof.
  intros (L & c & Hc & Hw).
  assert (E : on_package get_spent_calories "RUN" sample_running = Ok (PyFloat 699.75))
    by (vm_compute; reflexivity).
  rewrite E in Hc. injection Hc as <-. vm_compute in Hw. discriminate.
Qed.

(** C1 (amended). For the workout built by read_package("RUN", [15000, 1, 75]):
    [get_distance()] returns 15000*0.65/1000, which is 9.75;
    [get_mean_speed()] returns 9.75; and [get_spent_calories()] returns
    (18*9.75-20)*75/1000*60, which is 699.75 and is printed as 699.750. *)
Theorem run_sample_statistics {L : Libm} :
  on_package get_distance "RUN" sample_running = (int 15000 * flt 0.65 / int 1000)%py /\
  on_package get_distance "RUN" sample_running = flt 9.75 /\
  on_package get_mean_speed "RUN" sample_running = flt 9.75 /\
  on_package get_spent_calories "RUN" sample_running
  = ((int 18 * flt 9.75 - int 20) * int 75 / int 1000 * int 60)%py /\
  on_package get_spent_calories "RUN" sample_running = flt 699.75 /\
  format_3f (PyFloat 699.75) = Ok "699.750".
Proof.
  unfold sample_running, ints. cbn [map].
  rewrite !on_package_RUN, running_distance, running_mean_speed, running_calories.
  repeat apply conj; vm_compute; reflexivity.
Qed.

(** ** C2: the walking formula *)

(** C2. For every walking workout (action, duration, weight, height) with
    duration > 0 and height > 0, and whatever the C library,
    [get_spent_calories()] is the formula
    (0.035 * weight + (mean_speed ** 2 // height) * 0.029 * weight)
    * (duration * 60) over the mean speed action * 0.65 / 1000 / duration
    that [get_mean_speed()] returns, with [//] the floor division; the call
    hands back a number unless a conversion of an int to a float or the
    square overflows. For the package [9000, 1, 75, 180] the result is
    (0.035*75 + (5.85**2 // 180)*0.029*75) * 60; with an accurate library
    this is 157.50000000000003, printed as 157.500. *)
Theorem walking_calories_formula {L : Libm} (a d w h : num) :
  py_gt0 d = true -> py_gt0 h = true ->
  on_package get_mean_speed "WLK" [a; d; w; h] = spec_mean_speed 0.65 a d /\
  on_package get_spent_calories "WLK" [a; d; w; h]
  = spec_walking_calories (on_package get_mean_speed "WLK" [a; d; w; h]) d w h /\
  or_overflow (fun _ => True) (on_package get_spent_calories "WLK" [a; d; w; h]) /\
  on_package get_spent_calories "WLK" sample_walking
  = ((flt 0.035 * int 75 + (sq (flt 5.85) // int 180) * flt 0.029 * int 75) * int 60)%py /\
  (accurate L ->
   on_package get_spent_calories "WLK" sample_walking = flt 157.50000000000003) /\
  format_3f (PyFloat 157.50000000000003) = Ok "157.500".
Proof.
  intros Hd Hh. unfold sample_walking, ints. cbn [map].
  rewrite !on_package_WLK, walking_mean_speed, !walking_calories.
  repeat apply conj.
  - reflexivity.
  - reflexivity.
  - unfold spec_walking_calories, spec_mean_speed, spec_distance; total.
  - unfold spec_walking_calories. now rewrite sample_walking_speed.
  - intros HL. now apply sample_walking_calories.
  - vm_compute. reflexivity.
Qed.

(** C2 at the sample package, with the correctly rounded library: the
    duration 1 and the height 180 are positive. *)
Lemma walking_calories_formula_witness :
  let L := correctly_rounded in
  on_package get_mean_speed "WLK" [PyInt 9000; PyInt 1; PyInt 75; PyInt 180]
  = spec_mean_speed 0.65 (PyInt 9000) (PyInt 1) /\
  on_package get_spent_calories "WLK" [PyInt 9000; PyInt 1; PyInt 75; PyInt 180]
  = spec_walking_calories
      (on_package get_mean_speed "WLK" [PyInt 9000; PyInt 1; PyInt 75; PyInt 180])
      (PyInt 1) (PyInt 75) (PyInt 180) /\
  on_package get_spent_calories "WLK" sample_walking = flt 157.50000000000003.
Proof.
  intros L.
  pose proof (walking_calories_formula (PyInt 9000) (PyInt 1) (PyInt 75) (PyInt 180)
                eq_refl eq_refl) as (Hspeed & Hcalories & _ & _ & Hvalue & _).
  exact (conj Hspeed (conj Hcalories (Hvalue correctly_rounded_accurate))).
Defined.

(** ** C3: the message *)

(** C3, as worded, fails: whatever the C library, the line printed for
    the running sample carries the Russian labels of the source, not the
    English ones; a workout of 5e-324 hours gets the speed and the calories
    [inf], rendered without any decimal; and a duration given as an int
    from 2**1024 on cannot be rendered at all. *)
Lemma message_is_not_the_english_template :
  (forall L : Libm,
     main (running (PyInt 15000) (PyInt 1) (PyInt 75))
     = Ok "Тип тренировки: Running; Длительность: 1.000 ч.; Дистанция: 9.750 км; Ср. скорость: 9.750 км/ч; Потрачено ккал: 699.750." /\
     main (running (PyInt 15000) (PyInt 1) (PyInt 75))
     <> Ok "Workout type: Running; Duration: 1.000 h; Distance: 9.750 km; Avg speed: 9.750 km/h; Calories: 699.750.") /\
  ((forall L : Libm,
      main (running (PyInt 1) (PyFloat 5e-324) (PyInt 75))
      = Ok "Тип тренировки: Running; Длительность: 0.000 ч.; Дистанция: 0.001 км; Ср. скорость: inf км/ч; Потрачено ккал: inf.") /\
   float_format_3f infinity = "inf" /\ ~ three_decimals "inf") /\
  get_message {| training_type := "Running"; duration := PyInt (2 ^ 1024);
                 distance := PyFloat 9.75; speed := PyFloat 9.75;
                 calories := PyFloat 699.75 |}
  = Raise OverflowError.
Proof.
  assert (E : forall L : Libm, main (running (PyInt 15000) (PyInt 1) (PyInt 75))
   = Ok "Тип тренировки: Running; Длительность: 1.000 ч.; Дистанция: 9.750 км; Ср. скорость: 9.750 км/ч; Потрачено ккал: 699.750.")
    by (intros L; vm_compute; reflexivity).
  split; [|split; [split; [|split]|]].
  - intros L. split; [apply E|]. rewrite E. discriminate.
  - intros L. vm_compute. reflexivity.
  - reflexivity.
  - exact inf_not_three_decimals.
  - vm_compute. reflexivity.
Qed.

(** C3 (amended). For every result summary (name, duration, distance,
    speed, calories): when its four numbers convert to floats,
    [get_message()] produces exactly the line of the source, with its
    Russian labels: the name, then the duration followed by the hours
    label, the distance followed by the kilometres label, the speed
    followed by the kilometres-per-hour label, and the calories, each
    number rendered by the [.3f] format; when one of them does not
    convert, it raises [OverflowError]. A number that does not convert is
    an int of at least 2**1023 in absolute value, and no int from 2**1024
    on converts. Every finite float is rendered with exactly three
    decimals, and the digits are those of the nearest multiple of 0.001
    (exact thousandths, or within half a thousandth); an infinity or a NaN
    is rendered as [inf], [-inf] or [nan]. *)
Theorem get_message_template (m : InfoMessage) :
  (forall d di s c : float,
     to_double (duration m) = Ok d ->
     to_double (distance m) = Ok di ->
     to_double (speed m) = Ok s ->
     to_double (calories m) = Ok c ->
     get_message m
     = Ok ("Тип тренировки: " +:+ training_type m
           +:+ "; Длительность: " +:+ float_format_3f d
           +:+ " ч.; Дистанция: " +:+ float_format_3f di
           +:+ " км; Ср. скорость: " +:+ float_format_3f s
           +:+ " км/ч; Потрачено ккал: " +:+ float_format_3f c +:+ ".")) /\
  (Exists (fun x => to_double x = Raise OverflowError)
     [duration m; distance m; speed m; calories m] ->
   get_message m = Raise OverflowError) /\
  (forall x, (exists f, to_double x = Ok f) \/
             (to_double x = Raise OverflowError /\
              exists z, x = PyInt z /\ 2 ^ 1023 <= Z.abs z)) /\
  (forall z, 2 ^ 1024 <= Z.abs z -> to_double (PyInt z) = Raise OverflowError) /\
  (forall x, is_finite x = true -> three_decimals (float_format_3f x)) /\
  (forall mx ex,
     (0 <= ex -> thousandths mx ex = Zpos mx * 2 ^ ex * 1000) /\
     (ex < 0 -> Z.abs (2 * (thousandths mx ex * 2 ^ (- ex) - Zpos mx * 1000)) <= 2 ^ (- ex))) /\
  float_format_3f infinity = "inf" /\
  float_format_3f neg_infinity = "-inf" /\
  float_format_3f nan = "nan".
Proof.
  repeat apply conj; try reflexivity.
  - intros d di s c Hd Hdi Hs Hc.
    unfold get_message, format_3f. rewrite Hd, Hdi, Hs, Hc. cbn [mbind result_bind].
    reflexivity.
  - apply get_message_overflow.
  - apply to_double_cases.
  - intros z Hz. now apply PyLong_AsDouble_range.
  - apply float_format_3f_finite.
  - apply thousandths_nearest.
Qed.

(** C3 (amended) at the summary of the running sample, and at the same
    summary with the duration 2**1024. *)
Lemma get_message_template_witness :
  get_message {| training_type := "Running"; duration := PyInt 1; distance := PyFloat 9.75;
                 speed := PyFloat 9.75; calories := PyFloat 699.75 |}
  = Ok "Тип тренировки: Running; Длительность: 1.000 ч.; Дистанция: 9.750 км; Ср. скорость: 9.750 км/ч; Потрачено ккал: 699.750." /\
  get_message {| training_type := "Running"; duration := PyInt (2 ^ 1024);
                 distance := PyFloat 9.75; speed := PyFloat 9.75; calories := PyFloat 699.75 |}
  = Raise OverflowError.
Proof.
  split.
  - exact (proj1 (get_message_template
                    {| training_type := "Running"; duration := PyInt 1; distance := PyFloat 9.75;
                       speed := PyFloat 9.75; calories := PyFloat 699.75 |})
                 1%float 9.75%float 9.75%float 699.75%float eq_refl eq_refl eq_refl eq_refl).
  - apply (proj1 (proj2 (get_message_template
                    {| training_type := "Running"; duration := PyInt (2 ^ 1024);
                       distance := PyFloat 9.75; speed := PyFloat 9.75;
                       calories := PyFloat 699.75 |}))).
    apply Exists_cons_hd. vm_compute. reflexivity.
Defined.

(** ** C4: the dispatcher *)

(** C4. [read_package(code, data)] raises the [ValueError] of the unknown
    workout type if and only if [code] is none of SWM, RUN and WLK; for
    SWM, RUN and WLK it calls the constructor of [Swimming], [Running] and
    [SportsWalking] on the elements of [data] in their order: a list of
    the right length gives the instance whose attributes are these
    elements, and a list of another length makes the constructor raise
    [TypeError]. *)
Theorem read_package_dispatch (code : string) (data : list num) :
  (read_package code data = Raise unknown_type <->
   code <> "SWM" /\ code <> "RUN" /\ code <> "WLK") /\
  read_package "SWM" data = new Swimming data /\
  read_package "RUN" data = new Running data /\
  read_package "WLK" data = new SportsWalking data /\
  (forall a d w l c, new Swimming [a; d; w; l; c] = Ok (swimming a d w l c)) /\
  (forall a d w, new Running [a; d; w] = Ok (running a d w)) /\
  (forall a d w h, new SportsWalking [a; d; w; h] = Ok (walking a d w h)) /\
  (forall c, if (length data =? arity c)%nat
             then exists training, new c data = Ok training /\ ob_class training = c
             else new c data = Raise TypeError).
Proof.
  split; [|repeat apply conj].
  - rewrite <- class_data_None. unfold read_package.
    destruct (class_data !! code) as [c|].
    + split; intros H; [|discriminate H].
      exfalso. exact (new_not_ValueError c data _ H).
    + split; reflexivity.
  - apply read_package_SWM.
  - apply read_package_RUN.
  - apply read_package_WLK.
  - apply new_Swimming.
  - apply new_Running.
  - apply new_SportsWalking.
  - intros c. destruct (Nat.eqb_spec (length data) (arity c)) as [E|E].
    + now apply new_total.
    + now apply new_arity.
Qed.

(** C4 at the codes XYZ, the empty string and the lower-case run: each is
    refused. *)
Lemma read_package_dispatch_witness :
  read_package "XYZ" [PyInt 1; PyInt 2; PyInt 3] = Raise unknown_type /\
  read_package "" [] = Raise unknown_type /\
  read_package "run" [PyInt 15000; PyInt 1; PyInt 75] = Raise unknown_type.
Proof.
  repeat apply conj.
  - apply (proj2 (proj1 (read_package_dispatch "XYZ" [PyInt 1; PyInt 2; PyInt 3]))).
    repeat apply conj; discriminate.
  - apply (proj2 (proj1 (read_package_dispatch "" []))).
    repeat apply conj; discriminate.
  - apply (proj2 (proj1 (read_package_dispatch "run" [PyInt 15000; PyInt 1; PyInt 75]))).
    repeat apply conj; discriminate.
Defined.

(** ** C5: the swimming formulas *)

(** C5. For every swimming workout (action, duration, weight, length_pool,
    count_pool) with duration > 0, [get_mean_speed()] is
    length_pool * count_pool / 1000 / duration and [get_spent_calories()]
    is (mean_speed + 1.1) * 2 * weight; both calls hand back a number
    unless a conversion of an int to a float overflows. For the package
    [720, 1, 80, 25, 40] the speed is 25*40/1000/1, which is 1.0, and the
    calories are (1.0+1.1)*2*80, which is 336.0. *)
Theorem swimming_formulas {L : Libm} (a d w l c : num) :
  py_gt0 d = true ->
  on_package get_mean_speed "SWM" [a; d; w; l; c] = spec_swimming_speed l c d /\
  on_package get_spent_calories "SWM" [a; d; w; l; c]
  = spec_swimming_calories (on_package get_mean_speed "SWM" [a; d; w; l; c]) w /\
  or_overflow (fun _ => True) (on_package get_mean_speed "SWM" [a; d; w; l; c]) /\
  or_overflow (fun _ => True) (on_package get_spent_calories "SWM" [a; d; w; l; c]) /\
  on_package get_mean_speed "SWM" sample_swimming = (int 25 * int 40 / int 1000 / int 1)%py /\
  on_package get_mean_speed "SWM" sample_swimming = flt 1 /\
  on_package get_spent_calories "SWM" sample_swimming = ((flt 1 + flt 1.1) * int 2 * int 80)%py /\
  on_package get_spent_calories "SWM" sample_swimming = flt 336.
Proof.
  intros Hd. unfold sample_swimming, ints. cbn [map].
  rewrite !on_package_SWM, !swimming_mean_speed, !swimming_calories.
  repeat apply conj;
    [reflexivity|reflexivity
    |unfold spec_swimming_speed; total
    |unfold spec_swimming_calories, spec_swimming_speed; total
    |vm_compute; reflexivity..].
Qed.

(** C5 at the sample package, with the correctly rounded library: the
    duration 1 is positive. *)
Lemma swimming_formulas_witness :
  let L := correctly_rounded in
  on_package get_mean_speed "SWM" [PyInt 720; PyInt 1; PyInt 80; PyInt 25; PyInt 40]
  = spec_swimming_speed (PyInt 25) (PyInt 40) (PyInt 1) /\
  on_package get_spent_calories "SWM" [PyInt 720; PyInt 1; PyInt 80; PyInt 25; PyInt 40]
  = spec_swimming_calories
      (on_package get_mean_speed "SWM" [PyInt 720; PyInt 1; PyInt 80; PyInt 25; PyInt 40])
      (PyInt 80).
Proof.
  intros L.
  pose proof (swimming_formulas (PyInt 720) (PyInt 1) (PyInt 80) (PyInt 25) (PyInt 40) eq_refl)
    as (Hspeed & Hcalories & _).
  exact (conj Hspeed Hcalories).
Defined.

(** ** C6: the step lengths *)

(** C6. [LEN_STEP] is 0.65 for [Running] and [SportsWalking] and is
    overridden to 1.38 in [Swimming]; so [get_distance()] is
    action * 0.65 / 1000 for every running and every walking workout and
    action * 1.38 / 1000 for every swimming workout. *)
Theorem distance_by_step_length (a d w h l c : num) :
  lookup_mro (mro Running) "LEN_STEP" = Some (PyFloat 0.65) /\
  lookup_mro (mro SportsWalking) "LEN_STEP" = Some (PyFloat 0.65) /\
  lookup_mro (mro Swimming) "LEN_STEP" = Some (PyFloat 1.38) /\
  on_package get_distance "RUN" [a; d; w] = spec_distance 0.65 a /\
  on_package get_distance "WLK" [a; d; w; h] = spec_distance 0.65 a /\
  on_package get_distance "SWM" [a; d; w; l; c] = spec_distance 1.38 a.
Proof.
  repeat apply conj.
  - vm_compute. reflexivity.
  - vm_compute. reflexivity.
  - vm_compute. reflexivity.
  - rewrite on_package_RUN. apply running_distance.
  - rewrite on_package_WLK. apply walking_distance.
  - rewrite on_package_SWM. apply swimming_distance.
Qed.

(** ** C7: distance and speed are not negative *)




(** ** C8: the methods only read *)

(** C8. Whatever the workout and whatever the sequence of calls to
    [get_distance()], [get_mean_speed()], [get_spent_calories()] and
    [show_training_info()], the instance after the calls is the instance
    before them, so every attribute reads the same, and each call hands
    back what it hands back on the fresh instance, so repeated calls give
    equal results. *)
Theorem methods_are_pure {L : Libm} (self : object) (cs : list call) :
  snd (perform_all cs self) = self /\
  (forall name, attr name (snd (perform_all cs self)) = attr name self) /\
  fst (perform_all cs self) = map (fun c => fst (perform c self)) cs.
Proof.
  assert (H : snd (perform_all cs self) = self /\
              fst (perform_all cs self) = map (fun c => fst (perform c self)) cs).
  { induction cs as [|c cs [IHs IHr]]; [split; reflexivity|].
    cbn [perform_all map].
    pose proof (perform_readonly c self) as Hc.
    destruct (perform c self) as [o self'] eqn:Ep. cbn [snd fst] in *. subst self'.
    destruct (perform_all cs self) as [os self''] eqn:Ea. cbn [snd fst] in *.
    split; [exact IHs|]. now rewrite IHr. }
  destruct H as [Hs Hr]. repeat apply conj; [exact Hs| |exact Hr].
  intros name. now rewrite Hs.
Qed.

(** ** C9: walking at low speed *)

(** C9, as worded, fails, with every accurate C library.
    - The product: for the walking workout [9000, 3, 75, 180] the squared
      speed is below the height 180, the method returns
      472.50000000000006, and 0.035 * 75 * 3 * 60 is 472.5000000000001.
    - The weight: with the weight [inf] the method returns NaN (the term
      0.0 * 0.029 * inf) where the product is [inf].
    - The height, converted: for [1000, 0.65/2**27, 75, 2**54 + 1] the
      speed is 2**27 and, with a library that squares it exactly, the
      square 2**54 is strictly below the int height 2**54 + 1; the height
      is converted to the float 2**54 before the floor division, the term
      is 1.0, and the method returns 1.3947486877441408e-06 where the
      product is 7.62753188610077e-07 (the correctly rounded library is
      such a library).
    - The height, too large: with the int height 2**1024 the squared speed
      is below the height and the method raises [OverflowError].
    - The square, as computed: for [3613, 1, 75, 5.515217402500001] the
      speed is 2.34845 and the rounded product 2.34845 * 2.34845 is below
      the height; a library whose [pow(2.34845, 2.0)] is the next double
      up, as glibc's is, makes the square equal to the height: the term is
      1.0 and the method returns 288.00000000000006 where the product is
      157.50000000000003 (the accurate library [rounded_up_at 2.34845] is
      such a library). *)
Lemma walking_low_speed_not_left_to_right :
  ((forall L : Libm, accurate L ->
      (exists s2, sq (on_package get_mean_speed "WLK" (ints [9000; 3; 75; 180])) = flt s2 /\
                  float_lt s2 (PyInt 180) = true) /\
      on_package get_spent_calories "WLK" (ints [9000; 3; 75; 180])
      = flt 472.50000000000006) /\
   (flt 0.035 * int 75 * int 3 * int 60)%py = flt 472.50000000000011 /\
   (472.50000000000006 =? 472.50000000000011)%float = false) /\
  ((forall L : Libm, accurate L ->
      (exists s2, sq (on_package get_mean_speed "WLK"
                        [PyInt 9000; PyInt 1; PyFloat infinity; PyInt 180]) = flt s2 /\
                  float_lt s2 (PyInt 180) = true) /\
      on_package get_spent_calories "WLK" [PyInt 9000; PyInt 1; PyFloat infinity; PyInt 180]
      = flt nan) /\
   (flt 0.035 * flt infinity * (int 1 * int 60))%py = flt infinity) /\
  ((forall L : Libm, pow_2 134217728 = 18014398509481984%float ->
      sq (on_package get_mean_speed "WLK"
            [PyInt 1000; PyFloat 4.8428773880004884e-09; PyInt 75; PyInt (2 ^ 54 + 1)])
      = flt 18014398509481984 /\
      (sq (on_package get_mean_speed "WLK"
             [PyInt 1000; PyFloat 4.8428773880004884e-09; PyInt 75; PyInt (2 ^ 54 + 1)])
       // int (2 ^ 54 + 1))%py = flt 1 /\
      on_package get_spent_calories "WLK"
        [PyInt 1000; PyFloat 4.8428773880004884e-09; PyInt 75; PyInt (2 ^ 54 + 1)]
      = flt 1.3947486877441408e-06) /\
   (accurate correctly_rounded /\
    pow_2 (Libm := correctly_rounded) 134217728 = 18014398509481984%float) /\
   float_lt 18014398509481984 (PyInt (2 ^ 54 + 1)) = true /\
   to_double (PyInt (2 ^ 54 + 1)) = Ok 18014398509481984%float /\
   (flt 0.035 * int 75 * flt 4.8428773880004884e-09 * int 60)%py
   = flt 7.6275318861007701e-07) /\
  (forall L : Libm, accurate L ->
     (exists s2, sq (on_package get_mean_speed "WLK"
                       [PyInt 9000; PyInt 1; PyInt 75; PyInt (2 ^ 1024)]) = flt s2 /\
                 float_lt s2 (PyInt (2 ^ 1024)) = true) /\
     on_package get_spent_calories "WLK" [PyInt 9000; PyInt 1; PyInt 75; PyInt (2 ^ 1024)]
     = Raise OverflowError) /\
  ((forall L : Libm, pow_2 2.34845 = 5.515217402500001%float ->
      on_package get_mean_speed "WLK"
        [PyInt 3613; PyInt 1; PyInt 75; PyFloat 5.515217402500001] = flt 2.34845 /\
      sq (flt 2.34845) = flt 5.515217402500001 /\
      (sq (flt 2.34845) // flt 5.515217402500001)%py = flt 1 /\
      on_package get_spent_calories "WLK"
        [PyInt 3613; PyInt 1; PyInt 75; PyFloat 5.515217402500001]
      = flt 288.00000000000006) /\
   (accurate (rounded_up_at 2.34845) /\
    pow_2 (Libm := rounded_up_at 2.34845) 2.34845 = 5.515217402500001%float) /\
   float_lt (2.34845 * 2.34845) (PyFloat 5.515217402500001) = true /\
   (flt 0.035 * int 75 * int 1 * int 60)%py = flt 157.50000000000003).
Proof.
  unfold ints. cbn [map].
  split; [split; [|split]
         |split; [split
                 |split; [split; [|split; [split|split; [|split]]]
                         |split; [|split; [|split; [split|split]]]]]].
  - intros L HL. rewrite !on_package_WLK, walking_mean_speed, walking_calories.
    unfold spec_walking_calories.
    replace (spec_mean_speed 0.65 (PyInt 9000) (PyInt 3)) with (flt 1.95)
      by (vm_compute; reflexivity).
    destruct (sq_near 1.95 HL eq_refl eq_refl eq_refl) as (r & [->|[->| ->]] & ->);
      (split; [eexists; split; [vm_compute; reflexivity|vm_compute; reflexivity]
             |vm_compute; reflexivity]).
  - vm_compute. reflexivity.
  - reflexivity.
  - intros L HL. rewrite !on_package_WLK, walking_mean_speed, walking_calories.
    unfold spec_walking_calories. rewrite sample_walking_speed.
    destruct (sq_near 5.85 HL eq_refl eq_refl eq_refl) as (r & [->|[->| ->]] & ->);
      (split; [eexists; split; [vm_compute; reflexivity|vm_compute; reflexivity]
             |vm_compute; reflexivity]).
  - vm_compute. reflexivity.
  - intros L HL. rewrite !on_package_WLK, walking_mean_speed, walking_calories.
    unfold spec_walking_calories.
    replace (spec_mean_speed 0.65 (PyInt 1000) (PyFloat 4.8428773880004884e-09))
      with (flt 134217728) by (vm_compute; reflexivity).
    assert (E : sq (flt 134217728) = flt 18014398509481984).
    { change (sq (flt 134217728))
        with (if is_infinity (pow_2 134217728) then Raise OverflowError
              else Ok (PyFloat (pow_2 134217728))).
      rewrite HL. reflexivity. }
    rewrite E. repeat apply conj; vm_compute; reflexivity.
  - exact correctly_rounded_accurate.
  - vm_compute. reflexivity.
  - vm_compute. reflexivity.
  - vm_compute. reflexivity.
  - vm_compute. reflexivity.
  - intros L HL. rewrite !on_package_WLK, walking_mean_speed, walking_calories.
    unfold spec_walking_calories. rewrite sample_walking_speed.
    destruct (sq_near 5.85 HL eq_refl eq_refl eq_refl) as (r & [->|[->| ->]] & ->);
      (split; [eexists; split; [vm_compute; reflexivity|vm_compute; reflexivity]
             |vm_compute; reflexivity]).
  - intros L HL. rewrite !on_package_WLK, walking_mean_speed, walking_calories.
    unfold spec_walking_calories.
    replace (spec_mean_speed 0.65 (PyInt 3613) (PyInt 1)) with (flt 2.34845)
      by (vm_compute; reflexivity).
    assert (E : sq (flt 2.34845) = flt 5.515217402500001).
    { change (sq (flt 2.34845))
        with (if is_infinity (pow_2 2.34845) then Raise OverflowError
              else Ok (PyFloat (pow_2 2.34845))).
      rewrite HL. reflexivity. }
    rewrite E. repeat apply conj; vm_compute; reflexivity.
  - apply rounded_up_at_accurate; reflexivity.
  - vm_compute. reflexivity.
  - vm_compute. reflexivity.
  - vm_compute. reflexivity.
Qed.

(** C9 (amended). For every walking workout with a finite weight whose
    height converts to a float and whose mean speed squared, as the method
    computes it with an accurate C library, is strictly less than the
    converted height, the floor-division term is 0.0 and
    [get_spent_calories()] is exactly (0.035 * weight) * (duration * 60),
    the product grouped as the source groups it, whatever the step count.
    The package [9000, 1, 75, 180] is in this regime: its squared speed is
    below 180 and its calories are (0.035 * 75) * (1 * 60). *)
Theorem walking_low_speed_calories {L : Libm} (a d w h : num) (s2 hf : float) :
  accurate L ->
  py_finite w = true ->
  sq (on_package get_mean_speed "WLK" [a; d; w; h]) = Ok (PyFloat s2) ->
  to_double h = Ok hf ->
  (s2 <? hf)%float = true ->
  (sq (on_package get_mean_speed "WLK" [a; d; w; h]) // Ok h)%py = flt 0 /\
  on_package get_spent_calories "WLK" [a; d; w; h]
  = (flt 0.035 * Ok w * (Ok d * int 60))%py /\
  (exists s, sq (on_package get_mean_speed "WLK" sample_walking) = flt s /\
             (s <? 180)%float = true) /\
  on_package get_spent_calories "WLK" sample_walking
  = (flt 0.035 * int 75 * (int 1 * int 60))%py.
Proof.
  intros HL Hw Hsq Hh Hlt.
  (* the sample *)
  assert (Hsample :
    (exists s, sq (on_package get_mean_speed "WLK" sample_walking) = flt s /\
               (s <? 180)%float = true) /\
    on_package get_spent_calories "WLK" sample_walking
    = (flt 0.035 * int 75 * (int 1 * int 60))%py).
  { unfold sample_walking, ints. cbn [map].
    rewrite !on_package_WLK, walking_mean_speed, walking_calories.
    rewrite (sample_walking_calories HL), sample_walking_speed.
    split; [|vm_compute; reflexivity].
    destruct (sq_near 5.85 HL eq_refl eq_refl eq_refl) as (r & [->|[->| ->]] & ->);
      eexists; (split; [vm_compute; reflexivity|vm_compute; reflexivity]). }
  (* the square is a non-negative double *)
  assert (Hs2 : has_sign false (Prim2SF s2) = true).
  { unfold sq in Hsq. destruct (on_package get_mean_speed "WLK" [a; d; w; h]) as [[z|x]|e];
      try discriminate. now apply (py_sq_nonneg x s2 hf). }
  (* the term of the floor division *)
  assert (Hterm : (Ok (PyFloat s2) // Ok h)%py = flt 0).
  { unfold binop. cbn [mbind result_bind]. unfold py_floordiv.
    assert (Hfloat : (x ← to_double (PyFloat s2); y ← to_double h;
                      if (y =? 0)%float then Raise ZeroDivisionError
                      else Ok (PyFloat (float_floor_div x y))) = flt 0).
    { cbn [to_double mbind result_bind]. rewrite Hh. cbn [mbind result_bind].
      pose proof Hlt as Hlt'. rewrite FloatAxioms.ltb_spec in Hlt'.
      destruct (SFltb_nonneg_shape _ _ Hs2 Hlt') as (_ & _ & [Hp|Hi]).
      - rewrite (eqb_0_proper hf Hp). now rewrite float_floor_div_small.
      - rewrite (eqb_0_infinity hf false Hi). now rewrite float_floor_div_small. }
    destruct h; exact Hfloat. }
  rewrite Hsq. split; [exact Hterm|]. split; [|exact Hsample].
  rewrite on_package_WLK, walking_calories. unfold spec_walking_calories.
  rewrite on_package_WLK in Hsq. rewrite walking_mean_speed in Hsq. rewrite Hsq, Hterm.
  (* the products with the weight *)
  assert (Hprod : forall f, to_double w = Ok f ->
            (flt 0.035 * Ok w)%py = flt (0.035 * f) /\
            (flt 0 * flt 0.029 * Ok w)%py = flt (0 * f)).
  { intros f Hf. destruct w as [z|g]; cbn [to_double] in Hf.
    - unfold binop, flt, py_mul. cbn [mbind result_bind to_double]. rewrite Hf. split; reflexivity.
    - injection Hf as ->. split; reflexivity. }
  destruct (to_double_finite w Hw) as [Ew|(f & Ew & Hf)].
  - (* the weight does not fit a float: both sides raise *)
    assert (Hov : (flt 0.035 * Ok w)%py = Raise OverflowError).
    { destruct w as [z|g]; cbn [to_double] in Ew; [|discriminate].
      unfold binop, flt, py_mul. cbn [mbind result_bind to_double]. now rewrite Ew. }
    rewrite Hov. reflexivity.
  - destruct (Hprod f Ew) as [-> ->].
    assert (Hadd : (flt (0.035 * f) + flt (0 * f))%py = flt (0.035 * f)).
    { unfold binop, flt, py_add. cbn [mbind result_bind to_double].
      now rewrite add_zero_product. }
    now rewrite Hadd.
Qed.

(** C9 (amended) at the sample package [9000, 1, 75, 180] with the
    correctly rounded library, where the squared speed is 34.2225. *)
Lemma walking_low_speed_calories_witness :
  let L := correctly_rounded in
  (sq (on_package get_mean_speed "WLK" sample_walking) // int 180)%py = flt 0 /\
  on_package get_spent_calories "WLK" sample_walking
  = (flt 0.035 * int 75 * (int 1 * int 60))%py.
Proof.
  intros L.
  exact (let H := walking_low_speed_calories (PyInt 9000) (PyInt 1) (PyInt 75) (PyInt 180)
                    34.222499999999997 180 correctly_rounded_accurate
                    eq_refl eq_refl eq_refl eq_refl in
         conj (proj1 H) (proj1 (proj2 H))).
Defined.

(** ** C10: running below 10/9 km/h *)




(** * Further properties of the module *)

(** ** The constructors *)

Lemma class_data_variant code c :
  class_data !! code = Some c -> variant code = Some (class_name c).
Proof. unfold variant. now intros ->. Qed.

Lemma read_package_class code data training :
  read_package code data = Ok training ->
  class_data !! code = Some (ob_class training) /\ length data = arity (ob_class training).
Proof.
  unfold read_package. destruct (class_data !! code) as [c|] eqn:Ec; [|discriminate].
  intros H. destruct (new_Ok c data training H) as [Hl <-]. auto.
Qed.

(** X1. A workout that [read_package] builds is an instance of the class
    the table gives for the code; its attributes are exactly those the
    constructor assigns, one per element of [data] and in the order of
    the constructor's parameters (the duration under the name
    [duration_km]); no other instance attribute is set, and reading
    [duration] raises [AttributeError]. *)
Theorem constructor_stores_arguments (code : string) (data : list num) (training : object) :
  read_package code data = Ok training ->
  class_data !! code = Some (ob_class training) /\
  length data = length (fields (ob_class training)) /\
  (forall (i : nat) name v,
     fields (ob_class training) !! i = Some name -> data !! i = Some v ->
     attr name training = Ok v) /\
  (forall name, name ∉ fields (ob_class training) -> ob_dict training !! name = None) /\
  attr "duration" training = Raise (AttributeError "duration").
Proof.
  intros Hr. split; [exact (proj1 (read_package_class _ _ _ Hr))|].
  destruct (read_package_Ok code data training Hr)
    as [(a & d & w & -> & -> & ->)|[(a & d & w & h & -> & -> & ->)|
        (a & d & w & l & c & -> & -> & ->)]];
    (repeat apply conj; [reflexivity| | |vm_compute; reflexivity]).
  - intros [|[|[|i]]] name v Hn Hv; cbn in Hn, Hv; try discriminate;
      injection Hn as <-; injection Hv as <-; vm_compute; reflexivity.
  - intros name Hn. cbn in Hn. rewrite !not_elem_of_cons in Hn.
    destruct Hn as (H1 & H2 & H3 & _). unfold running, instance. cbn [ob_dict].
    rewrite !lookup_insert_ne by congruence. now apply lookup_singleton_ne.
  - intros [|[|[|[|i]]]] name v Hn Hv; cbn in Hn, Hv; try discriminate;
      injection Hn as <-; injection Hv as <-; vm_compute; reflexivity.
  - intros name Hn. cbn in Hn. rewrite !not_elem_of_cons in Hn.
    destruct Hn as (H1 & H2 & H3 & H4 & _). unfold walking, instance. cbn [ob_dict].
    rewrite !lookup_insert_ne by congruence. now apply lookup_singleton_ne.
  - intros [|[|[|[|[|i]]]]] name v Hn Hv; cbn in Hn, Hv; try discriminate;
      injection Hn as <-; injection Hv as <-; vm_compute; reflexivity.
  - intros name Hn. cbn in Hn. rewrite !not_elem_of_cons in Hn.
    destruct Hn as (H1 & H2 & H3 & H4 & H5 & _). unfold swimming, instance. cbn [ob_dict].
    rewrite !lookup_insert_ne by congruence. now apply lookup_singleton_ne.
Qed.

(** X1 at the walking sample: the height 180 is read back from [height]. *)
Lemma constructor_stores_arguments_witness :
  attr "height" (walking (PyInt 9000) (PyInt 1) (PyInt 75) (PyInt 180)) = Ok (PyInt 180).
Proof.
  destruct (constructor_stores_arguments "WLK" sample_walking
              (walking (PyInt 9000) (PyInt 1) (PyInt 75) (PyInt 180)) eq_refl)
    as (_ & _ & H & _).
  exact (H 3%nat "height" (PyInt 180) eq_refl eq_refl).
Defined.

(** X2. [Running.__init__] repeats the three assignments of the base
    initialiser: on every instance and every argument list it has the
    result and leaves the attributes that [Training.__init__] alone
    does. *)
Theorem Running_init_repeats_base (args : list num) (self : object) :
  Running_init args self = Training_init args self.
Proof.
  destruct args as [|a [|d [|w [|x args]]]]; try reflexivity.
  unfold Running_init, Training_init, setattr, mbind, M_bind. cbn.
  do 2 f_equal. apply map_eq. intros k.
  destruct (decide (k = "weight")) as [->|Hw]; [now rewrite !lookup_insert_eq|].
  rewrite !(lookup_insert_ne _ "weight") by congruence.
  destruct (decide (k = "duration_km")) as [->|Hd]; [now rewrite !lookup_insert_eq|].
  rewrite !(lookup_insert_ne _ "duration_km") by congruence.
  destruct (decide (k = "action")) as [->|Ha]; [now rewrite !lookup_insert_eq|].
  rewrite !(lookup_insert_ne _ "action") by congruence.
  rewrite !(lookup_insert_ne _ "weight") by congruence.
  rewrite !(lookup_insert_ne _ "duration_km") by congruence.
  now rewrite !(lookup_insert_ne _ "action") by congruence.
Qed.

(** ** The report *)

Lemma show_training_info_eval {L : Libm} self :
  eval show_training_info self =
  (d ← attr "duration_km" self;
   di ← eval get_distance self;
   s ← eval get_mean_speed self;
   c ← eval get_spent_calories self;
   Ok {| training_type := class_name (ob_class self); duration := d;
         distance := di; speed := s; calories := c |}).
Proof.
  unfold show_training_info, attr.
  rewrite eval_bind by eauto with readonly. cbn [eval self_class_name fst mbind result_bind].
  rewrite eval_bind by eauto with readonly.
  destruct (eval (getattr "duration_km") self) as [d|e]; [|reflexivity].
  cbn [mbind result_bind]. rewrite eval_bind by eauto with readonly.
  destruct (eval get_distance self) as [di|e]; [|reflexivity].
  cbn [mbind result_bind]. rewrite eval_bind by eauto with readonly.
  destruct (eval get_mean_speed self) as [s|e]; [|reflexivity].
  cbn [mbind result_bind]. rewrite eval_bind by eauto with readonly.
  destruct (eval get_spent_calories self) as [c|e]; reflexivity.
Qed.

Lemma read_package_duration code data training :
  read_package code data = Ok training ->
  exists d, data !! 1%nat = Some d /\ attr "duration_km" training = Ok d.
Proof.
  intros Hr.
  destruct (read_package_Ok code data training Hr)
    as [(a & d & w & -> & -> & ->)|[(a & d & w & h & -> & -> & ->)|
        (a & d & w & l & c & -> & -> & ->)]];
    exists d; split; try reflexivity; vm_compute; reflexivity.
Qed.

(** X3. For a workout that [read_package] builds, [show_training_info()]
    returns a message exactly when [get_distance()], [get_mean_speed()]
    and [get_spent_calories()] all return; the message then carries the
    name of the class, the duration as it was given (second element of
    the data, not converted) and the three values returned. Otherwise it
    raises what the first failing call raises, distance first, then
    speed, then calories. *)
Theorem show_training_info_report {L : Libm} (code : string) (data : list num) (training : object) :
  read_package code data = Ok training ->
  (forall info,
     eval show_training_info training = Ok info <->
     variant code = Some (training_type info) /\
     data !! 1%nat = Some (duration info) /\
     eval get_distance training = Ok (distance info) /\
     eval get_mean_speed training = Ok (speed info) /\
     eval get_spent_calories training = Ok (calories info)) /\
  (forall e,
     eval show_training_info training = Raise e <->
     eval get_distance training = Raise e \/
     (exists di, eval get_distance training = Ok di /\
                 eval get_mean_speed training = Raise e) \/
     (exists di s, eval get_distance training = Ok di /\
                   eval get_mean_speed training = Ok s /\
                   eval get_spent_calories training = Raise e)).
Proof.
  intros Hr.
  destruct (read_package_duration code data training Hr) as (d & Hd & Ha).
  destruct (read_package_class code data training Hr) as [Hc _].
  apply class_data_variant in Hc.
  rewrite show_training_info_eval, Ha, Hd, Hc. cbn [mbind result_bind].
  destruct (eval get_distance training) as [di|e1];
    [destruct (eval get_mean_speed training) as [s|e2];
     [destruct (eval get_spent_calories training) as [c|e3]|]|];
    cbn [mbind result_bind]; split.
  - intros [t d' di' s' c']; cbn. split.
    + intros H. injection H as <- <- <- <- <-. auto.
    + intros (H1 & H2 & H3 & H4 & H5). congruence.
  - intros e. split; [discriminate|].
    intros [H|[(? & _ & H)|(? & ? & _ & _ & H)]]; discriminate.
  - intros info. split; [discriminate|]. intros (_ & _ & _ & _ & H). discriminate.
  - intros e. split.
    + intros H. injection H as <-. right; right; eauto.
    + intros [H|[(? & _ & H)|(? & ? & _ & _ & H)]]; try discriminate. congruence.
  - intros info. split; [discriminate|]. intros (_ & _ & _ & H & _). discriminate.
  - intros e. split.
    + intros H. injection H as <-. right; left; eauto.
    + intros [H|[(? & _ & H)|(? & ? & _ & H & _)]]; try discriminate. congruence.
  - intros info. split; [discriminate|]. intros (_ & _ & H & _). discriminate.
  - intros e. split.
    + intros H. injection H as <-. now left.
    + intros [H|[(? & H & _)|(? & ? & H & _)]]; try discriminate. congruence.
Qed.

(** X3 at the running sample, with the correctly rounded library. *)
Lemma show_training_info_report_witness :
  let L := correctly_rounded in
  eval show_training_info (running (PyInt 15000) (PyInt 1) (PyInt 75))
  = Ok {| training_type := "Running"; duration := PyInt 1; distance := PyFloat 9.75;
          speed := PyFloat 9.75; calories := PyFloat 699.75 |}.
Proof.
  intros L.
  apply (proj1 (show_training_info_report "RUN" sample_running
                  (running (PyInt 15000) (PyInt 1) (PyInt 75)) eq_refl)).
  repeat apply conj; vm_compute; reflexivity.
Defined.

(** ** The base class *)

(** X4. On an instance of the base class [Training], whatever its
    attributes, [get_spent_calories()] raises [NotImplementedError], and
    neither [show_training_info()] nor [main] returns: when distance and
    speed can be computed they raise [NotImplementedError] too. The
    dispatcher never builds such an instance. *)
Theorem base_class_is_abstract {L : Libm} (self : object) :
  ob_class self = Training ->
  eval get_spent_calories self = Raise NotImplementedError /\
  (forall info, eval show_training_info self <> Ok info) /\
  (forall line, main self <> Ok line) /\
  (forall d di s,
     attr "duration_km" self = Ok d -> eval get_distance self = Ok di ->
     eval get_mean_speed self = Ok s ->
     eval show_training_info self = Raise NotImplementedError /\
     main self = Raise NotImplementedError) /\
  (forall code data, read_package code data <> Ok self).
Proof.
  intros Hc.
  assert (Hcal : eval get_spent_calories self = Raise NotImplementedError).
  { unfold get_spent_calories. rewrite eval_dispatch, Hc. reflexivity. }
  assert (Hinfo : forall info, eval show_training_info self <> Ok info).
  { intros info. rewrite show_training_info_eval, Hcal.
    destruct (attr "duration_km" self); [|discriminate].
    destruct (eval get_distance self); [|discriminate].
    destruct (eval get_mean_speed self); discriminate. }
  repeat apply conj; auto.
  - intros line. unfold main.
    destruct (eval show_training_info self) as [info|e] eqn:E; [|discriminate].
    now destruct (Hinfo info).
  - intros d di s Hd Hdi Hs.
    assert (E : eval show_training_info self = Raise NotImplementedError)
      by now rewrite show_training_info_eval, Hd, Hdi, Hs, Hcal.
    split; [exact E|]. unfold main. now rewrite E.
  - intros code data Hr.
    destruct (read_package_Ok code data self Hr)
      as [(a & d & w & _ & _ & ->)|[(a & d & w & h & _ & _ & ->)|
          (a & d & w & l & c & _ & _ & ->)]]; discriminate Hc.
Qed.

(** X4 at the base instance with the attributes of the running sample,
    with the correctly rounded library. *)
Lemma base_class_is_abstract_witness :
  let L := correctly_rounded in
  main (instance Training
          {[ "action" := PyInt 15000; "duration_km" := PyInt 1; "weight" := PyInt 75 ]})
  = Raise NotImplementedError.
Proof.
  intros L.
  destruct (base_class_is_abstract
              (instance Training
                 {[ "action" := PyInt 15000; "duration_km" := PyInt 1; "weight" := PyInt 75 ]})
              eq_refl) as (_ & _ & _ & H & _).
  apply (H (PyInt 1) (PyFloat 9.75) (PyFloat 9.75)); vm_compute; reflexivity.
Defined.


(** ** What the operators can raise *)

Lemma returns_or_fails_weaken (P Q : num -> Prop) (Z Z' : Prop) r :
  (forall v, P v -> Q v) -> (Z -> Z') ->
  returns_or_fails P Z r -> returns_or_fails Q Z' r.
Proof. intros HP HZ. destruct r as [v|[]]; cbn; auto. Qed.

Lemma binop_returns_or_fails (P Q R : num -> Prop) (Z : Prop) op x y :
  returns_or_fails P Z x -> returns_or_fails Q Z y ->
  (forall a b, P a -> Q b -> returns_or_fails R Z (op a b)) ->
  returns_or_fails R Z (binop op x y).
Proof.
  intros Hx Hy H. unfold binop.
  destruct x as [a|e]; [|exact Hx]. destruct y as [b|e]; [|exact Hy].
  now apply H.
Qed.

Lemma to_double_eq0 x f : to_double x = Ok f -> (f =? 0)%float = py_eq0 x.
Proof.
  destruct x as [z|g]; cbn [to_double py_eq0]; [|now intros [= ->]].
  intros E. destruct (Z.eqb_spec z 0) as [->|Hz].
  - vm_compute in E. now injection E as <-.
  - destruct (PyLong_AsDouble_shape z) as [E'|(g & E' & _ & _ & _ & Hp)]; [congruence|].
    rewrite E' in E. injection E as <-. now apply eqb_0_proper, Hp.
Qed.

(** The float path of a binary operator. *)
Lemma float_path_returns_or_fails (Z : Prop) (g : float -> float -> result num) a b :
  (forall x y, to_double b = Ok y -> returns_or_fails is_float Z (g x y)) ->
  returns_or_fails is_float Z (x ← to_double a; y ← to_double b; g x y).
Proof.
  intros Hg.
  destruct (to_double_total a) as [->|[fa ->]]; [exact I|]. cbn [mbind result_bind].
  destruct (to_double_total b) as [Eb|[fb Eb]]; rewrite Eb; [exact I|].
  cbn [mbind result_bind]. now apply Hg.
Qed.

Lemma py_mul_float x y :
  is_float x \/ is_float y -> returns_or_fails is_float False (py_mul x y).
Proof.
  intros H. unfold py_mul.
  destruct x, y; try (apply float_path_returns_or_fails; intros; exact I).
  now destruct H.
Qed.

Lemma py_add_float x y :
  is_float x \/ is_float y -> returns_or_fails is_float False (py_add x y).
Proof.
  intros H. unfold py_add.
  destruct x, y; try (apply float_path_returns_or_fails; intros; exact I).
  now destruct H.
Qed.

Lemma py_sub_float x y :
  is_float x \/ is_float y -> returns_or_fails is_float False (py_sub x y).
Proof.
  intros H. unfold py_sub.
  destruct x, y; try (apply float_path_returns_or_fails; intros; exact I).
  now destruct H.
Qed.

Lemma py_sq_float {L : Libm} x : is_float x -> returns_or_fails is_float False (py_sq x).
Proof.
  destruct x as [z|f]; [intros []|intros _]. unfold py_sq.
  destruct (is_nan f); [exact I|]. destruct (is_infinity f); [exact I|].
  destruct (f =? 0)%float; [exact I|]. cbv zeta.
  destruct (_ =? 1)%float; [exact I|]. destruct (is_infinity _); exact I.
Qed.

Lemma py_truediv_float x y :
  returns_or_fails is_float (py_eq0 y = true) (py_truediv x y).
Proof.
  unfold py_truediv.
  assert (Hfloat : returns_or_fails is_float (py_eq0 y = true)
            (a ← to_double x; b ← to_double y;
             if (b =? 0)%float then Raise ZeroDivisionError else Ok (PyFloat (a / b)%float))).
  { apply float_path_returns_or_fails. intros a b Hb. rewrite (to_double_eq0 y b Hb).
    destruct (py_eq0 y); [reflexivity|exact I]. }
  destruct x as [a|a], y as [b|b]; try exact Hfloat.
  unfold long_true_divide. cbn [py_eq0]. destruct (b =? 0); [reflexivity|].
  destruct (SF64div (SF_raw a) (SF_raw b)); exact I.
Qed.

Lemma py_floordiv_float x y :
  is_float x -> returns_or_fails is_float (py_eq0 y = true) (py_floordiv x y).
Proof.
  destruct x as [z|f]; [intros []|intros _]. unfold py_floordiv.
  assert (Hfloat : returns_or_fails is_float (py_eq0 y = true)
            (a ← to_double (PyFloat f); b ← to_double y;
             if (b =? 0)%float then Raise ZeroDivisionError
             else Ok (PyFloat (float_floor_div a b)))).
  { apply float_path_returns_or_fails. intros a b Hb. rewrite (to_double_eq0 y b Hb).
    destruct (py_eq0 y); [reflexivity|exact I]. }
  destruct y; exact Hfloat.
Qed.

(** The same, on operands that may have failed. *)
Section Census.
Variable Z : Prop.

Abbreviation any := (returns_or_fails (fun _ => True) Z).
Abbreviation a_float := (returns_or_fails is_float Z).

Lemma a_float_any r : a_float r -> any r.
Proof. apply returns_or_fails_weaken; auto. Qed.

Lemma mul_any x y : any x -> any y -> any (x * y)%py.
Proof.
  intros Hx Hy. apply (binop_returns_or_fails (fun _ => True) (fun _ => True)); auto.
  intros a b _ _. destruct (py_mul_total a b) as [->|(v & -> & _)]; exact I.
Qed.

Lemma mul_float_l x y : a_float x -> any y -> a_float (x * y)%py.
Proof.
  intros Hx Hy. apply (binop_returns_or_fails is_float (fun _ => True)); auto.
  intros a b Ha _. apply (returns_or_fails_weaken is_float _ False); auto; [tauto|].
  apply py_mul_float. now left.
Qed.

Lemma mul_float_r x y : any x -> a_float y -> a_float (x * y)%py.
Proof.
  intros Hx Hy. apply (binop_returns_or_fails (fun _ => True) is_float); auto.
  intros a b _ Hb. apply (returns_or_fails_weaken is_float _ False); auto; [tauto|].
  apply py_mul_float. now right.
Qed.

Lemma add_float_l x y : a_float x -> any y -> a_float (x + y)%py.
Proof.
  intros Hx Hy. apply (binop_returns_or_fails is_float (fun _ => True)); auto.
  intros a b Ha _. apply (returns_or_fails_weaken is_float _ False); auto; [tauto|].
  apply py_add_float. now left.
Qed.

Lemma sub_float_l x y : a_float x -> any y -> a_float (x - y)%py.
Proof.
  intros Hx Hy. apply (binop_returns_or_fails is_float (fun _ => True)); auto.
  intros a b Ha _. apply (returns_or_fails_weaken is_float _ False); auto; [tauto|].
  apply py_sub_float. now left.
Qed.

Lemma sq_float {L : Libm} x : a_float x -> a_float (sq x).
Proof.
  intros Hx. unfold sq. destruct x as [v|e]; [|exact Hx]. cbn [mbind result_bind].
  apply (returns_or_fails_weaken is_float _ False); auto; [tauto|].
  now apply py_sq_float.
Qed.

Lemma truediv_float x d : any x -> (py_eq0 d = true -> Z) -> a_float (x / Ok d)%py.
Proof.
  intros Hx Hd. apply (binop_returns_or_fails (fun _ => True) (fun v => v = d)); auto.
  - reflexivity.
  - intros a b _ ->. apply (returns_or_fails_weaken is_float _ (py_eq0 d = true)); auto.
    apply py_truediv_float.
Qed.

Lemma floordiv_float x d : a_float x -> (py_eq0 d = true -> Z) -> a_float (x // Ok d)%py.
Proof.
  intros Hx Hd. apply (binop_returns_or_fails is_float (fun v => v = d)); auto.
  - reflexivity.
  - intros a b Ha ->. apply (returns_or_fails_weaken is_float _ (py_eq0 d = true)); auto.
    now apply py_floordiv_float.
Qed.

Lemma spec_distance_census step a : a_float (spec_distance step a).
Proof.
  unfold spec_distance. apply truediv_float; [|discriminate].
  apply a_float_any, mul_float_r; exact I.
Qed.

Lemma spec_mean_speed_census step a d :
  (py_eq0 d = true -> Z) -> a_float (spec_mean_speed step a d).
Proof.
  intros Hd. unfold spec_mean_speed. apply truediv_float; [|exact Hd].
  apply a_float_any, spec_distance_census.
Qed.

Lemma spec_swimming_speed_census l c d :
  (py_eq0 d = true -> Z) -> a_float (spec_swimming_speed l c d).
Proof.
  intros Hd. unfold spec_swimming_speed. apply truediv_float; [|exact Hd].
  apply a_float_any, truediv_float; [|discriminate]. apply mul_any; exact I.
Qed.

Lemma spec_running_calories_census s d w :
  a_float s -> a_float (spec_running_calories s d w).
Proof.
  intros Hs. unfold spec_running_calories.
  apply mul_float_l; [|apply mul_any; exact I].
  apply truediv_float; [|discriminate].
  apply a_float_any, mul_float_l; [|exact I].
  apply sub_float_l; [|exact I]. apply mul_float_r; [exact I|exact Hs].
Qed.

Lemma spec_walking_calories_census {L : Libm} s d w h :
  a_float s -> (py_eq0 h = true -> Z) -> a_float (spec_walking_calories s d w h).
Proof.
  intros Hs Hh. unfold spec_walking_calories.
  apply mul_float_l; [|apply mul_any; exact I].
  apply add_float_l; [apply mul_float_l; exact I|].
  apply a_float_any, mul_float_l; [|exact I]. apply mul_float_l; [|exact I].
  apply floordiv_float; [|exact Hh]. now apply sq_float.
Qed.

Lemma spec_swimming_calories_census s w :
  a_float s -> a_float (spec_swimming_calories s w).
Proof.
  intros Hs. unfold spec_swimming_calories.
  apply mul_float_l; [|exact I]. apply mul_float_l; [|exact I].
  apply add_float_l; [exact Hs|exact I].
Qed.
End Census.

Lemma statistics_are_floats {L : Libm} code data training :
  read_package code data = Ok training ->
  (forall v, eval get_distance training = Ok v -> is_float v) /\
  (forall v, eval get_mean_speed training = Ok v -> is_float v) /\
  (forall v, eval get_spent_calories training = Ok v -> is_float v).
Proof.
  intros Hr.
  assert (H : forall r v, returns_or_fails is_float True r -> r = Ok v -> is_float v)
    by (intros r v H ->; exact H).
  destruct (read_package_Ok code data training Hr)
    as [(a & d & w & -> & -> & ->)|[(a & d & w & h & -> & -> & ->)|
        (a & d & w & l & c & -> & -> & ->)]].
  - rewrite running_distance, running_mean_speed, running_calories.
    repeat apply conj; intros v; apply H.
    + apply spec_distance_census.
    + now apply spec_mean_speed_census.
    + now apply spec_running_calories_census, spec_mean_speed_census.
  - rewrite walking_distance, walking_mean_speed, walking_calories.
    repeat apply conj; intros v; apply H.
    + apply spec_distance_census.
    + now apply spec_mean_speed_census.
    + apply spec_walking_calories_census; [now apply spec_mean_speed_census|auto].
  - rewrite swimming_distance, swimming_mean_speed, swimming_calories.
    repeat apply conj; intros v; apply H.
    + apply spec_distance_census.
    + now apply spec_swimming_speed_census.
    + now apply spec_swimming_calories_census, spec_swimming_speed_census.
Qed.

(** X5. The three statistics of a workout that [read_package] builds from
    numbers either return a [float] (never an [int]) or raise
    [OverflowError] or [ZeroDivisionError], and nothing else:
    [get_distance()] never divides by zero, [get_mean_speed()] raises
    [ZeroDivisionError] only if the duration is zero, and
    [get_spent_calories()] only if the duration is zero or, for a walking
    workout, the height is zero; [NotImplementedError], [AttributeError],
    [TypeError] and [ValueError] are never raised. *)
Theorem statistics_return_floats_or_fail {L : Libm}
  (code : string) (data : list num) (training : object) (d : num) :
  read_package code data = Ok training ->
  data !! 1%nat = Some d ->
  returns_or_fails is_float False (eval get_distance training) /\
  returns_or_fails is_float (py_eq0 d = true) (eval get_mean_speed training) /\
  returns_or_fails is_float
    (py_eq0 d = true \/
     (code = "WLK" /\ exists h, data !! 3%nat = Some h /\ py_eq0 h = true))
    (eval get_spent_calories training).
Proof.
  intros Hr Hd.
  destruct (read_package_Ok code data training Hr)
    as [(a & d' & w & -> & -> & ->)|[(a & d' & w & h & -> & -> & ->)|
        (a & d' & w & l & c & -> & -> & ->)]];
    injection Hd as ->.
  - rewrite running_distance, running_mean_speed, running_calories.
    repeat apply conj.
    + apply spec_distance_census.
    + now apply spec_mean_speed_census.
    + apply spec_running_calories_census, spec_mean_speed_census. tauto.
  - rewrite walking_distance, walking_mean_speed, walking_calories.
    repeat apply conj.
    + apply spec_distance_census.
    + now apply spec_mean_speed_census.
    + apply spec_walking_calories_census; [apply spec_mean_speed_census; tauto|].
      intros Hh. right. split; [reflexivity|]. exists h. now split.
  - rewrite swimming_distance, swimming_mean_speed, swimming_calories.
    repeat apply conj.
    + apply spec_distance_census.
    + now apply spec_swimming_speed_census.
    + apply spec_swimming_calories_census, spec_swimming_speed_census. tauto.
Qed.

(** X5 at the running sample with the duration 0: the speed is a
    division by zero, the distance is not. *)
Lemma statistics_return_floats_or_fail_witness :
  returns_or_fails is_float False (eval get_distance (running (PyInt 15000) (PyInt 0) (PyInt 75))) /\
  returns_or_fails is_float (py_eq0 (PyInt 0) = true)
    (eval get_mean_speed (running (PyInt 15000) (PyInt 0) (PyInt 75))).
Proof.
  pose proof (statistics_return_floats_or_fail (L := correctly_rounded)
                "RUN" [PyInt 15000; PyInt 0; PyInt 75]
                (running (PyInt 15000) (PyInt 0) (PyInt 75)) (PyInt 0) eq_refl eq_refl)
    as (Hdistance & Hspeed & _).
  exact (conj Hdistance Hspeed).
Defined.

(** ** Division by zero *)

Lemma never_returns_Raise {A} (e : exn) : never_returns (Raise (A := A) e).
Proof. intros v. discriminate. Qed.

Lemma never_returns_bind {A B} (r : result A) (k : A -> result B) :
  never_returns r -> never_returns (r ≫= k).
Proof. intros H. destruct r as [a|e]; [now destruct (H a)|apply never_returns_Raise]. Qed.

Lemma never_returns_binop_l op x y : never_returns x -> never_returns (binop op x y).
Proof. apply never_returns_bind. Qed.

Lemma never_returns_binop_r op x y : never_returns y -> never_returns (binop op x y).
Proof.
  intros H. unfold binop. destruct x as [a|e]; [|apply never_returns_Raise].
  cbn [mbind result_bind]. now apply never_returns_bind.
Qed.

Lemma to_double_zero y :
  py_eq0 y = true -> exists f, to_double y = Ok f /\ (f =? 0)%float = true.
Proof.
  destruct y as [z|f]; cbn; intros Hy; [|eauto].
  apply Z.eqb_eq in Hy. subst z. exists 0%float. split; vm_compute; reflexivity.
Qed.

Lemma float_path_by_zero (g : float -> float -> num) x y :
  py_eq0 y = true ->
  never_returns (a ← to_double x; b ← to_double y;
                 if (b =? 0)%float then Raise ZeroDivisionError else Ok (g a b)) /\
  (is_float x ->
   (a ← to_double x; b ← to_double y;
    if (b =? 0)%float then Raise ZeroDivisionError else Ok (g a b))
   = Raise ZeroDivisionError).
Proof.
  intros Hy. destruct (to_double_zero y Hy) as (fy & -> & Hz).
  destruct (to_double x) as [fx|e] eqn:Ex; cbn [mbind result_bind].
  - rewrite Hz. split; [apply never_returns_Raise|reflexivity].
  - split; [apply never_returns_Raise|]. destruct x; [intros []|discriminate Ex].
Qed.

Lemma py_truediv_by_zero x y :
  py_eq0 y = true ->
  never_returns (py_truediv x y) /\
  (is_float x -> py_truediv x y = Raise ZeroDivisionError).
Proof.
  intros Hy. unfold py_truediv.
  destruct x as [a|a], y as [b|b];
    try exact (float_path_by_zero (fun u v => PyFloat (u / v)) _ _ Hy).
  cbn in Hy. unfold long_true_divide. rewrite Hy.
  split; [apply never_returns_Raise|intros []].
Qed.

Lemma py_floordiv_by_zero x y :
  py_eq0 y = true ->
  never_returns (py_floordiv x y) /\
  (is_float x -> py_floordiv x y = Raise ZeroDivisionError).
Proof.
  intros Hy. unfold py_floordiv.
  destruct x as [a|a], y as [b|b];
    try exact (float_path_by_zero (fun u v => PyFloat (float_floor_div u v)) _ _ Hy).
  cbn in Hy. rewrite Hy. split; [apply never_returns_Raise|intros []].
Qed.

Lemma truediv_by_zero x d : py_eq0 d = true -> never_returns (x / Ok d)%py.
Proof.
  intros Hd. unfold binop. destruct x as [a|e]; [|apply never_returns_Raise].
  cbn [mbind result_bind]. now apply py_truediv_by_zero.
Qed.

Lemma floordiv_by_zero x d : py_eq0 d = true -> never_returns (x // Ok d)%py.
Proof.
  intros Hd. unfold binop. destruct x as [a|e]; [|apply never_returns_Raise].
  cbn [mbind result_bind]. now apply py_floordiv_by_zero.
Qed.

Lemma report_of_failed_speed {L : Libm} training d di e :
  attr "duration_km" training = Ok d ->
  eval get_distance training = Ok di ->
  eval get_mean_speed training = Raise e ->
  eval show_training_info training = Raise e /\ main training = Raise e.
Proof.
  intros Hd Hdi Hs.
  assert (E : eval show_training_info training = Raise e)
    by now rewrite show_training_info_eval, Hd, Hdi, Hs.
  split; [exact E|]. unfold main. now rewrite E.
Qed.

Lemma never_returns_report {L : Libm} training :
  never_returns (eval get_mean_speed training) \/
  never_returns (eval get_spent_calories training) ->
  never_returns (eval show_training_info training) /\ never_returns (main training).
Proof.
  intros H.
  assert (Hs : never_returns (eval show_training_info training)).
  { rewrite show_training_info_eval. intros info.
    destruct (attr "duration_km" training); [|discriminate].
    destruct (eval get_distance training); [|discriminate]. cbn [mbind result_bind].
    destruct H as [H|H].
    - destruct (eval get_mean_speed training) as [s|e]; [now destruct (H s)|discriminate].
    - destruct (eval get_mean_speed training) as [s|e]; [|discriminate].
      cbn [mbind result_bind].
      destruct (eval get_spent_calories training) as [c|e]; [now destruct (H c)|discriminate]. }
  split; [exact Hs|]. unfold main. now apply never_returns_bind.
Qed.

(** X6. A workout built with a duration equal to zero (0, 0.0 or -0.0)
    has a distance but no speed: [get_mean_speed()],
    [get_spent_calories()], [show_training_info()] and [main] never
    return. For a running or a walking workout whose distance is computed,
    what they raise is [ZeroDivisionError]. *)
Theorem zero_duration_never_reports {L : Libm}
  (code : string) (data : list num) (training : object) (d : num) :
  read_package code data = Ok training ->
  data !! 1%nat = Some d ->
  py_eq0 d = true ->
  never_returns (eval get_mean_speed training) /\
  never_returns (eval get_spent_calories training) /\
  never_returns (eval show_training_info training) /\
  never_returns (main training) /\
  (forall di,
     code <> "SWM" -> eval get_distance training = Ok di ->
     eval get_mean_speed training = Raise ZeroDivisionError /\
     eval show_training_info training = Raise ZeroDivisionError /\
     main training = Raise ZeroDivisionError).
Proof.
  intros Hr Hd Hz.
  assert (Hbase : forall a,
            never_returns (spec_mean_speed 0.65 a d) /\
            (forall di, spec_distance 0.65 a = Ok di ->
                        spec_mean_speed 0.65 a d = Raise ZeroDivisionError)).
  { intros a. split; [now apply truediv_by_zero|].
    intros di Hdi. unfold spec_mean_speed. rewrite Hdi.
    pose proof (spec_distance_census False 0.65 a) as Hf. rewrite Hdi in Hf.
    now apply py_truediv_by_zero. }
  destruct (read_package_Ok code data training Hr)
    as [(a & d' & w & -> & -> & ->)|[(a & d' & w & h & -> & -> & ->)|
        (a & d' & w & l & c & -> & -> & ->)]];
    injection Hd as ->.
  - destruct (Hbase a) as [Hs Hexact].
    assert (Hc : never_returns (eval get_spent_calories (running a d w))).
    { rewrite running_calories. unfold spec_running_calories.
      do 4 apply never_returns_binop_l. now apply never_returns_binop_r. }
    rewrite <- running_mean_speed with (w := w) in Hs.
    destruct (never_returns_report (running a d w) (or_introl Hs)) as [Hi Hm].
    repeat apply conj; auto.
    intros di _ Hdi. rewrite running_distance in Hdi.
    assert (E : eval get_mean_speed (running a d w) = Raise ZeroDivisionError)
      by (rewrite running_mean_speed; now apply (Hexact di)).
    split; [exact E|].
    apply (report_of_failed_speed _ d di);
      [vm_compute; reflexivity|now rewrite running_distance|exact E].
  - destruct (Hbase a) as [Hs Hexact].
    assert (Hc : never_returns (eval get_spent_calories (walking a d w h))).
    { rewrite walking_calories. unfold spec_walking_calories.
      apply never_returns_binop_l, never_returns_binop_r.
      do 3 apply never_returns_binop_l. now apply never_returns_bind. }
    rewrite <- walking_mean_speed with (w := w) (h := h) in Hs.
    destruct (never_returns_report (walking a d w h) (or_introl Hs)) as [Hi Hm].
    repeat apply conj; auto.
    intros di _ Hdi. rewrite walking_distance in Hdi.
    assert (E : eval get_mean_speed (walking a d w h) = Raise ZeroDivisionError)
      by (rewrite walking_mean_speed; now apply (Hexact di)).
    split; [exact E|].
    apply (report_of_failed_speed _ d di);
      [vm_compute; reflexivity|now rewrite walking_distance|exact E].
  - assert (Hs : never_returns (eval get_mean_speed (swimming a d w l c))).
    { rewrite swimming_mean_speed. now apply truediv_by_zero. }
    assert (Hc : never_returns (eval get_spent_calories (swimming a d w l c))).
    { rewrite swimming_calories. unfold spec_swimming_calories.
      do 3 apply never_returns_binop_l. rewrite <- swimming_mean_speed with (a := a) (w := w).
      exact Hs. }
    destruct (never_returns_report (swimming a d w l c) (or_introl Hs)) as [Hi Hm].
    repeat apply conj; auto. intros di Hne. now destruct Hne.
Qed.

(** X6 at the running sample with the duration 0, with the correctly
    rounded library. *)
Lemma zero_duration_never_reports_witness :
  let L := correctly_rounded in
  main (running (PyInt 15000) (PyInt 0) (PyInt 75)) = Raise ZeroDivisionError.
Proof.
  intros L.
  destruct (zero_duration_never_reports "RUN" [PyInt 15000; PyInt 0; PyInt 75]
              (running (PyInt 15000) (PyInt 0) (PyInt 75)) (PyInt 0)
              eq_refl eq_refl eq_refl) as (_ & _ & _ & _ & H).
  apply (H (PyFloat 9.75)); [discriminate|vm_compute; reflexivity].
Defined.

(** X7. A walking workout built with a height equal to zero has a
    distance and, for a non-zero duration, a speed, but no calories:
    [get_spent_calories()], [show_training_info()] and [main] never
    return. When the weight term and the squared speed are computed, what
    [get_spent_calories()] raises is the [ZeroDivisionError] of the floor
    division. *)
Theorem zero_height_never_reports {L : Libm} (a d w h : num) :
  py_eq0 h = true ->
  never_returns (on_package get_spent_calories "WLK" [a; d; w; h]) /\
  never_returns (eval show_training_info (walking a d w h)) /\
  never_returns (main (walking a d w h)) /\
  (forall x s2,
     (flt 0.035 * Ok w)%py = Ok x ->
     sq (on_package get_mean_speed "WLK" [a; d; w; h]) = Ok s2 ->
     on_package get_spent_calories "WLK" [a; d; w; h] = Raise ZeroDivisionError).
Proof.
  intros Hh. rewrite !on_package_WLK.
  assert (Hc : never_returns (eval get_spent_calories (walking a d w h))).
  { rewrite walking_calories. unfold spec_walking_calories.
    apply never_returns_binop_l, never_returns_binop_r.
    do 2 apply never_returns_binop_l. now apply floordiv_by_zero. }
  destruct (never_returns_report (walking a d w h) (or_intror Hc)) as [Hi Hm].
  repeat apply conj; auto.
  intros x s2 Hx Hs2. rewrite walking_calories. rewrite walking_mean_speed in Hs2.
  unfold spec_walking_calories. rewrite Hx, Hs2.
  assert (Hf : is_float s2).
  { pose proof (sq_float (py_eq0 d = true) _
                  (spec_mean_speed_census (py_eq0 d = true) 0.65 a d (fun H => H))) as Hsq.
    now rewrite Hs2 in Hsq. }
  assert (Hq : (Ok s2 // Ok h)%py = Raise ZeroDivisionError)
    by exact (proj2 (py_floordiv_by_zero s2 h Hh) Hf).
  rewrite Hq. reflexivity.
Qed.

(** X7 at the walking sample with the height 0, with the correctly
    rounded library. *)
Lemma zero_height_never_reports_witness :
  let L := correctly_rounded in
  on_package get_spent_calories "WLK" [PyInt 9000; PyInt 1; PyInt 75; PyInt 0]
  = Raise ZeroDivisionError.
Proof.
  intros L.
  destruct (zero_height_never_reports (PyInt 9000) (PyInt 1) (PyInt 75) (PyInt 0) eq_refl)
    as (_ & _ & _ & H).
  apply (H (PyFloat 2.6250000000000004) (PyFloat 34.222499999999997)); vm_compute; reflexivity.
Defined.

(** ** The printed line *)

Lemma truediv_converts_divisor (Z : Prop) x d v :
  returns_or_fails is_float Z x -> (x / Ok d)%py = Ok v ->
  exists f, to_double d = Ok f.
Proof.
  intros Hx. unfold binop. destruct x as [[z|a]|e]; try discriminate; [destruct Hx|].
  cbn [mbind result_bind]. unfold py_truediv.
  assert (Hfloat : (x ← to_double (PyFloat a); y ← to_double d;
                    if (y =? 0)%float then Raise ZeroDivisionError
                    else Ok (PyFloat (x / y)%float)) = Ok v -> exists f, to_double d = Ok f).
  { cbn [to_double mbind result_bind]. destruct (to_double d); [eauto|discriminate]. }
  destruct d; exact Hfloat.
Qed.

Lemma speed_converts_duration code data training d s :
  read_package code data = Ok training ->
  data !! 1%nat = Some d ->
  eval get_mean_speed training = Ok s ->
  exists f, to_double d = Ok f.
Proof.
  intros Hr Hd Hs.
  destruct (read_package_Ok code data training Hr)
    as [(a & d' & w & -> & -> & ->)|[(a & d' & w & h & -> & -> & ->)|
        (a & d' & w & l & c & -> & -> & ->)]];
    injection Hd as ->.
  - rewrite running_mean_speed in Hs.
    exact (truediv_converts_divisor False _ d s (spec_distance_census False 0.65 a) Hs).
  - rewrite walking_mean_speed in Hs.
    exact (truediv_converts_divisor False _ d s (spec_distance_census False 0.65 a) Hs).
  - rewrite swimming_mean_speed in Hs. unfold spec_swimming_speed in Hs.
    refine (truediv_converts_divisor False _ d s _ Hs).
    apply truediv_float; [|discriminate]. apply mul_any; exact I.
Qed.

(** X8. Whenever [show_training_info()] returns a message for a workout
    that [read_package] builds, rendering cannot fail: the distance, the
    speed and the calories of the message are floats, the duration
    converts to a float, and [main] prints the line of the template with
    these four numbers in the [.3f] format. So [main] raises exactly what
    [show_training_info()] raises. *)
Theorem report_always_renders {L : Libm} (code : string) (data : list num) (training : object) :
  read_package code data = Ok training ->
  (forall info,
     eval show_training_info training = Ok info ->
     exists d di s c,
       to_double (duration info) = Ok d /\
       distance info = PyFloat di /\ speed info = PyFloat s /\ calories info = PyFloat c /\
       main training
       = Ok ("Тип тренировки: " +:+ training_type info
             +:+ "; Длительность: " +:+ float_format_3f d
             +:+ " ч.; Дистанция: " +:+ float_format_3f di
             +:+ " км; Ср. скорость: " +:+ float_format_3f s
             +:+ " км/ч; Потрачено ккал: " +:+ float_format_3f c +:+ ".")) /\
  (forall e, main training = Raise e <-> eval show_training_info training = Raise e).
Proof.
  intros Hr.
  assert (Hrender : forall info,
     eval show_training_info training = Ok info ->
     exists d di s c,
       to_double (duration info) = Ok d /\
       distance info = PyFloat di /\ speed info = PyFloat s /\ calories info = PyFloat c /\
       main training
       = Ok ("Тип тренировки: " +:+ training_type info
             +:+ "; Длительность: " +:+ float_format_3f d
             +:+ " ч.; Дистанция: " +:+ float_format_3f di
             +:+ " км; Ср. скорость: " +:+ float_format_3f s
             +:+ " км/ч; Потрачено ккал: " +:+ float_format_3f c +:+ ".")).
  { intros info Hinfo. pose proof Hinfo as Hshow.
    destruct (read_package_duration code data training Hr) as (d0 & Hd0 & Ha).
    rewrite show_training_info_eval, Ha in Hinfo. cbn [mbind result_bind] in Hinfo.
    destruct (eval get_distance training) as [di0|] eqn:Edi; [|discriminate].
    destruct (eval get_mean_speed training) as [s0|] eqn:Es; [|discriminate].
    destruct (eval get_spent_calories training) as [c0|] eqn:Ec; [|discriminate].
    cbn [mbind result_bind] in Hinfo. injection Hinfo as <-.
    destruct (statistics_are_floats code data training Hr) as (Hdi & Hs & Hc).
    specialize (Hdi di0 Edi). specialize (Hs s0 Es). specialize (Hc c0 Ec).
    destruct di0 as [|di]; [destruct Hdi|]. destruct s0 as [|s]; [destruct Hs|].
    destruct c0 as [|c]; [destruct Hc|].
    destruct (speed_converts_duration code data training d0 _ Hr Hd0 Es) as [d Hd].
    exists d, di, s, c. cbn [duration distance speed calories training_type].
    repeat apply conj; try reflexivity; [exact Hd|].
    unfold main. rewrite Hshow. cbn [mbind result_bind].
    unfold get_message, format_3f.
    cbn [duration distance speed calories training_type to_double].
    rewrite Hd. reflexivity. }
  split; [exact Hrender|].
  intros e. unfold main.
  destruct (eval show_training_info training) as [info|e'] eqn:E; cbn [mbind result_bind].
  - destruct (Hrender info eq_refl) as (d & di & s & c & _ & _ & _ & _ & Hm).
    unfold main in Hm. rewrite E in Hm. cbn [mbind result_bind] in Hm. rewrite Hm.
    split; discriminate.
  - split; intros H; injection H as ->; reflexivity.
Qed.

(** X8 at the swimming sample, with the correctly rounded library. *)
Lemma report_always_renders_witness :
  let L := correctly_rounded in
  main (swimming (PyInt 720) (PyInt 1) (PyInt 80) (PyInt 25) (PyInt 40)) <> Raise OverflowError.
Proof.
  intros L.
  intros H.
  apply (proj2 (report_always_renders "SWM" sample_swimming
                  (swimming (PyInt 720) (PyInt 1) (PyInt 80) (PyInt 25) (PyInt 40)) eq_refl)) in H.
  vm_compute in H. discriminate H.
Defined.

(** ** The script *)

(** The line of the walking sample, with an accurate library. *)
Lemma sample_walking_line {L : Libm} :
  accurate L ->
  (training ← read_package "WLK" sample_walking; main training)
  = Ok "Тип тренировки: SportsWalking; Длительность: 1.000 ч.; Дистанция: 5.850 км; Ср. скорость: 5.850 км/ч; Потрачено ккал: 157.500.".
Proof.
  intros HL. unfold sample_walking, ints. cbn [map].
  rewrite read_package_WLK, new_SportsWalking. cbn [mbind result_bind]. unfold main.
  rewrite show_training_info_eval, walking_calories, (sample_walking_calories HL).
  vm_compute. reflexivity.
Qed.

(** X9. The script reports its packages in order and stops at the first
    one that fails: the lines of a list of packages followed by another
    are the lines of the first list and, if it ran to its end, those of
    the second; a line is printed for every package exactly when no
    exception ends the run. On the three packages of the module, with an
    accurate C library, it prints the three lines of the swimming, running
    and walking samples. *)
Theorem script_reports_in_order {L : Libm} (ps qs : list (string * list num)) :
  script (ps ++ qs)
  = match script ps with
    | (printed, None) => (printed ++ fst (script qs), snd (script qs))
    | (printed, Some e) => (printed, Some e)
    end /\
  (length (fst (script ps)) <= length ps)%nat /\
  (snd (script ps) = None <-> length (fst (script ps)) = length ps) /\
  (accurate L ->
   script packages
   = (["Тип тренировки: Swimming; Длительность: 1.000 ч.; Дистанция: 0.994 км; Ср. скорость: 1.000 км/ч; Потрачено ккал: 336.000.";
       "Тип тренировки: Running; Длительность: 1.000 ч.; Дистанция: 9.750 км; Ср. скорость: 9.750 км/ч; Потрачено ккал: 699.750.";
       "Тип тренировки: SportsWalking; Длительность: 1.000 ч.; Дистанция: 5.850 км; Ср. скорость: 5.850 км/ч; Потрачено ккал: 157.500."],
      None)).
Proof.
  split; [|split; [|split]].
  - induction ps as [|[code data] ps IH]; cbn [script app].
    + now destruct (script qs).
    + destruct (training ← read_package code data; main training) as [line|e]; [|reflexivity].
      rewrite IH. destruct (script ps) as [printed [e|]]; reflexivity.
  - induction ps as [|[code data] ps IH]; cbn [script]; [cbn; lia|].
    destruct (training ← read_package code data; main training) as [line|e]; [|cbn; lia].
    destruct (script ps) as [printed e]. cbn in *. lia.
  - assert (H : (length (fst (script ps)) <= length ps)%nat /\
                (snd (script ps) = None <-> length (fst (script ps)) = length ps)).
    { induction ps as [|[code data] ps [IHl IH]]; cbn [script];
        [cbn; split; [lia|split; reflexivity]|].
      destruct (training ← read_package code data; main training) as [line|e].
      - destruct (script ps) as [printed e]. cbn in *. split; [lia|].
        rewrite IH. split; [congruence|lia].
      - cbn. split; [lia|]. split; discriminate. }
    exact (proj2 H).
  - intros HL. unfold packages. cbn [script].
    rewrite (sample_walking_line HL). vm_compute. reflexivity.
Qed.

(** X9 with the correctly rounded library: the three lines of the
    module's packages. *)
Lemma script_reports_in_order_witness :
  let L := correctly_rounded in
  script packages
  = (["Тип тренировки: Swimming; Длительность: 1.000 ч.; Дистанция: 0.994 км; Ср. скорость: 1.000 км/ч; Потрачено ккал: 336.000.";
      "Тип тренировки: Running; Длительность: 1.000 ч.; Дистанция: 9.750 км; Ср. скорость: 9.750 км/ч; Потрачено ккал: 699.750.";
      "Тип тренировки: SportsWalking; Длительность: 1.000 ч.; Дистанция: 5.850 км; Ср. скорость: 5.850 км/ч; Потрачено ккал: 157.500."],
     None).
Proof.
  intros L.
  exact (proj2 (proj2 (proj2 (script_reports_in_order [] []))) correctly_rounded_accurate).
Defined.

(** ** Calories of a swimming workout *)

Lemma SF64add_nonneg x y :
  has_sign false x = true -> has_sign false y = true ->
  has_sign false (SF64add x y) = true.
Proof.
  intros Hx Hy.
  destruct x as [[]|[]| |[] mx ex], y as [[]|[]| |[] my ey]; try discriminate; try reflexivity.
  cbn [SF64add SFadd cond_Zopp].
  set (ez := Z.min ex ey).
  change (Zpos (fst (shl_align mx ex ez)) + Zpos (fst (shl_align my ey ez)))
    with (Zpos (fst (shl_align mx ex ez) + fst (shl_align my ey ez))).
  cbn [binary_normalize]. apply binary_round_shape.
Qed.

Lemma py_add_nonneg x y :
  nonneg_value x -> nonneg_value y -> or_overflow nonneg_value (py_add x y).
Proof.
  intros Hx Hy. unfold py_add.
  assert (Hfloat : or_overflow nonneg_value
            (a ← to_double x; b ← to_double y; Ok (PyFloat (a + b)%float))).
  { eapply float_path; [exact (to_double_nonneg x Hx)|exact (to_double_nonneg y Hy)|].
    intros a b Ha Hb. apply or_overflow_Ok. cbn [nonneg_value]. rewrite add_spec.
    now apply SF64add_nonneg. }
  destruct x as [a|a], y as [b|b]; try exact Hfloat.
  apply or_overflow_Ok. cbn in *. lia.
Qed.

Lemma py_mul_nonneg_positive x y :
  nonneg_value x -> positive_reading y -> or_overflow nonneg_value (py_mul x y).
Proof.
  intros Hx Hy. unfold py_mul.
  assert (Hfloat : or_overflow nonneg_value
            (a ← to_double x; b ← to_double y; Ok (PyFloat (a * b)%float))).
  { eapply float_path; [exact (to_double_nonneg x Hx)|exact (to_double_positive y Hy)|].
    intros a b Ha (_ & Hb & Hp). apply or_overflow_Ok. cbn [nonneg_value]. rewrite mul_spec.
    now apply (SF64mul_proper_sign _ _ false false). }
  destruct x as [a|a], y as [b|b]; try exact Hfloat.
  apply or_overflow_Ok. destruct Hy as [Hy _]. cbn in *. apply Z.ltb_lt in Hy. nia.
Qed.

(** X10. For every swimming workout whose duration, weight, pool length
    and pool count are positive and finite (the stroke count may be
    anything), [get_spent_calories()] either returns a value that is
    [>= 0] (never a NaN) or raises [OverflowError]. *)
Theorem swimming_calories_nonnegative {L : Libm} (a d w l c : num) :
  positive_reading d -> positive_reading w ->
  positive_reading l -> positive_reading c ->
  or_overflow (fun v => py_ge0 v = true)
    (on_package get_spent_calories "SWM" [a; d; w; l; c]).
Proof.
  intros Hd Hw Hl Hc. rewrite on_package_SWM, swimming_calories.
  apply (or_overflow_weaken nonneg_value); [apply nonneg_value_ge0|].
  unfold spec_swimming_calories.
  apply (binop_or_overflow nonneg_value positive_reading).
  - apply (binop_or_overflow nonneg_value positive_reading).
    + apply (binop_or_overflow nonneg_value nonneg_value).
      * now apply spec_swimming_speed_nonneg.
      * apply or_overflow_Ok. reflexivity.
      * intros x y. apply py_add_nonneg.
    + apply or_overflow_Ok. now apply positive_reading_const_int.
    + intros x y. apply py_mul_nonneg_positive.
  - now apply or_overflow_Ok.
  - intros x y. apply py_mul_nonneg_positive.
Qed.

(** X10 at the swimming sample, with the correctly rounded library. *)
Lemma swimming_calories_nonnegative_witness :
  let L := correctly_rounded in
  or_overflow (fun v => py_ge0 v = true)
    (on_package get_spent_calories "SWM" [PyInt 720; PyInt 1; PyInt 80; PyInt 25; PyInt 40]).
Proof.
  intros L.
  apply (swimming_calories_nonnegative (PyInt 720) (PyInt 1) (PyInt 80) (PyInt 25) (PyInt 40));
    split; reflexivity.
Defined.

(** ** Integers in the message *)

Lemma thousandths_exact m e z :
  e <= 0 -> Zpos m = z * 2 ^ (- e) -> thousandths m e = z * 1000.
Proof.
  intros He Hm. unfold thousandths.
  destruct (Z.leb_spec 0 e) as [H0|H0].
  - replace e with 0 in * by lia. cbn in Hm. rewrite Hm. cbn. lia.
  - assert (Hq : 0 < 2 ^ (- e)) by (apply Z.pow_pos_nonneg; lia).
    unfold round_half_even.
    replace (Zpos m * 1000) with (z * 1000 * 2 ^ (- e)) by (rewrite Hm; lia).
    rewrite Z.div_mul, Z.mod_mul by lia.
    now replace (2 * 0 ?= 2 ^ (- e)) with Lt by (symmetry; apply Z.compare_lt_iff; lia).
Qed.

Lemma format_3f_int z :
  Z.abs z < 2 ^ 53 ->
  format_3f (PyInt z) = Ok (sign_str (z <? 0) +:+ decimal (Z.abs z) +:+ ".000").
Proof.
  intros Hz. unfold format_3f. cbn [to_double]. unfold PyLong_AsDouble.
  destruct (SF_of_Z_shape z) as (Hv & _ & _).
  assert (Hp : Prim2SF (SF2Prim (SF_of_Z z)) = SF_of_Z z) by now apply Prim2SF_SF2Prim.
  assert (Hshape : z = 0 /\ SF_of_Z z = S754_zero false \/
                   exists m e, SF_of_Z z = S754_finite (z <? 0) m e /\
                               e <= 0 /\ Zpos m = Z.abs z * 2 ^ (- e)).
  { unfold SF_of_Z, binary_normalize. destruct z as [|p|p]; [now left|right..].
    - apply (binary_round_small false p). lia.
    - apply (binary_round_small true p). lia. }
  destruct Hshape as [[-> E]|(m & e & E & He & Hm)]; rewrite E in *.
  - cbn [mbind result_bind]. unfold float_format_3f. rewrite Hp. reflexivity.
  - cbn [mbind result_bind]. unfold float_format_3f. rewrite Hp.
    rewrite (thousandths_exact m e (Z.abs z) He Hm).
    rewrite Z.div_mul, Z.mod_mul by lia. reflexivity.
Qed.

Lemma append_assoc (s1 s2 s3 : string) : (s1 +:+ s2) +:+ s3 = s1 +:+ (s2 +:+ s3).
Proof.
  induction s1 as [|a s1 IH]; [reflexivity|].
  change (String a ((s1 +:+ s2) +:+ s3) = String a (s1 +:+ (s2 +:+ s3))). now rewrite IH.
Qed.

(** X11. An [int] below 2**53 in absolute value is printed exactly: the
    [.3f] format renders it as its decimal digits followed by [.000]
    (with a minus sign when negative), so a duration given as an [int]
    appears in the line of [get_message()] as that integer with three
    zero decimals. *)
Theorem ints_are_printed_exactly (z : Z) (name : string) (di s c : float) :
  Z.abs z < 2 ^ 53 ->
  format_3f (PyInt z) = Ok (sign_str (z <? 0) +:+ decimal (Z.abs z) +:+ ".000") /\
  get_message {| training_type := name; duration := PyInt z; distance := PyFloat di;
                 speed := PyFloat s; calories := PyFloat c |}
  = Ok ("Тип тренировки: " +:+ name
        +:+ "; Длительность: " +:+ sign_str (z <? 0) +:+ decimal (Z.abs z) +:+ ".000"
        +:+ " ч.; Дистанция: " +:+ float_format_3f di
        +:+ " км; Ср. скорость: " +:+ float_format_3f s
        +:+ " км/ч; Потрачено ккал: " +:+ float_format_3f c +:+ ".").
Proof.
  intros Hz. split; [now apply format_3f_int|].
  unfold get_message. cbn [duration distance speed calories training_type].
  rewrite (format_3f_int z Hz). cbn [mbind result_bind format_3f to_double].
  f_equal. rewrite !append_assoc. reflexivity.
Qed.

(** X11 at the duration 1 of the samples and at 2**53 - 1. *)
Lemma ints_are_printed_exactly_witness :
  format_3f (PyInt 1) = Ok "1.000" /\
  format_3f (PyInt 9007199254740991) = Ok "9007199254740991.000".
Proof.
  split.
  - exact (proj1 (ints_are_printed_exactly 1 "" 0 0 0 eq_refl)).
  - exact (proj1 (ints_are_printed_exactly 9007199254740991 "" 0 0 0 eq_refl)).
Defined.

(** ** The running formula from 10/9 km/h on *)

Lemma SFltb_finite_pos_false m1 e1 m2 e2 :
  SFltb (S754_finite false m1 e1) (S754_finite false m2 e2) = false ->
  e2 < e1 \/ (e1 = e2 /\ Zpos m2 <= Zpos m1).
Proof.
  unfold SFltb. cbn [SFcompare].
  change (IntDef.Z.compare e1 e2) with (Z.compare e1 e2).
  change (PosDef.Pos.compare_cont Eq m1 m2) with (Pos.compare m1 m2).
  destruct (Z.compare_spec e1 e2) as [He|He|He]; try discriminate; [|lia].
  destruct (Pos.compare_spec m1 m2) as [Hm|Hm|Hm]; try discriminate; lia.
Qed.

(** [18 * s] for a double [s >= 10/9] is at least 20. *)
Lemma mul_18_at_least_20 m e :
  bounded prec emax m e = true ->
  SFltb (S754_finite false m e) (S754_finite false 5003999585967218 (-52)) = false ->
  let R := SF64mul (S754_finite false 5066549580791808 (-48)) (S754_finite false m e) in
  R = S754_infinity false \/
  exists mR eR, R = S754_finite false mR eR /\
                canonical_mantissa prec emax mR eR = true /\
                (-48 < eR \/ (eR = -48 /\ 5629499534213120 <= Zpos mR)).
Proof.
  intros Hb Hlt R. subst R. cbn [SF64mul SFmul xorb].
  apply bounded_canonical in Hb as (Hcan & _ & Hm53 & Hemin).
  apply SFltb_finite_pos_false in Hlt.
  set (M := Zpos (5066549580791808 * m)). set (E := -48 + e).
  assert (HM : M = 5066549580791808 * Zpos m) by (subst M; lia).
  assert (He : -52 <= e) by lia.
  (* the mantissa of [s] is normalised *)
  assert (Hm52 : 2 ^ 52 <= Zpos m).
  { rewrite fexp64_eq in Hcan.
    assert (Hd : Zdigits2 (Zpos m) = 53) by lia.
    pose proof (Zdigits2_bounds (Zpos m) ltac:(lia)) as [Hlo _]. now rewrite Hd in Hlo. }
  assert (Hpe : 0 < 2 ^ (e + 52)) by (apply Z.pow_pos_nonneg; lia).
  (* 18 m 2^e >= 20, over 2^-52 *)
  assert (Hval : 20 * 2 ^ 52 <= 18 * Zpos m * 2 ^ (e + 52)).
  { destruct Hlt as [Hlt|[-> Hlt]].
    - assert (2 ^ 1 <= 2 ^ (e + 52)) by (apply Z.pow_le_mono_r; lia).
      change (2 ^ 1) with 2 in *. change (2 ^ 52) with 4503599627370496 in *. nia.
    - change (2 ^ (-52 + 52)) with 1. change (2 ^ 52) with 4503599627370496. lia. }
  assert (HMpos : 0 < M) by lia.
  pose proof (Zdigits2_bounds M HMpos) as [HMlo HMhi].
  assert (HdM : 105 <= Zdigits2 M).
  { destruct (Z_lt_le_dec (Zdigits2 M) 105) as [Hc|]; [|lia].
    assert (2 ^ Zdigits2 M <= 2 ^ 104) by (apply Z.pow_le_mono_r; lia).
    change (2 ^ 52) with 4503599627370496 in *.
    change (2 ^ 104) with 20282409603651670423947251286016 in *. nia. }
  assert (Hpre : E <= fexp64 (Zdigits2 M + E)) by (rewrite fexp64_eq; lia).
  destruct (binary_round_aux_cases false M E HMpos Hpre) as (m1 & Hm1 & _ & Hres).
  set (e' := fexp64 (Zdigits2 M + E)) in *.
  assert (He' : e' = Zdigits2 M + E - 53) by (subst e' E; rewrite fexp64_eq; lia).
  set (n := e' - E) in *.
  assert (Hn : n = Zdigits2 M - 53) by (subst n; lia).
  assert (Hpn : 0 < 2 ^ n) by (apply Z.pow_pos_nonneg; lia).
  (* the value is at least 20: M >= 20 * 2^48 * 2^(-E) *)
  assert (HMge : 5629499534213120 * 2 ^ (48 - e) <= M * 2 ^ 0 \/ True) by now right.
  clear HMge.
  assert (Hfloor : 2 ^ 52 <= M / 2 ^ n).
  { apply Z.div_le_lower_bound; [lia|].
    replace (Zdigits2 M - 1) with (n + 52) in HMlo by lia.
    rewrite Z.pow_add_r in HMlo by lia. lia. }
  assert (He48 : -48 <= e').
  { destruct (Z_lt_le_dec e' (-48)) as [Hc|]; [|lia]. exfalso.
    (* M < 2^(digits M) = 2^(e' - E + 53) <= 2^(-E + 4) *)
    assert (Hd : Zdigits2 M <= 52 - e) by (subst E; lia).
    assert (H1 : 2 ^ Zdigits2 M <= 2 ^ (52 - e)) by (apply Z.pow_le_mono_r; lia).
    assert (H2 : 2 ^ (52 - e) * 2 ^ (e + 52) = 2 ^ 104)
      by (rewrite <- Z.pow_add_r by lia; f_equal; lia).
    change (2 ^ 52) with 4503599627370496 in *.
    change (2 ^ 104) with 20282409603651670423947251286016 in *.
    assert (M * 2 ^ (e + 52) < 20282409603651670423947251286016) by nia.
    rewrite HM in H. nia. }
  assert (Hm1ge : e' = -48 -> 5629499534213120 <= m1).
  { intros H48. assert (Hne : n = - e) by (subst n E; lia).
    assert (5629499534213120 <= M / 2 ^ n); [|lia].
    apply Z.div_le_lower_bound; [lia|]. rewrite Hne, HM.
    assert (H2 : 2 ^ (- e) * 2 ^ (e + 52) = 2 ^ 52)
      by (rewrite <- Z.pow_add_r by lia; f_equal; lia).
    change (2 ^ 52) with 4503599627370496 in *. nia. }
  destruct Hres as [[Hz _]|(m'' & e'' & HR & Hc'' & Hcase)].
  { exfalso. change (2 ^ 52) with 4503599627370496 in *. lia. }
  destruct (Z.leb_spec e'' (emax - prec)) as [Hle|Hgt]; [right|now left].
  exists m'', e''. split; [exact HR|]. split; [exact Hc''|].
  destruct Hcase as [[Hm He'']|(Hm & He'' & Hm1')].
  - subst e''. destruct (Z.eq_dec e' (-48)) as [H48|]; [right|left; lia].
    split; [exact H48|]. rewrite Hm. auto.
  - left. lia.
Qed.

(** Subtracting 20 from a double that is at least 20 leaves a double that
    is not negative. *)
Lemma sub_20_nonneg mR eR :
  canonical_mantissa prec emax mR eR = true ->
  -48 < eR \/ (eR = -48 /\ 5629499534213120 <= Zpos mR) ->
  has_sign false (SF64sub (S754_finite false mR eR) (S754_finite false 5629499534213120 (-48)))
  = true.
Proof.
  intros Hc Hge. cbn [SF64sub SFsub cond_Zopp].
  unfold canonical_mantissa in Hc. apply Z.eqb_eq in Hc.
  replace (Z.min eR (-48)) with (-48) by lia.
  change (fst (shl_align 5629499534213120 (-48) (-48))) with 5629499534213120%positive.
  assert (Hx : 5629499534213120 <= Zpos (fst (shl_align mR eR (-48)))).
  { destruct Hge as [Hgt|[-> Hge]]; [|exact Hge].
    unfold shl_align. destruct (-48 - eR) as [|d|d] eqn:Ed; try lia. cbn [fst].
    rewrite Pos_iter_xO.
    assert (Hd : Zdigits2 (Zpos mR) = 53) by (rewrite fexp64_eq in Hc; cbn [Zdigits2] in *; lia).
    pose proof (Zdigits2_bounds (Zpos mR) ltac:(lia)) as [Hlo _]. rewrite Hd in Hlo.
    assert (2 ^ 1 <= 2 ^ Zpos d) by (apply Z.pow_le_mono_r; lia).
    change (2 ^ (53 - 1)) with 4503599627370496 in Hlo. change (2 ^ 1) with 2 in *. nia. }
  destruct (Zpos (fst (shl_align mR eR (-48))) - Zpos 5629499534213120) as [|p|p] eqn:Ep;
    try lia; [reflexivity|].
  cbn [binary_normalize]. apply binary_round_shape.
Qed.

(** [18 * s - 20] is not negative (a NaN apart) for every non-negative
    double [s] that is not below 10/9. *)
Lemma running_factor_nonneg s :
  nan_or_sign false (Prim2SF s) ->
  (s <? 10 / 9)%float = false ->
  nan_or_sign false (Prim2SF (18 * s - 20)%float).
Proof.
  intros [Hn|Hs] Hlt; rewrite sub_spec, mul_spec.
  { left. now rewrite Hn. }
  rewrite FloatAxioms.ltb_spec in Hlt.
  change (Prim2SF (10 / 9)) with (S754_finite false 5003999585967218 (-52)) in Hlt.
  change (Prim2SF 18) with (S754_finite false 5066549580791808 (-48)).
  change (Prim2SF 20) with (S754_finite false 5629499534213120 (-48)).
  pose proof (Prim2SF_valid s) as Hv. right.
  destruct (Prim2SF s) as [[]|[]| |[] m e]; try discriminate.
  - reflexivity.
  - cbn [valid_binary] in Hv.
    destruct (mul_18_at_least_20 m e Hv Hlt) as [->|(mR & eR & -> & Hc & Hb)].
    + reflexivity.
    + now apply sub_20_nonneg.
Qed.

Lemma nan_or_nonneg f : nan_or_sign false (Prim2SF f) -> (f <? 0)%float = false.
Proof.
  intros H. rewrite FloatAxioms.ltb_spec. change (Prim2SF 0) with (S754_zero false).
  destruct H as [->|H]; [reflexivity|].
  destruct (Prim2SF f) as [[]|[]| |[] m e]; try discriminate; reflexivity.
Qed.

(** X12. The threshold of 10/9 km/h is sharp: for every running workout
    with positive action, duration and weight whose mean speed is not
    below 10/9 km/h, [get_spent_calories()] never returns a negative
    value; it returns a value that is not [< 0] (zero and NaN included)
    or raises [OverflowError]. *)
Theorem running_calories_from_threshold {L : Libm} (a d w : num) (s : float) :
  py_gt0 a = true -> py_gt0 d = true -> py_gt0 w = true ->
  on_package get_mean_speed "RUN" [a; d; w] = Ok (PyFloat s) ->
  (s <? 10 / 9)%float = false ->
  or_overflow (fun v => py_lt0 v = false) (on_package get_spent_calories "RUN" [a; d; w]).
Proof.
  intros Ha Hd Hw Hs Hlt.
  rewrite on_package_RUN, running_mean_speed in Hs.
  rewrite on_package_RUN, running_calories. unfold spec_running_calories.
  rewrite Hs.
  assert (Hsign : nan_or_sign false (Prim2SF s)).
  { destruct (spec_mean_speed_sign a d Ha Hd) as [E|(v & E & Hv)];
      rewrite E in Hs; [discriminate|]. injection Hs as ->. exact Hv. }
  change (int 18 * Ok (PyFloat s) - int 20)%py with (Ok (PyFloat (18 * s - 20)%float)).
  pose proof (running_factor_nonneg s Hsign Hlt) as Hpos.
  set (t := (18 * s - 20)%float) in *.
  set (signed := fun v => exists g, v = PyFloat g /\ nan_or_sign false (Prim2SF g)).
  apply (or_overflow_weaken signed).
  { intros v (r & -> & Hr). now apply nan_or_nonneg. }
  apply (binop_or_overflow signed nonneg_or_nan).
  - apply (binop_or_overflow signed (fun y => py_gt0 y = true)).
    + apply (binop_or_overflow (fun x => x = PyFloat t) (fun y => py_gt0 y = true));
        [now apply or_overflow_Ok|now apply or_overflow_Ok|].
      intros x y -> Hy. apply py_mul_signed; [exact Hpos|now apply py_gt0_nonneg_or_nan].
    + now apply or_overflow_Ok.
    + intros x y (g & -> & Hg) Hy. now apply py_truediv_signed.
  - apply (binop_or_overflow (fun y => py_gt0 y = true) (fun y => py_gt0 y = true));
      [now apply or_overflow_Ok|now apply or_overflow_Ok|].
    intros x y. apply py_mul_gt0.
  - intros x y (g & -> & Hg) Hy. now apply py_mul_signed.
Qed.

(** X12 at the running sample (speed 9.75) and at the speed 10/9 itself,
    where the calories are zero, with the correctly rounded library. *)
Lemma running_calories_from_threshold_witness :
  let L := correctly_rounded in
  or_overflow (fun v => py_lt0 v = false)
    (on_package get_spent_calories "RUN" [PyInt 15000; PyInt 1; PyInt 75]) /\
  on_package get_mean_speed "RUN" [PyFloat 1000; PyFloat 0.58499999999999996; PyInt 75]
  = Ok (PyFloat (10 / 9)) /\
  on_package get_spent_calories "RUN" [PyFloat 1000; PyFloat 0.58499999999999996; PyInt 75]
  = Ok (PyFloat 0).
Proof.
  intros L.
  split; [|split; vm_compute; reflexivity].
  apply (running_calories_from_threshold (PyInt 15000) (PyInt 1) (PyInt 75) 9.75);
    reflexivity.
Defined.

(** ** Floor division of a double that is not negative *)

(** Rounding an integer of at most 53 bits is exact: the mantissa is
    shifted left, nothing is lost. *)
Lemma binary_round_exact sx p e :
  Zpos p < 2 ^ 53 -> -1074 <= e <= 971 ->
  exists m' e', binary_round prec emax sx p e = S754_finite sx m' e' /\
                e' <= e /\ Zpos m' = Zpos p * 2 ^ (e - e').
Proof.
  intros Hp He. unfold binary_round.
  change (Zpos (digits2_pos p)) with (Zdigits2 (Zpos p)).
  pose proof (Zdigits2_bounds (Zpos p) ltac:(lia)) as [Hlo Hhi].
  pose proof (Zdigits2_pos (Zpos p) ltac:(lia)) as Hd.
  assert (Hd53 : Zdigits2 (Zpos p) <= 53).
  { destruct (Z_lt_le_dec 53 (Zdigits2 (Zpos p))) as [Hc|]; [|lia].
    assert (2 ^ 53 <= 2 ^ (Zdigits2 (Zpos p) - 1)) by (apply Z.pow_le_mono_r; lia). lia. }
  set (e0 := fexp64 (Zdigits2 (Zpos p) + e)).
  assert (He0 : e0 = Z.max (Zdigits2 (Zpos p) + e - 53) (-1074)) by apply fexp64_eq.
  unfold shl_align.
  destruct (e0 - e) as [|d|d] eqn:Ed; try lia.
  - exists p, e. split; [|split; [lia|rewrite Z.sub_diag; cbn; lia]].
    apply binary_round_aux_exact; [fold e0|]; lia.
  - exists (shift_pos d p), e0.
    assert (Hm : Zpos (shift_pos d p) = Zpos p * 2 ^ Zpos d) by apply Pos_iter_xO.
    split; [|split; [lia|rewrite Hm; f_equal; f_equal; lia]].
    apply binary_round_aux_exact; [|lia].
    rewrite Hm, Zdigits2_mul_pow by lia.
    replace (Zdigits2 (Zpos p) + Zpos d + e0) with (Zdigits2 (Zpos p) + e) by lia.
    reflexivity.
Qed.

(** The remainder of [fmod] is a double that is not negative, and taking
    it off the dividend leaves a double that is not negative. *)
Lemma SFfmod_shape X Y :
  valid_binary X = true -> valid_binary Y = true ->
  has_sign false X = true -> sf_finite X = true ->
  has_sign false Y = true -> sf_proper Y = true ->
  valid_binary (SFfmod X Y) = true /\
  has_sign false (SFfmod X Y) = true /\
  has_sign false (SF64sub X (SFfmod X Y)) = true.
Proof.
  intros Hvx Hvy Hsx Hfx Hsy Hpy.
  destruct Y as [| | |[] my ey]; try discriminate.
  destruct X as [[]|[]| |[] mx ex]; try discriminate.
  { cbn [SFfmod]. repeat split; reflexivity. }
  cbn [SFfmod SFabs].
  destruct (SFltb (S754_finite false mx ex) (S754_finite false my ey)).
  { repeat split; auto. now rewrite SF64sub_diag. }
  cbn [valid_binary] in Hvx, Hvy.
  apply bounded_canonical in Hvx as (_ & Hex & Hmx & Hexl).
  apply bounded_canonical in Hvy as (_ & Hey & Hmy & Heyl).
  set (e := Z.min ex ey).
  set (a := Zpos mx * 2 ^ (ex - e)). set (b := Zpos my * 2 ^ (ey - e)).
  assert (Ha : 0 < a) by (subst a; apply Z.mul_pos_pos; [lia|apply Z.pow_pos_nonneg; lia]).
  assert (Hb : 0 < b) by (subst b; apply Z.mul_pos_pos; [lia|apply Z.pow_pos_nonneg; lia]).
  pose proof (Z.rem_bound_pos a b ltac:(lia) Hb) as [Hr0 Hrb].
  assert (Hra : Z.rem a b <= a) by (apply Z.rem_le; lia).
  assert (Hr53 : Z.rem a b < 2 ^ 53).
  { destruct (Z_le_gt_dec ex ey) as [Hle|Hgt].
    - assert (a = Zpos mx) by (subst a e; rewrite Z.min_l, Z.sub_diag by lia; cbn; lia). lia.
    - assert (b = Zpos my) by (subst b e; rewrite Z.min_r, Z.sub_diag by lia; cbn; lia). lia. }
  destruct (Z.rem a b) as [|p|p] eqn:Er; try lia.
  { repeat split; reflexivity. }
  cbn [cond_Zopp binary_normalize].
  destruct (binary_round_exact false p e Hr53 ltac:(lia)) as (m' & e' & E & He' & Hm').
  destruct (binary_round_shape false p e) as (Hv & _ & _).
  rewrite E in *. repeat split; auto.
  cbn [SF64sub SFsub cond_Zopp].
  replace (Z.min ex e') with e' by lia.
  assert (Hy : fst (shl_align m' e' e') = m') by (unfold shl_align; now rewrite Z.sub_diag).
  rewrite Hy.
  assert (Hx : Zpos m' <= Zpos (fst (shl_align mx ex e'))).
  { assert (Hval : Zpos m' <= Zpos mx * 2 ^ (ex - e')).
    { rewrite Hm'. replace (ex - e') with ((ex - e) + (e - e')) by lia.
      rewrite Z.pow_add_r by lia.
      assert (0 < 2 ^ (e - e')) by (apply Z.pow_pos_nonneg; lia).
      fold a. nia. }
    unfold shl_align. destruct (e' - ex) as [|d|d] eqn:Ed; try lia; cbn [fst].
    - replace (ex - e') with 0 in Hval by lia. cbn in Hval. lia.
    - rewrite Pos_iter_xO. replace (ex - e') with (Zpos d) in Hval by lia. exact Hval. }
  destruct (Zpos (fst (shl_align mx ex e')) - Zpos m') as [|q|q] eqn:Eq; try lia;
    [reflexivity|].
  cbn [binary_normalize]. apply binary_round_shape.
Qed.

(** [floor] of a double that is not negative. *)
Lemma SFfloor_shape X :
  valid_binary X = true -> has_sign false X = true ->
  valid_binary (SFfloor X) = true /\ has_sign false (SFfloor X) = true.
Proof.
  intros Hv Hs. destruct X as [[]|[]| |[] m e]; try discriminate; try (split; reflexivity).
  cbn [SFfloor cond_Zopp]. destruct (Z.leb_spec 0 e) as [He|He]; [split; assumption|].
  assert (Hq : 0 <= Zpos m / 2 ^ (- e)) by (apply Z.div_pos; [lia|apply Z.pow_pos_nonneg; lia]).
  destruct (Zpos m / 2 ^ (- e)) as [|q|q]; try lia; [split; reflexivity|].
  cbn [binary_normalize]. destruct (binary_round_shape false q 0) as (H1 & H2 & _). auto.
Qed.

Lemma ltb_0_of_sign f : has_sign false (Prim2SF f) = true -> (f <? 0)%float = false.
Proof. intros H. apply nan_or_nonneg. now right. Qed.

(** [x // y] for a finite [x >= 0] and a finite [y > 0]. *)
Lemma float_floor_div_nonneg x y :
  has_sign false (Prim2SF x) = true -> sf_finite (Prim2SF x) = true ->
  has_sign false (Prim2SF y) = true -> sf_proper (Prim2SF y) = true ->
  has_sign false (Prim2SF (float_floor_div x y)) = true.
Proof.
  intros Hsx Hfx Hsy Hpy.
  destruct (SFfmod_shape (Prim2SF x) (Prim2SF y) (Prim2SF_valid x) (Prim2SF_valid y)
              Hsx Hfx Hsy Hpy) as (Hvm & Hsm & Hsd).
  assert (Hmod : Prim2SF (fmod x y) = SFfmod (Prim2SF x) (Prim2SF y))
    by (unfold fmod; now apply Prim2SF_SF2Prim).
  unfold float_floor_div.
  assert (Hy0 : (y <? 0)%float = false) by now apply ltb_0_of_sign.
  assert (Hm0 : (fmod x y <? 0)%float = false) by (apply ltb_0_of_sign; now rewrite Hmod).
  rewrite Hy0, Hm0, andb_false_r.
  set (div := ((x - fmod x y) / y)%float).
  assert (Hdiv : has_sign false (Prim2SF div) = true).
  { subst div. rewrite div_spec, sub_spec, Hmod.
    apply (SF64div_sign _ _ false false); auto. }
  destruct (nonzero div).
  - destruct (SFfloor_shape (Prim2SF div) (Prim2SF_valid div) Hdiv) as [Hvf Hsf].
    assert (Hfloor : Prim2SF (floor div) = SFfloor (Prim2SF div))
      by (unfold floor; now apply Prim2SF_SF2Prim).
    destruct (0.5 <? div - floor div)%float.
    + rewrite add_spec, Hfloor. now apply SF64add_nonneg.
    + now rewrite Hfloor.
  - unfold copysign_zero. rewrite (get_sign_shape (x / y) false); [reflexivity|].
    rewrite div_spec. apply (SF64div_sign _ _ false false); auto.
Qed.

(** [x // y] for a NaN or an infinite [x]. *)
Lemma float_floor_div_nan x y :
  Prim2SF x = S754_nan \/ (exists s, Prim2SF x = S754_infinity s) ->
  float_floor_div x y = nan.
Proof.
  intros Hx.
  assert (Hmod : fmod x y = nan).
  { unfold fmod. destruct Hx as [->|[s ->]]; [reflexivity|].
    now destruct (Prim2SF y). }
  assert (Hdiv : ((x - nan) / y)%float = nan).
  { apply float_of_nan. rewrite div_spec, sub_spec.
    change (Prim2SF nan) with S754_nan.
    replace (SF64sub (Prim2SF x) S754_nan) with S754_nan by now destruct (Prim2SF x).
    reflexivity. }
  unfold float_floor_div. rewrite Hmod, Hdiv.
  destruct (y <? 0)%float; vm_compute; reflexivity.
Qed.

(** [x // y] for an [x] that is not negative and a [y > 0]. *)
Lemma float_floor_div_sign x y :
  nan_or_sign false (Prim2SF x) ->
  has_sign false (Prim2SF y) = true ->
  sf_proper (Prim2SF y) = true \/ Prim2SF y = S754_infinity false ->
  nan_or_sign false (Prim2SF (float_floor_div x y)).
Proof.
  intros [Hn|Hsx] Hsy Hy.
  { left. now rewrite float_floor_div_nan by auto. }
  destruct (Prim2SF x) as [sx|sx| |sx mx ex] eqn:Ex; try discriminate.
  - right. destruct Hy as [Hp|Hi].
    + apply float_floor_div_nonneg; auto; now rewrite Ex.
    + rewrite float_floor_div_small; [reflexivity|now rewrite Ex|].
      rewrite FloatAxioms.ltb_spec, Ex, Hi. now destruct sx.
  - left. rewrite float_floor_div_nan; [reflexivity|]. right. eauto.
  - right. destruct Hy as [Hp|Hi].
    + apply float_floor_div_nonneg; auto; now rewrite Ex.
    + rewrite float_floor_div_small; [reflexivity|now rewrite Ex|].
      rewrite FloatAxioms.ltb_spec, Ex, Hi. now destruct sx.
Qed.

(** ** Calories of a walking workout *)

Lemma to_double_gt0_shape y :
  py_gt0 y = true ->
  to_double y = Raise OverflowError \/
  exists f, to_double y = Ok f /\ (f =? 0)%float = false /\
            has_sign false (Prim2SF f) = true /\
            (sf_proper (Prim2SF f) = true \/ Prim2SF f = S754_infinity false).
Proof.
  intros Hy. destruct (to_double_gt0 y Hy) as [E|(f & E & Hz & Hs & Hp)]; [now left|right].
  exists f. repeat split; auto.
  destruct y as [z|g]; [left; now apply Hp|].
  cbn [to_double] in E. injection E as ->. cbn in Hy. now apply ltb_0_shape.
Qed.

Abbreviation signed_nonneg :=
  (fun v : num => exists g, v = PyFloat g /\ nan_or_sign false (Prim2SF g)).

Lemma py_floordiv_signed f y :
  nan_or_sign false (Prim2SF f) -> py_gt0 y = true ->
  or_overflow signed_nonneg (py_floordiv (PyFloat f) y).
Proof.
  intros Hf Hy. unfold py_floordiv.
  assert (Hfloat : or_overflow signed_nonneg
            (a ← to_double (PyFloat f); b ← to_double y;
             if (b =? 0)%float then Raise ZeroDivisionError
             else Ok (PyFloat (float_floor_div a b)))).
  { eapply (float_path (fun a => a = f)); [right; eauto|exact (to_double_gt0_shape y Hy)|].
    intros a b -> (Hz & Hb & Hshape). rewrite Hz. apply or_overflow_Ok.
    eexists; split; [reflexivity|]. now apply float_floor_div_sign. }
  destruct y; exact Hfloat.
Qed.

Lemma py_sq_signed {L : Libm} f :
  accurate L -> or_overflow signed_nonneg (py_sq (PyFloat f)).
Proof.
  intros HL. pose proof (py_sq_float (PyFloat f) I) as H.
  destruct (py_sq (PyFloat f)) as [[z|g]|e] eqn:E; cbn in H.
  - destruct H.
  - apply or_overflow_Ok. exists g. split; [reflexivity|]. exact (py_sq_sign f g HL E).
  - destruct e; try destruct H. now left.
Qed.

Lemma SF64add_nan_or_nonneg x y :
  nan_or_sign false x -> nan_or_sign false y -> nan_or_sign false (SF64add x y).
Proof.
  intros [->|Hx]; [now left|]. intros [->|Hy]; [left; now destruct x|].
  right. now apply SF64add_nonneg.
Qed.

Lemma py_add_signed f g :
  nan_or_sign false (Prim2SF f) -> nan_or_sign false (Prim2SF g) ->
  signed_nonneg (PyFloat (f + g)%float).
Proof.
  intros Hf Hg. eexists; split; [reflexivity|]. rewrite add_spec.
  now apply SF64add_nan_or_nonneg.
Qed.

Lemma py_gt0_not_zero d : py_gt0 d = true -> py_eq0 d = true -> False.
Proof.
  destruct d as [z|f]; cbn; intros Hp Hz.
  - apply Z.ltb_lt in Hp. apply Z.eqb_eq in Hz. lia.
  - now rewrite (eqb_0_of_gt f Hp) in Hz.
Qed.

Lemma or_overflow_of_census (P : num -> Prop) r :
  returns_or_fails P False r -> or_overflow P r.
Proof.
  destruct r as [v|[]]; cbn; intros H; try now destruct H.
  - right; eauto.
  - now left.
Qed.

(** X13. Walking calories are never negative: with an accurate C library,
    for every walking workout with positive duration, weight and height,
    whatever the step count, [get_spent_calories()] returns a value that
    is not [< 0] (a NaN is possible when a product overflows or
    underflows) or raises [OverflowError]. *)
Theorem walking_calories_never_negative {L : Libm} (a d w h : num) :
  accurate L ->
  py_gt0 d = true -> py_gt0 w = true -> py_gt0 h = true ->
  or_overflow (fun v => py_lt0 v = false)
    (on_package get_spent_calories "WLK" [a; d; w; h]).
Proof.
  intros HL Hd Hw Hh. rewrite on_package_WLK, walking_calories.
  unfold spec_walking_calories.
  apply (or_overflow_weaken signed_nonneg).
  { intros v (r & -> & Hr). now apply nan_or_nonneg. }
  assert (Hweight : nonneg_or_nan w) by now apply py_gt0_nonneg_or_nan.
  apply (binop_or_overflow signed_nonneg nonneg_or_nan).
  - apply (binop_or_overflow signed_nonneg signed_nonneg).
    + (* 0.035 * weight *)
      apply (binop_or_overflow (fun x => x = PyFloat 0.035) (fun y => y = w));
        [now apply or_overflow_Ok|now apply or_overflow_Ok|].
      intros x y -> ->. apply py_mul_signed; [now right|exact Hweight].
    + (* (speed ** 2 // height) * 0.029 * weight *)
      apply (binop_or_overflow signed_nonneg (fun y => y = w)); [|now apply or_overflow_Ok|].
      * apply (binop_or_overflow signed_nonneg (fun y => y = PyFloat 0.029));
          [|now apply or_overflow_Ok|].
        -- apply (binop_or_overflow signed_nonneg (fun y => y = h));
             [|now apply or_overflow_Ok|].
           ++ unfold sq.
              pose proof (spec_mean_speed_census False 0.65 a d (py_gt0_not_zero d Hd)) as Hs.
              apply or_overflow_of_census in Hs.
              destruct Hs as [->|(v & -> & Hv)]; [now left|]. cbn [mbind result_bind].
              destruct v as [z|s]; [destruct Hv|]. now apply py_sq_signed.
           ++ intros x y (g & -> & Hg) ->. now apply py_floordiv_signed.
        -- intros x y (g & -> & Hg) ->. apply py_mul_signed; [exact Hg|now right].
      * intros x y (g & -> & Hg) ->. now apply py_mul_signed.
    + intros x y (f & -> & Hf) (g & -> & Hg). apply or_overflow_Ok. now apply py_add_signed.
  - (* the minutes *)
    apply (binop_or_overflow (fun y => py_gt0 y = true) (fun y => py_gt0 y = true));
      [now apply or_overflow_Ok|now apply or_overflow_Ok|].
    intros x y. apply py_mul_gt0.
  - intros x y (g & -> & Hg) Hy. now apply py_mul_signed.
Qed.

(** X13 at the walking sample, and at a workout whose calories are a
    NaN, with the correctly rounded library. *)
Lemma walking_calories_never_negative_witness :
  let L := correctly_rounded in
  or_overflow (fun v => py_lt0 v = false)
    (on_package get_spent_calories "WLK" [PyInt 9000; PyInt 1; PyInt 75; PyInt 180]) /\
  on_package get_spent_calories "WLK" [PyInt 9000; PyFloat 1e307; PyFloat 5e-324; PyInt 180]
  = Ok (PyFloat nan).
Proof.
  intros L.
  split; [|vm_compute; reflexivity].
  apply (walking_calories_never_negative (PyInt 9000) (PyInt 1) (PyInt 75) (PyInt 180));
    [exact correctly_rounded_accurate|reflexivity..].
Defined.

(** ** Ordinary numbers *)

Lemma ordinary_converts x : ordinary x -> exists f, to_double x = Ok f.
Proof.
  destruct x as [z|f]; cbn [ordinary to_double]; [|eauto].
  intros Hz. apply PyLong_AsDouble_range.
  assert (2 ^ 1000 < 2 ^ 1023) by (apply Z.pow_lt_mono_r; lia). lia.
Qed.

(** ** The float path of the operators, operand by operand *)

Lemma py_mul_float_left x y fy :
  to_double y = Ok fy -> py_mul (PyFloat x) y = Ok (PyFloat (x * fy)).
Proof.
  intros Hy. unfold py_mul.
  assert (H : (a ← to_double (PyFloat x); b ← to_double y; Ok (PyFloat (a * b)%float))
              = Ok (PyFloat (x * fy)))
    by (cbn [to_double mbind result_bind]; now rewrite Hy).
  destruct y; exact H.
Qed.

Lemma py_mul_float_right x y fx :
  to_double x = Ok fx -> py_mul x (PyFloat y) = Ok (PyFloat (fx * y)).
Proof.
  intros Hx. unfold py_mul.
  assert (H : (a ← to_double x; b ← to_double (PyFloat y); Ok (PyFloat (a * b)%float))
              = Ok (PyFloat (fx * y)))
    by (rewrite Hx; reflexivity).
  destruct x; exact H.
Qed.

Lemma py_truediv_float_left x y fy :
  to_double y = Ok fy -> py_eq0 y = false ->
  py_truediv (PyFloat x) y = Ok (PyFloat (x / fy)).
Proof.
  intros Hy Hz. pose proof (to_double_eq0 y fy Hy) as H0. rewrite Hz in H0.
  unfold py_truediv.
  assert (H : (a ← to_double (PyFloat x); b ← to_double y;
               if (b =? 0)%float then Raise ZeroDivisionError else Ok (PyFloat (a / b)%float))
              = Ok (PyFloat (x / fy)))
    by (cbn [to_double mbind result_bind]; rewrite Hy; cbn [mbind result_bind]; now rewrite H0).
  destruct y; exact H.
Qed.

Lemma spec_distance_cases step a :
  (exists fa, to_double a = Ok fa /\
              spec_distance step a = Ok (PyFloat (fa * step / 1000))) \/
  (to_double a = Raise OverflowError /\ spec_distance step a = Raise OverflowError).
Proof.
  unfold spec_distance, binop, flt, int. cbn [mbind result_bind].
  destruct (to_double_total a) as [E|[fa E]]; [right|left].
  - split; [exact E|]. unfold py_mul.
    assert (H : (x ← to_double a; y ← to_double (PyFloat step); Ok (PyFloat (x * y)%float))
                = Raise OverflowError) by now rewrite E.
    destruct a; [now rewrite H|discriminate E].
  - exists fa. split; [exact E|]. rewrite (py_mul_float_right a step fa E).
    cbn [mbind result_bind]. reflexivity.
Qed.

(** X14. [get_distance()] depends on the conversion of the step count
    alone: for a workout that [read_package] builds it raises
    [OverflowError] exactly when the action is an [int] that does not
    convert to a [float], and returns the float
    [action * LEN_STEP / 1000] otherwise. It returns for every [float]
    action and every [int] action below 2**1023 in absolute value, and
    raises for every [int] action from 2**1024 on. *)
Theorem get_distance_domain (code : string) (data : list num) (training : object) (a : num) :
  read_package code data = Ok training ->
  data !! 0%nat = Some a ->
  (eval get_distance training = Raise OverflowError <-> to_double a = Raise OverflowError) /\
  (forall fa, to_double a = Ok fa ->
     exists step, attr "LEN_STEP" training = Ok (PyFloat step) /\
                  eval get_distance training = Ok (PyFloat (fa * step / 1000))) /\
  (forall z, a = PyInt z -> Z.abs z < 2 ^ 1023 -> exists g, eval get_distance training = Ok (PyFloat g)) /\
  (forall z, a = PyInt z -> 2 ^ 1024 <= Z.abs z -> eval get_distance training = Raise OverflowError).
Proof.
  intros Hr Ha.
  assert (H : exists step, attr "LEN_STEP" training = Ok (PyFloat step) /\
                           eval get_distance training = spec_distance step a).
  { destruct (read_package_Ok code data training Hr)
      as [(a' & d & w & -> & -> & ->)|[(a' & d & w & h & -> & -> & ->)|
          (a' & d & w & l & c & -> & -> & ->)]];
      injection Ha as ->.
    - exists 0.65%float. split; [vm_compute; reflexivity|apply running_distance].
    - exists 0.65%float. split; [vm_compute; reflexivity|apply walking_distance].
    - exists 1.38%float. split; [vm_compute; reflexivity|apply swimming_distance]. }
  destruct H as (step & Hstep & ->).
  assert (Hconv : forall fa, to_double a = Ok fa ->
            spec_distance step a = Ok (PyFloat (fa * step / 1000))).
  { intros fa E. destruct (spec_distance_cases step a) as [(fa' & E' & ->)|[E' _]]; congruence. }
  repeat apply conj.
  - intros E. destruct (spec_distance_cases step a) as [(fa & _ & E')|[E' _]]; congruence.
  - intros E. destruct (spec_distance_cases step a) as [(fa & E' & _)|[_ E']]; congruence.
  - intros fa E. exists step. auto.
  - intros z -> Hz. destruct (proj1 (PyLong_AsDouble_range z) Hz) as [fa E].
    rewrite (Hconv fa E). eauto.
  - intros z -> Hz. pose proof (proj2 (PyLong_AsDouble_range z) Hz) as E.
    destruct (spec_distance_cases step (PyInt z)) as [(fa & E' & _)|[_ E']]; [|exact E'].
    cbn [to_double] in E'. congruence.
Qed.

(** X14 at the running sample and at the action 2**1024. *)
Lemma get_distance_domain_witness :
  eval get_distance (running (PyInt 15000) (PyInt 1) (PyInt 75)) <> Raise OverflowError /\
  eval get_distance (running (PyInt (2 ^ 1024)) (PyInt 1) (PyInt 75)) = Raise OverflowError.
Proof.
  split.
  - intros H.
    apply (proj1 (get_distance_domain "RUN" sample_running
                    (running (PyInt 15000) (PyInt 1) (PyInt 75)) (PyInt 15000)
                    eq_refl eq_refl)) in H.
    vm_compute in H. discriminate H.
  - destruct (get_distance_domain "RUN" [PyInt (2 ^ 1024); PyInt 1; PyInt 75]
                (running (PyInt (2 ^ 1024)) (PyInt 1) (PyInt 75)) (PyInt (2 ^ 1024))
                eq_refl eq_refl) as (_ & _ & _ & H).
    apply (H (2 ^ 1024)); [reflexivity|]. rewrite Z.abs_eq; [lia|now apply Z.pow_nonneg].
Defined.

(** ** A running workout always reports *)

Lemma minutes_convert d :
  ordinary d ->
  exists m fm, py_mul d (PyInt 60) = Ok m /\ to_double m = Ok fm.
Proof.
  destruct d as [z|f]; cbn [ordinary]; intros Hd.
  - exists (PyInt (z * 60)). cbn [py_mul to_double].
    destruct (proj1 (PyLong_AsDouble_range (z * 60))) as [fm E]; [|eauto].
    assert (2 ^ 1000 * 60 < 2 ^ 1023).
    { replace 1023 with (1000 + 23) by lia. rewrite Z.pow_add_r by lia.
      assert (0 < 2 ^ 1000) by now apply Z.pow_pos_nonneg.
      change (2 ^ 23) with 8388608. lia. }
    lia.
  - exists (PyFloat (f * 60)), (f * 60)%float. split; reflexivity.
Qed.

(** X15. A running workout of ordinary numbers (floats of any kind, ints
    below 2**1000 in absolute value) with a duration that is not zero
    always reports: the three statistics return floats,
    [show_training_info()] returns the message with the class name
    [Running] and the duration as given, and [main] prints a line. *)
Theorem running_always_reports {L : Libm} (a d w : num) :
  ordinary a -> ordinary d -> ordinary w -> py_eq0 d = false ->
  exists (di s c : float) (line : string),
    eval get_distance (running a d w) = Ok (PyFloat di) /\
    eval get_mean_speed (running a d w) = Ok (PyFloat s) /\
    eval get_spent_calories (running a d w) = Ok (PyFloat c) /\
    eval show_training_info (running a d w)
    = Ok {| training_type := "Running"; duration := d; distance := PyFloat di;
            speed := PyFloat s; calories := PyFloat c |} /\
    main (running a d w) = Ok line.
Proof.
  intros Ha Hd Hw Hz.
  destruct (ordinary_converts a Ha) as [fa Ea].
  destruct (ordinary_converts d Hd) as [fd Ed].
  destruct (ordinary_converts w Hw) as [fw Ew].
  destruct (minutes_convert d Hd) as (m & fm & Em & Efm).
  assert (Hdi : eval get_distance (running a d w) = Ok (PyFloat (fa * 0.65 / 1000))).
  { rewrite running_distance.
    destruct (spec_distance_cases 0.65 a) as [(fa' & E & ->)|[E _]]; congruence. }
  assert (Hs : eval get_mean_speed (running a d w) = Ok (PyFloat (fa * 0.65 / 1000 / fd))).
  { rewrite running_mean_speed. unfold spec_mean_speed. rewrite <- running_distance with (d := d) (w := w).
    rewrite Hdi. unfold binop. cbn [mbind result_bind].
    now apply py_truediv_float_left. }
  set (s := (fa * 0.65 / 1000 / fd)%float) in *.
  assert (Hc : eval get_spent_calories (running a d w)
               = Ok (PyFloat ((18 * s - 20) * fw / 1000 * fm))).
  { rewrite running_calories. unfold spec_running_calories.
    rewrite <- running_mean_speed with (w := w). rewrite Hs.
    change (int 18 * Ok (PyFloat s) - int 20)%py with (Ok (PyFloat (18 * s - 20)%float)).
    unfold binop, int. cbn [mbind result_bind].
    rewrite (py_mul_float_left _ w fw Ew). cbn [mbind result_bind].
    change (py_truediv (PyFloat ((18 * s - 20) * fw)) (PyInt 1000))
      with (Ok (PyFloat ((18 * s - 20) * fw / 1000)%float)).
    cbn [mbind result_bind]. rewrite Em. cbn [mbind result_bind].
    now apply py_mul_float_left. }
  assert (Hinfo : eval show_training_info (running a d w)
    = Ok {| training_type := "Running"; duration := d;
            distance := PyFloat (fa * 0.65 / 1000); speed := PyFloat s;
            calories := PyFloat ((18 * s - 20) * fw / 1000 * fm) |}).
  { rewrite show_training_info_eval, Hdi, Hs, Hc.
    replace (attr "duration_km" (running a d w)) with (Ok d) by (vm_compute; reflexivity).
    reflexivity. }
  eexists _, _, _, _. repeat apply conj; [exact Hdi|exact Hs|exact Hc|exact Hinfo|].
  unfold main. rewrite Hinfo. cbn [mbind result_bind].
  unfold get_message, format_3f. cbn [duration distance speed calories to_double].
  rewrite Ed. cbn [mbind result_bind]. reflexivity.
Qed.

(** X15 at a workout run backwards: the statistics are negative, and
    reported, with the correctly rounded library. *)
Lemma running_always_reports_witness :
  let L := correctly_rounded in
  exists line, main (running (PyInt (-15000)) (PyFloat 0.5) (PyInt 75)) = Ok line.
Proof.
  intros L.
  destruct (running_always_reports (PyInt (-15000)) (PyFloat 0.5) (PyInt 75))
    as (di & s & c & line & _ & _ & _ & _ & H).
  - cbn. assert (0 < 2 ^ 1000) by now apply Z.pow_pos_nonneg.
    assert (2 ^ 14 <= 2 ^ 1000) by (apply Z.pow_le_mono_r; lia). change (2 ^ 14) with 16384 in *. lia.
  - exact I.
  - cbn. assert (2 ^ 7 <= 2 ^ 1000) by (apply Z.pow_le_mono_r; lia). change (2 ^ 7) with 128 in *. lia.
  - reflexivity.
  - exists line. exact H.
Defined.
